(** * EcoTrackAI: archetype training, classification and recommendation rules

    A shallow embedding of the archetype subsystem of EcoTrackAI:

    - [ml_services/generate_synthetic_data.py]  (derived emission columns)
    - [ml_services/train_kmeans.py]             (cluster analysis)
    - [backend/services/kmeans_service.py]      (classifier, rule engine)
    - [backend/services/gemini_service.py]      (text enhancement)
    - [backend/routers/recommendations.py]      (the request handler)

    Numbers are modelled twice.  The modules [Train], [Service] and [Router]
    use exact rationals [Q]: their statements are about the arithmetic the
    code writes down, in the order it writes it.  The module [Binary64]
    embeds the cluster analysis and the rule engine over IEEE 754 binary64
    numbers, the arithmetic of Python's [float] and of numpy's [float64];
    the statements that depend on how a result is rounded are made there.  Python dictionaries with string keys are
    [gmap string _]; a dictionary whose iteration order matters is an
    association list.  A Python string is the list of the bytes of its
    UTF-8 encoding. *)

From Stdlib Require Import QArith Qround Qabs Qminmax ZArith String Ascii List Bool Lia Lqa.
From stdpp Require Import gmap strings list fin_maps pretty.
From Stdlib Require Import Floats.

Set Warnings "-inexact-float".

Local Open Scope Q_scope.

(* ===================================================================== *)
(** ** Python primitives used by the sources *)
(* ===================================================================== *)

Module Py.

(** [x < y] and [x > y] on numbers. *)
Definition ltb (x y : Q) : bool := negb (Qle_bool y x).
Definition gtb (x y : Q) : bool := ltb y x.

(** [sub in s] on strings. *)
Fixpoint contains (sub s : string) : bool :=
if String.prefix sub s then true
else match s with
     | EmptyString => false
     | String _ s' => contains sub s'
     end.

(** [s in [a, b, ...]] on a list of strings. *)
Definition in_list (s : string) (l : list string) : bool :=
existsb (String.eqb s) l.

(** [str.lower()], as far as a comparison with an ASCII word can tell.  An
  ASCII capital becomes its small letter, and the Kelvin sign U+212A
  (bytes 226, 132, 170), the one character outside ASCII whose lower case
  is an ASCII letter and nothing else, becomes "k".  Every other character
  is kept as it is; Python may put another character outside ASCII in its
  place, or for U+0130 an "i" followed by a combining dot. *)
Definition lower_ascii (c : ascii) : ascii :=
let n := N_of_ascii c in
if ((65 <=? n) && (n <=? 90))%N then ascii_of_N (n + 32) else c.

Definition is_kelvin (c1 c2 c3 : ascii) : bool :=
((N_of_ascii c1 =? 226) && (N_of_ascii c2 =? 132) && (N_of_ascii c3 =? 170))%N.

Fixpoint lower (s : string) : string :=
match s with
| EmptyString => EmptyString
| String c1 s1 =>
    match s1 with
    | String c2 (String c3 s3) =>
        if is_kelvin c1 c2 c3 then String "k" (lower s3)
        else String (lower_ascii c1) (lower s1)
    | _ => String (lower_ascii c1) (lower s1)
    end
end.

(** [str.isspace()] on one character.  The ASCII white space is the bytes
  9 to 13 and 28 to 32; the other white-space characters are U+0085,
  U+00A0, U+1680, U+2000 to U+200A, U+2028, U+2029, U+202F, U+205F and
  U+3000, of two or three bytes each in UTF-8. *)
Definition is_space (c : ascii) : bool :=
let n := N_of_ascii c in
(((9 <=? n) && (n <=? 13)) || ((28 <=? n) && (n <=? 32)))%N.

(** The whole string [s] is one white-space character. *)
Definition is_space_char (s : string) : bool :=
match s with
| String c EmptyString => is_space c
| String c1 (String c2 EmptyString) =>
    let n1 := N_of_ascii c1 in
    let n2 := N_of_ascii c2 in
    ((n1 =? 194) && ((n2 =? 133) || (n2 =? 160)))%N
| String c1 (String c2 (String c3 EmptyString)) =>
    let n1 := N_of_ascii c1 in
    let n2 := N_of_ascii c2 in
    let n3 := N_of_ascii c3 in
    (((n1 =? 225) && (n2 =? 154) && (n3 =? 128))
     || ((n1 =? 226) && (n2 =? 128)
         && (((128 <=? n3) && (n3 <=? 138)) || (n3 =? 168) || (n3 =? 169) || (n3 =? 175)))
     || ((n1 =? 226) && (n2 =? 129) && (n3 =? 159))
     || ((n1 =? 227) && (n2 =? 128) && (n3 =? 128)))%N
| _ => false
end.

(** [str.lstrip()], [str.rstrip()] and [str.strip()]: leading and trailing
  white-space characters removed. *)
Fixpoint lstrip (s : string) : string :=
match s with
| EmptyString => EmptyString
| String c1 s1 =>
    if is_space c1 then lstrip s1
    else
      match s1 with
      | EmptyString => s
      | String c2 s2 =>
          if is_space_char (String c1 (String c2 EmptyString)) then lstrip s2
          else
            match s2 with
            | EmptyString => s
            | String c3 s3 =>
                if is_space_char (String c1 (String c2 (String c3 EmptyString)))
                then lstrip s3
                else s
            end
      end
end.

Fixpoint rstrip (s : string) : string :=
match s with
| EmptyString => EmptyString
| String c s' =>
    let r := rstrip s' in
    if is_space_char (String c r) then EmptyString else String c r
end.

Definition strip (s : string) : string := rstrip (lstrip s).

(** [sum(xs)], adding from the left starting at 0, and [Series.mean()]. *)
Definition sum (xs : list Q) : Q := fold_left Qplus xs 0.

Definition mean (xs : list Q) : Q := sum xs / inject_Z (Z.of_nat (length xs)).

(** [round(x, ndigits)]: to the nearest multiple of [10^-ndigits], a tie
  going to the even neighbour. *)
Definition round_half_even (x : Q) : Z :=
let f := Qfloor x in
let r := x - inject_Z f in
if ltb r (1 # 2) then f
else if gtb r (1 # 2) then (f + 1)%Z
else if Z.even f then f else (f + 1)%Z.

Definition round (x : Q) (ndigits : nat) : Q :=
let p := inject_Z (10 ^ Z.of_nat ndigits) in
inject_Z (round_half_even (x * p)) / p.

(** [max(d, key=d.get)] over a dictionary in insertion order: the first
  key whose value no later value exceeds. *)
Fixpoint max_from (best : string * Q) (rest : list (string * Q)) : string * Q :=
match rest with
| [] => best
| kv :: rest' => max_from (if gtb kv.2 best.2 then kv else best) rest'
end.

Definition max_key (d : list (string * Q)) : option string :=
match d with
| [] => None
| kv :: rest => Some (max_from kv rest).1
end.

(** [d[k]] on an insertion-ordered dictionary. *)
Fixpoint item (d : list (string * Q)) (k : string) : option Q :=
match d with
| [] => None
| (k', v) :: d' => if String.eqb k k' then Some v else item d' k
end.

(** The built-in [max(a, b, c)]. *)
Definition max2 (a b : Q) : Q := if gtb b a then b else a.
Definition max3 (a b c : Q) : Q := max2 (max2 a b) c.

End Py.

(* ===================================================================== *)
(** ** ml_services/generate_synthetic_data.py and train_kmeans.py *)
(* ===================================================================== *)

Module Train.

(** One row of the synthetic-user data frame. *)
Record user_row := {
daily_miles_driven : Q;
meat_meals_per_week : Q;
vegetarian_meals_per_week : Q;
electricity_kwh_per_day : Q;
natural_gas_therms_per_month : Q;
flights_per_year : Q;
total_annual_emissions_kg : Q;
transport_emissions_kg : Q;
food_emissions_kg : Q;
energy_emissions_kg : Q;
flight_emissions_kg : Q
}.

(** [generate_synthetic_users], the part after the random draws: the
  derived emission columns of one user. *)
Definition synthetic_user
  (daily_miles meat_meals veg_meals electricity_kwh gas_therms flights : Q)
  : user_row :=
let transport_emissions := daily_miles * 365 * 0.411 in
let food_emissions := (meat_meals * 3.5 + veg_meals * 0.5) * 52 in
let energy_emissions := (electricity_kwh * 0.5 * 365) + (gas_therms * 5.3 * 12) in
let flight_emissions := flights * 900 in
let total_annual_emissions :=
  transport_emissions + food_emissions + energy_emissions + flight_emissions in
{| daily_miles_driven := Py.round daily_miles 2;
   meat_meals_per_week := meat_meals;
   vegetarian_meals_per_week := veg_meals;
   electricity_kwh_per_day := Py.round electricity_kwh 2;
   natural_gas_therms_per_month := Py.round gas_therms 2;
   flights_per_year := flights;
   total_annual_emissions_kg := Py.round total_annual_emissions 2;
   transport_emissions_kg := Py.round transport_emissions 2;
   food_emissions_kg := Py.round food_emissions 2;
   energy_emissions_kg := Py.round energy_emissions 2;
   flight_emissions_kg := Py.round flight_emissions 2 |}.

(** [prepare_features]: the columns the scaler and the model are fit on. *)
Definition feature_cols : list string :=
[ "daily_miles_driven";
  "meat_meals_per_week";
  "electricity_kwh_per_day";
  "natural_gas_therms_per_month";
  "flights_per_year";
  "transport_emissions_kg";
  "food_emissions_kg";
  "energy_emissions_kg" ]%string.

(** A row as the record the generator writes and [pd.read_json] reads
  back: its eleven numeric columns by name. *)
Definition columns (u : user_row) : gmap string Q :=
list_to_map
  [ ("daily_miles_driven", daily_miles_driven u);
    ("meat_meals_per_week", meat_meals_per_week u);
    ("vegetarian_meals_per_week", vegetarian_meals_per_week u);
    ("electricity_kwh_per_day", electricity_kwh_per_day u);
    ("natural_gas_therms_per_month", natural_gas_therms_per_month u);
    ("flights_per_year", flights_per_year u);
    ("total_annual_emissions_kg", total_annual_emissions_kg u);
    ("transport_emissions_kg", transport_emissions_kg u);
    ("food_emissions_kg", food_emissions_kg u);
    ("energy_emissions_kg", energy_emissions_kg u);
    ("flight_emissions_kg", flight_emissions_kg u) ]%string.

(** The matrix [X = df[feature_cols].values] of [prepare_features]: one
  vector per row, its entries in the order of [feature_cols]; [None]
  stands for the [KeyError] of a column that is not there. *)
Definition X (df : list user_row) : option (list (list Q)) :=
mapM (fun u => mapM (fun col => columns u !! col) feature_cols) df.

(** [cluster_data[col].mean()]. *)
Definition col_mean (col : user_row -> Q) (cluster_data : list user_row) : Q :=
Py.mean (map col cluster_data).

Record cluster_stats := {
size : nat;
avg_total_emissions : Q;
avg_daily_miles : Q;
avg_meat_meals : Q;
avg_electricity : Q;
avg_flights : Q
}.

Record cluster_description := {
archetype : string;
stats : cluster_stats;
transport_ratio : Q;
food_ratio : Q;
energy_ratio : Q;
flight_ratio : Q;
dominant_source : option string;
dominant_ratio : option Q
}.

(** The four ratios of one cluster, in the order the [ratios] dictionary
  is built. *)
Definition ratios_of (cluster_data : list user_row) : list (string * Q) :=
let transport_ratio :=
  col_mean transport_emissions_kg cluster_data / col_mean total_annual_emissions_kg cluster_data in
let food_ratio :=
  col_mean food_emissions_kg cluster_data / col_mean total_annual_emissions_kg cluster_data in
let energy_ratio :=
  col_mean energy_emissions_kg cluster_data / col_mean total_annual_emissions_kg cluster_data in
let flight_ratio :=
  col_mean flight_emissions_kg cluster_data / col_mean total_annual_emissions_kg cluster_data in
[ ("transport", transport_ratio);
  ("food", food_ratio);
  ("energy", energy_ratio);
  ("flight", flight_ratio) ]%string.

(** The label cascade of [analyze_clusters], as the [if]/[elif] chain is
  written. *)
Definition label
  (dominant : option string)
  (avg_total avg_electricity avg_meat : Q)
  (transport_ratio food_ratio energy_ratio flight_ratio : Q) : string :=
let dominant_is (s : string) :=
  match dominant with Some d => String.eqb d s | None => false end in
if Py.ltb avg_total 6000 then "Low Total Emissions"
else if dominant_is "transport" && Py.gtb transport_ratio 0.30
        && Py.gtb transport_ratio (energy_ratio * 1.1) then
  "High Transportation"
else if dominant_is "food" && Py.gtb food_ratio 0.20 then
  "High Food Emissions"
else if dominant_is "energy" then
  if Py.gtb avg_electricity 100 then "Very High Energy Usage"
  else if Py.gtb avg_meat 8 then "High Energy & Food Usage"
  else if Py.ltb avg_total 12000 then "Moderate Energy Usage"
  else "High Energy Usage"
else if dominant_is "flight" && Py.gtb flight_ratio 0.15 then
  "High Flight Emissions"
else
  if Py.ltb (Py.max3 transport_ratio food_ratio energy_ratio) 0.50 then
    "Balanced Emissions"
  else "High Energy Usage".

(** The body of the loop of [analyze_clusters] for one cluster. *)
Definition describe_cluster (cluster_data : list user_row) : cluster_description :=
let stats :=
  {| size := length cluster_data;
     avg_total_emissions := col_mean total_annual_emissions_kg cluster_data;
     avg_daily_miles := col_mean daily_miles_driven cluster_data;
     avg_meat_meals := col_mean meat_meals_per_week cluster_data;
     avg_electricity := col_mean electricity_kwh_per_day cluster_data;
     avg_flights := col_mean flights_per_year cluster_data |} in
let transport_ratio :=
  col_mean transport_emissions_kg cluster_data / col_mean total_annual_emissions_kg cluster_data in
let food_ratio :=
  col_mean food_emissions_kg cluster_data / col_mean total_annual_emissions_kg cluster_data in
let energy_ratio :=
  col_mean energy_emissions_kg cluster_data / col_mean total_annual_emissions_kg cluster_data in
let flight_ratio :=
  col_mean flight_emissions_kg cluster_data / col_mean total_annual_emissions_kg cluster_data in
let ratios := ratios_of cluster_data in
let dominant := Py.max_key ratios in
let dominant_ratio :=
  match dominant with Some d => Py.item ratios d | None => None end in
let avg_total := col_mean total_annual_emissions_kg cluster_data in
let avg_electricity := col_mean electricity_kwh_per_day cluster_data in
let avg_meat := col_mean meat_meals_per_week cluster_data in
{| archetype :=
     label dominant avg_total avg_electricity avg_meat
           transport_ratio food_ratio energy_ratio flight_ratio;
   stats := stats;
   transport_ratio := Py.round transport_ratio 3;
   food_ratio := Py.round food_ratio 3;
   energy_ratio := Py.round energy_ratio 3;
   flight_ratio := Py.round flight_ratio 3;
   dominant_source := dominant;
   dominant_ratio :=
     match dominant_ratio with Some r => Some (Py.round r 3) | None => None end |}.

(** [analyze_clusters]: rows are grouped by the label the model gave them
  and each group is described. *)
Definition members (df : list user_row) (labels_ : list nat) (cluster_id : nat)
  : list user_row :=
map fst (filter (fun rl => rl.2 = cluster_id) (zip df labels_)).

Definition analyze_clusters (df : list user_row) (labels_ : list nat) (n_clusters : nat)
  : list (nat * cluster_description) :=
map (fun cluster_id => (cluster_id, describe_cluster (members df labels_ cluster_id)))
    (seq 0 n_clusters).

End Train.

(* ===================================================================== *)
(** ** backend/services/kmeans_service.py *)
(* ===================================================================== *)

(** How the f-strings of the rule engine print a float: [{x:.1f}] and
    [{x}].  Both are the interpreter's business; the rule engine is
    parametric in them. *)
Class FloatFormat := {
  fmt_1f : Q -> string;
  fmt_str : Q -> string
}.

Module Service.

(** The fitted objects the pickles hold, as far as inference reads them:
  [StandardScaler.transform] subtracts [mean_] and divides by [scale_];
  [KMeans.predict] takes the nearest of [cluster_centers_], the first
  one on a tie. *)
Record StandardScaler := { mean_ : list Q; scale_ : list Q }.
Record KMeans := { cluster_centers_ : list (list Q) }.

Fixpoint transform_row (xs ms ss : list Q) : list Q :=
match xs, ms, ss with
| x :: xs', m :: ms', s :: ss' => ((x - m) / s) :: transform_row xs' ms' ss'
| _, _, _ => []
end.

Definition transform (scaler : StandardScaler) (x : list Q) : list Q :=
transform_row x (mean_ scaler) (scale_ scaler).

Fixpoint sq_dist (x c : list Q) : Q :=
match x, c with
| a :: x', b :: c' => (a - b) * (a - b) + sq_dist x' c'
| _, _ => 0
end.

Fixpoint argmin_from (best_i : nat) (best : Q) (i : nat) (ds : list Q) : nat :=
match ds with
| [] => best_i
| d :: ds' =>
    if Py.ltb d best then argmin_from i d (S i) ds'
    else argmin_from best_i best (S i) ds'
end.

Definition predict (kmeans : KMeans) (x : list Q) : nat :=
match map (sq_dist x) (cluster_centers_ kmeans) with
| [] => 0%nat
| d :: ds => argmin_from 0 d 1 ds
end.

(** The three files under [MODEL_DIR]; [None] is a file that is not
  there.  [cluster_descriptions.json] is the dictionary training wrote,
  its integer keys turned into strings by the JSON encoder. *)
Record model_files := {
kmeans_pkl : option KMeans;
scaler_pkl : option StandardScaler;
cluster_descriptions_json : option (gmap string Train.cluster_description)
}.

(** [load_kmeans_model]: the files are opened in this order, and the first
  missing one ends the [try] block in the [FileNotFoundError] handler. *)
Definition load_kmeans_model (files : model_files)
  : option KMeans * option StandardScaler
    * option (gmap string Train.cluster_description) :=
match kmeans_pkl files with
| None => (None, None, None)
| Some kmeans =>
    match scaler_pkl files with
    | None => (None, None, None)
    | Some scaler =>
        match cluster_descriptions_json files with
        | None => (None, None, None)
        | Some cluster_descriptions =>
            (Some kmeans, Some scaler, Some cluster_descriptions)
        end
    end
end.

Definition feature_cols : list string :=
[ "daily_miles_driven";
  "meat_meals_per_week";
  "electricity_kwh_per_day";
  "natural_gas_therms_per_month";
  "flights_per_year";
  "transport_emissions_kg";
  "food_emissions_kg";
  "energy_emissions_kg" ]%string.

(** [user_emission_data.get(col, 0.0)]. *)
Definition get (user_emission_data : gmap string Q) (col : string) (dflt : Q) : Q :=
default dflt (user_emission_data !! col).

(** [[user_emission_data.get(col, 0.0) for col in feature_cols]]. *)
Definition feature_vector (user_emission_data : gmap string Q) : list Q :=
map (fun col => get user_emission_data col 0) feature_cols.

(** The dictionary [classify_user_archetype] returns; [description] is
  [None] for the empty dictionary [{}]. *)
Record classification := {
cluster_id : nat;
archetype : string;
description : option Train.cluster_description;
cluster_stats : option Train.cluster_stats
}.

Definition classify_user_archetype
  (files : model_files) (user_emission_data : gmap string Q)
  : option classification :=
match load_kmeans_model files with
| (Some kmeans, Some scaler, Some cluster_descriptions) =>
    let feature_vector := feature_vector user_emission_data in
    let feature_vector_scaled := transform scaler feature_vector in
    let cluster_id := predict kmeans feature_vector_scaled in
    let cluster_info := cluster_descriptions !! (pretty cluster_id) in
    Some {| cluster_id := cluster_id;
            archetype :=
              match cluster_info with
              | Some info => Train.archetype info
              | None => "Unknown"
              end;
            description := cluster_info;
            cluster_stats := Train.stats <$> cluster_info |}
| _ => None
end.

(** A recommendation dictionary of the rule engine. *)
Record recommendation := {
title : string;
rec_description : string;
estimated_savings_kg : Q;
category : string;
priority : string
}.

Section Rules.
Context `{FloatFormat}.

Definition transport_rule (user_emission_data : gmap string Q) (archetype : string)
: list recommendation :=
  if Py.contains "Transportation" archetype
 || Py.gtb (get user_emission_data "transport_emissions_kg" 0) 2000 then
let miles := get user_emission_data "daily_miles_driven" 0 in
if Py.gtb miles 30 then
  let savings := (miles - 25) * 0.411 * 7 in
  [ {| title := "Reduce Daily Driving";
       rec_description :=
         "Reduce driving by " +:+ fmt_1f (miles - 25) +:+ " miles/week";
       estimated_savings_kg := savings;
       category := "transportation";
       priority := "high" |} ]
else []
  else [].

Definition food_rule (user_emission_data : gmap string Q) (archetype : string)
: list recommendation :=
  if Py.contains "Food" archetype
 || Py.gtb (get user_emission_data "food_emissions_kg" 0) 1500 then
let meat_meals := get user_emission_data "meat_meals_per_week" 0 in
if Py.gtb meat_meals 7 then
  let savings := (meat_meals - 5) * 3.5 in
  [ {| title := "Reduce Meat Consumption";
       rec_description :=
         "Replace " +:+ fmt_str (meat_meals - 5)
         +:+ " meat meals per week with vegetarian options";
       estimated_savings_kg := savings * 52;
       category := "food";
       priority := "high" |} ]
else []
  else [].

Definition energy_rule (user_emission_data : gmap string Q) (archetype : string)
: list recommendation :=
  if Py.contains "Energy" archetype
 || Py.gtb (get user_emission_data "energy_emissions_kg" 0) 3000 then
let electricity := get user_emission_data "electricity_kwh_per_day" 0 in
if Py.gtb electricity 30 then
  let savings := (electricity - 25) * 0.5 * 365 in
  [ {| title := "Reduce Energy Consumption";
       rec_description :=
         "Reduce daily electricity usage by " +:+ fmt_1f (electricity - 25)
         +:+ " kWh";
       estimated_savings_kg := savings;
       category := "energy";
       priority := "medium" |} ]
else []
  else [].

Definition maintain_low : recommendation :=
  {| title := "Maintain Low Emissions";
 rec_description := "You're doing great! Continue your sustainable habits.";
 estimated_savings_kg := 0;
 category := "general";
 priority := "low" |}.

Definition low_rule (archetype : string) : list recommendation :=
  if Py.contains "Low" archetype then [maintain_low] else [].

Definition track_progress : recommendation :=
  {| title := "Track Your Progress";
 rec_description :=
   "Continue logging activities to get personalized recommendations";
 estimated_savings_kg := 0;
 category := "general";
 priority := "low" |}.

(** [generate_rule_based_recommendations]: the four blocks append to one
list in source order; the last block looks at the list so far. *)
Definition generate_rule_based_recommendations
(user_emission_data : gmap string Q) (archetype : string)
: list recommendation :=
  let recommendations := [] in
  let recommendations :=
recommendations ++ transport_rule user_emission_data archetype in
  let recommendations :=
recommendations ++ food_rule user_emission_data archetype in
  let recommendations :=
recommendations ++ energy_rule user_emission_data archetype in
  let recommendations := recommendations ++ low_rule archetype in
  match recommendations with
  | [] => recommendations ++ [track_progress]
  | _ :: _ => recommendations
  end.

End Rules.

End Service.

(* ===================================================================== *)
(** ** backend/services/gemini_service.py *)
(* ===================================================================== *)

Module Gemini.

(** The hosted text model as the service sees it: the environment
  variable, and what [get_gemini_model()], [generate_content(prompt)]
  and [response.text] give for a prompt — [None] when any of them
  raises. *)
Record collaborator := {
GEMINI_API_KEY : option string;
generate_content : string -> option string
}.

Definition nl : string := String "010"%char EmptyString.
Definition dquote : string := String "034"%char EmptyString.

Definition recommendation_prompt (rule_based_recommendation : string) : string :=
nl +:+ "Rewrite this carbon reduction recommendation in a friendly, encouraging, and engaging way."
+:+ nl +:+ "Keep the key information (numbers, actions) but make it more conversational and motivating."
+:+ nl +:+ nl +:+ "Original recommendation: " +:+ dquote +:+ rule_based_recommendation +:+ dquote
+:+ nl +:+ nl +:+ "Return only the rewritten recommendation text, nothing else."
+:+ nl.

(** [not GEMINI_API_KEY]: unset or empty. *)
Definition no_key (g : collaborator) : bool :=
match GEMINI_API_KEY g with
| None => true
| Some EmptyString => true
| Some (String _ _) => false
end.

Definition generate_recommendation_text
  (g : collaborator) (rule_based_recommendation : string) : string :=
if no_key g then rule_based_recommendation
else
  match generate_content g (recommendation_prompt rule_based_recommendation) with
  | Some text => Py.strip text
  | None => rule_based_recommendation
  end.

(** The collaborator is unavailable or fails on this request. *)
Definition fails_on (g : collaborator) (rule_based_recommendation : string) : Prop :=
no_key g = true
\/ generate_content g (recommendation_prompt rule_based_recommendation) = None.

End Gemini.

(* ===================================================================== *)
(** ** backend/routers/recommendations.py *)
(* ===================================================================== *)

Module Router.

(** An activity row as the handler reads it.  A field is [None] when the
  key is absent; [date] is the parsed, UTC-normalised instant in
  microseconds ([None] also for a null or empty value). *)
Record activity := {
date : option Z;
activity_category : option string;
co2e_kg : option Q;
unit : option string;
activity_subtype : option string;
amount : option Q
}.

(** [timedelta(days=n)] in microseconds. *)
Definition timedelta_days (n : Z) : Z := (n * 86400 * 1000000)%Z.

(** The first loop: activities dated within the last 30 days. *)
Definition is_recent (now : Z) (act : activity) : bool :=
let thirty_days_ago := (now - timedelta_days 30)%Z in
match date act with
| Some act_date => (thirty_days_ago <=? act_date)%Z
| None => false
end.

Definition recent_activities (now : Z) (all_activities : list activity)
  : list activity :=
List.filter (is_recent now) all_activities.

(** The accumulators of the second loop. *)
Record totals := {
daily_miles : Q;
meat_meals : Z;
veg_meals : Z;
electricity_kwh : Q;
gas_therms : Q;
flights : Z;
transport_emissions : Q;
food_emissions : Q;
energy_emissions : Q
}.

Definition zero_totals : totals :=
{| daily_miles := 0; meat_meals := 0; veg_meals := 0; electricity_kwh := 0;
   gas_therms := 0; flights := 0; transport_emissions := 0;
   food_emissions := 0; energy_emissions := 0 |}.

(** One iteration of [for act in recent_activities]. *)
Definition accumulate (t : totals) (act : activity) : totals :=
let category := default "" (activity_category act) in
let emissions := default 0 (co2e_kg act) in
let unit := Py.lower (default "" (unit act)) in
let subtype := Py.lower (default "" (activity_subtype act)) in
let amount := default 0 (amount act) in
if String.eqb category "transportation" then
  let t := {| daily_miles := daily_miles t; meat_meals := meat_meals t;
              veg_meals := veg_meals t; electricity_kwh := electricity_kwh t;
              gas_therms := gas_therms t; flights := flights t;
              transport_emissions := transport_emissions t + emissions;
              food_emissions := food_emissions t;
              energy_emissions := energy_emissions t |} in
  if Py.in_list unit ["miles"; "km"]%string then
    {| daily_miles := daily_miles t + amount / 30; meat_meals := meat_meals t;
       veg_meals := veg_meals t; electricity_kwh := electricity_kwh t;
       gas_therms := gas_therms t; flights := flights t;
       transport_emissions := transport_emissions t;
       food_emissions := food_emissions t;
       energy_emissions := energy_emissions t |}
  else t
else if String.eqb category "food" then
  let t := {| daily_miles := daily_miles t; meat_meals := meat_meals t;
              veg_meals := veg_meals t; electricity_kwh := electricity_kwh t;
              gas_therms := gas_therms t; flights := flights t;
              transport_emissions := transport_emissions t;
              food_emissions := food_emissions t + emissions;
              energy_emissions := energy_emissions t |} in
  if Py.contains "meat" subtype || Py.contains "beef" subtype then
    {| daily_miles := daily_miles t; meat_meals := meat_meals t + 1;
       veg_meals := veg_meals t; electricity_kwh := electricity_kwh t;
       gas_therms := gas_therms t; flights := flights t;
       transport_emissions := transport_emissions t;
       food_emissions := food_emissions t;
       energy_emissions := energy_emissions t |}
  else
    {| daily_miles := daily_miles t; meat_meals := meat_meals t;
       veg_meals := veg_meals t + 1; electricity_kwh := electricity_kwh t;
       gas_therms := gas_therms t; flights := flights t;
       transport_emissions := transport_emissions t;
       food_emissions := food_emissions t;
       energy_emissions := energy_emissions t |}
else if String.eqb category "energy" then
  let t := {| daily_miles := daily_miles t; meat_meals := meat_meals t;
              veg_meals := veg_meals t; electricity_kwh := electricity_kwh t;
              gas_therms := gas_therms t; flights := flights t;
              transport_emissions := transport_emissions t;
              food_emissions := food_emissions t;
              energy_emissions := energy_emissions t + emissions |} in
  if Py.in_list unit ["kwh"; "kilowatt-hour"]%string then
    {| daily_miles := daily_miles t; meat_meals := meat_meals t;
       veg_meals := veg_meals t; electricity_kwh := electricity_kwh t + amount / 30;
       gas_therms := gas_therms t; flights := flights t;
       transport_emissions := transport_emissions t;
       food_emissions := food_emissions t;
       energy_emissions := energy_emissions t |}
  else if Py.contains "therm" unit then
    {| daily_miles := daily_miles t; meat_meals := meat_meals t;
       veg_meals := veg_meals t; electricity_kwh := electricity_kwh t;
       gas_therms := gas_therms t + amount / 30; flights := flights t;
       transport_emissions := transport_emissions t;
       food_emissions := food_emissions t;
       energy_emissions := energy_emissions t |}
  else t
else t.

Definition aggregate (recent : list activity) : totals :=
fold_left accumulate recent zero_totals.

(** The [user_emission_data] dictionary built from the accumulators. *)
Definition emission_data_of (t : totals) : gmap string Q :=
list_to_map
  [ ("daily_miles_driven", daily_miles t);
    ("meat_meals_per_week", (inject_Z (meat_meals t) / 30) * 7);
    ("vegetarian_meals_per_week", (inject_Z (veg_meals t) / 30) * 7);
    ("electricity_kwh_per_day", electricity_kwh t);
    ("natural_gas_therms_per_month", gas_therms t * 30);
    ("flights_per_year", inject_Z (flights t * 12));
    ("transport_emissions_kg", transport_emissions t * 365 / 30);
    ("food_emissions_kg", food_emissions t * 365 / 30);
    ("energy_emissions_kg", energy_emissions t * 365 / 30) ]%string.

(** The feature pipeline of the handler: window, aggregate, derive. *)
Definition user_emission_data (now : Z) (all_activities : list activity)
  : gmap string Q :=
emission_data_of (aggregate (recent_activities now all_activities)).

Record response := {
user_archetype : string;
recommendations : list Service.recommendation;
total_potential_savings_kg : Q
}.

Definition start_logging : Service.recommendation :=
{| Service.title := "Start Logging Activities";
   Service.rec_description :=
     "Begin logging your daily activities to receive personalized recommendations.";
   Service.estimated_savings_kg := 0;
   Service.category := "general";
   Service.priority := "low" |}.

Section Handler.
Context `{FloatFormat}.

(** The body of the enhancement loop for one rule recommendation. *)
Definition enhance (g : Gemini.collaborator) (rec : Service.recommendation)
: Service.recommendation :=
  let enhanced_description :=
Gemini.generate_recommendation_text g
  (Service.title rec +:+ ": " +:+ Service.rec_description rec) in
  {| Service.title := Service.title rec;
 Service.rec_description := enhanced_description;
 Service.estimated_savings_kg := Service.estimated_savings_kg rec;
 Service.category := Service.category rec;
 Service.priority := Service.priority rec |}.

Definition get_recommendations
(files : Service.model_files) (g : Gemini.collaborator)
(now : Z) (all_activities : list activity) : response :=
  match all_activities with
  | [] =>
  {| user_archetype := "Unknown";
     recommendations := [start_logging];
     total_potential_savings_kg := 0 |}
  | _ :: _ =>
  let user_emission_data := user_emission_data now all_activities in
  let archetype_result :=
    Service.classify_user_archetype files user_emission_data in
  let archetype :=
    match archetype_result with
    | Some r => Service.archetype r
    | None => "Unknown"
    end in
  let rule_recommendations :=
    Service.generate_rule_based_recommendations user_emission_data archetype in
  let enhanced_recommendations := map (enhance g) rule_recommendations in
  let total_savings :=
    Py.sum (map Service.estimated_savings_kg enhanced_recommendations) in
  {| user_archetype := archetype;
     recommendations := enhanced_recommendations;
     total_potential_savings_kg := total_savings |}
  end.

End Handler.

End Router.

(* ===================================================================== *)
(** ** The cluster analysis and the rule engine in binary floating point *)
(* ===================================================================== *)

(** Python's [float] and numpy's [float64] are IEEE 754 binary64 numbers
    with round-to-nearest-even arithmetic, and so are the primitive floats
    of the prover: [+], [-], [*], [/] and [<?] below are the operations the
    interpreter performs, infinities and NaN included.  A decimal literal
    stands for the nearest binary64 number, as it does in Python. *)
Module Binary64.

Local Open Scope float_scope.

(** [x < y] and [x > y]: false when either side is NaN. *)
Definition ltb (x y : float) : bool := x <? y.
Definition gtb (x y : float) : bool := y <? x.

Definition lt (x y : float) : Prop := ltb x y = true.
Definition le (x y : float) : Prop := (x <=? y) = true.

#[global] Instance lt_decision (x y : float) : Decision (lt x y) :=
  decide (ltb x y = true).
#[global] Instance le_decision (x y : float) : Decision (le x y) :=
  decide ((x <=? y) = true).

(** [max(d, key=d.get)] over a dictionary in insertion order: the running
    maximum is replaced by a later entry only when that entry's value is
    greater. *)
Fixpoint max_from (best : string * float) (rest : list (string * float))
    : string * float :=
  match rest with
  | [] => best
  | kv :: rest' => max_from (if gtb kv.2 best.2 then kv else best) rest'
  end.

Definition max_key (d : list (string * float)) : option string :=
  match d with
  | [] => None
  | kv :: rest => Some (max_from kv rest).1
  end.

(** [d[k]] on an insertion-ordered dictionary. *)
Fixpoint item (d : list (string * float)) (k : string) : option float :=
  match d with
  | [] => None
  | (k', v) :: d' => if String.eqb k k' then Some v else item d' k
  end.

(** The built-in [max(a, b, c)]. *)
Definition max2 (a b : float) : float := if gtb b a then b else a.
Definition max3 (a b c : float) : float := max2 (max2 a b) c.

(** What the analysis takes from its libraries: [Series.mean()] of pandas,
    whose summation order is the library's, and [round(x, ndigits)] on a
    numpy float. *)
Class Numpy := {
  mean : list float -> float;
  round : float -> nat -> float
}.

(** One row of the data frame that [train_kmeans.py] reads. *)
Record user_row := {
  daily_miles_driven : float;
  meat_meals_per_week : float;
  vegetarian_meals_per_week : float;
  electricity_kwh_per_day : float;
  natural_gas_therms_per_month : float;
  flights_per_year : float;
  total_annual_emissions_kg : float;
  transport_emissions_kg : float;
  food_emissions_kg : float;
  energy_emissions_kg : float;
  flight_emissions_kg : float
}.

Record cluster_stats := {
  size : nat;
  avg_total_emissions : float;
  avg_daily_miles : float;
  avg_meat_meals : float;
  avg_electricity : float;
  avg_flights : float
}.

Record cluster_description := {
  archetype : string;
  stats : cluster_stats;
  transport_ratio : float;
  food_ratio : float;
  energy_ratio : float;
  flight_ratio : float;
  dominant_source : option string;
  dominant_ratio : option float
}.

(** The label cascade of [analyze_clusters], as the [if]/[elif] chain is
    written. *)
Definition label
    (dominant : option string)
    (avg_total avg_electricity avg_meat : float)
    (transport_ratio food_ratio energy_ratio flight_ratio : float) : string :=
  let dominant_is (s : string) :=
    match dominant with Some d => String.eqb d s | None => false end in
  if ltb avg_total 6000 then "Low Total Emissions"
  else if dominant_is "transport" && gtb transport_ratio 0.30
          && gtb transport_ratio (energy_ratio * 1.1) then
    "High Transportation"
  else if dominant_is "food" && gtb food_ratio 0.20 then
    "High Food Emissions"
  else if dominant_is "energy" then
    if gtb avg_electricity 100 then "Very High Energy Usage"
    else if gtb avg_meat 8 then "High Energy & Food Usage"
    else if ltb avg_total 12000 then "Moderate Energy Usage"
    else "High Energy Usage"
  else if dominant_is "flight" && gtb flight_ratio 0.15 then
    "High Flight Emissions"
  else
    if ltb (max3 transport_ratio food_ratio energy_ratio) 0.50 then
      "Balanced Emissions"
    else "High Energy Usage".

Section Analysis.
Context `{Numpy}.

(** [cluster_data[col].mean()]. *)
Definition col_mean (col : user_row -> float) (cluster_data : list user_row) : float :=
  mean (map col cluster_data).

(** The body of the loop of [analyze_clusters] for one cluster. *)
Definition describe_cluster (cluster_data : list user_row) : cluster_description :=
  let stats :=
    {| size := length cluster_data;
       avg_total_emissions := col_mean total_annual_emissions_kg cluster_data;
       avg_daily_miles := col_mean daily_miles_driven cluster_data;
       avg_meat_meals := col_mean meat_meals_per_week cluster_data;
       avg_electricity := col_mean electricity_kwh_per_day cluster_data;
       avg_flights := col_mean flights_per_year cluster_data |} in
  let transport_ratio :=
    col_mean transport_emissions_kg cluster_data
    / col_mean total_annual_emissions_kg cluster_data in
  let food_ratio :=
    col_mean food_emissions_kg cluster_data
    / col_mean total_annual_emissions_kg cluster_data in
  let energy_ratio :=
    col_mean energy_emissions_kg cluster_data
    / col_mean total_annual_emissions_kg cluster_data in
  let flight_ratio :=
    col_mean flight_emissions_kg cluster_data
    / col_mean total_annual_emissions_kg cluster_data in
  let ratios :=
    [ ("transport", transport_ratio);
      ("food", food_ratio);
      ("energy", energy_ratio);
      ("flight", flight_ratio) ]%string in
  let dominant := max_key ratios in
  let dominant_ratio :=
    match dominant with Some d => item ratios d | None => None end in
  let avg_total := col_mean total_annual_emissions_kg cluster_data in
  let avg_electricity := col_mean electricity_kwh_per_day cluster_data in
  let avg_meat := col_mean meat_meals_per_week cluster_data in
  {| archetype :=
       label dominant avg_total avg_electricity avg_meat
             transport_ratio food_ratio energy_ratio flight_ratio;
     stats := stats;
     transport_ratio := round transport_ratio 3;
     food_ratio := round food_ratio 3;
     energy_ratio := round energy_ratio 3;
     flight_ratio := round flight_ratio 3;
     dominant_source := dominant;
     dominant_ratio :=
       match dominant_ratio with Some r => Some (round r 3) | None => None end |}.

(** [analyze_clusters]: the rows whose label is [cluster_id] are selected
    with a boolean mask, for each id below [n_clusters] in turn. *)
Definition members (df : list user_row) (labels_ : list nat) (cluster_id : nat)
    : list user_row :=
  map fst (filter (fun rl => rl.2 = cluster_id) (zip df labels_)).

Definition analyze_clusters (df : list user_row) (labels_ : list nat) (n_clusters : nat)
    : list (nat * cluster_description) :=
  map (fun cluster_id => (cluster_id, describe_cluster (members df labels_ cluster_id)))
      (seq 0 n_clusters).

End Analysis.

(** How the f-strings of the rule engine print a float: [{x:.1f}] and
    [{x}]. *)
Class Format := {
  fmt_1f : float -> string;
  fmt_str : float -> string
}.

(** [user_emission_data.get(col, 0)]. *)
Definition get (user_emission_data : gmap string float) (col : string) (dflt : float)
    : float :=
  default dflt (user_emission_data !! col).

(** A recommendation dictionary of the rule engine. *)
Record recommendation := {
  title : string;
  rec_description : string;
  estimated_savings_kg : float;
  category : string;
  priority : string
}.

Section Rules.
Context `{Format}.

Definition transport_rule (user_emission_data : gmap string float) (archetype : string)
    : list recommendation :=
  if Py.contains "Transportation" archetype
     || gtb (get user_emission_data "transport_emissions_kg" 0) 2000 then
    let miles := get user_emission_data "daily_miles_driven" 0 in
    if gtb miles 30 then
      let savings := (miles - 25) * 0.411 * 7 in
      [ {| title := "Reduce Daily Driving";
           rec_description :=
             "Reduce driving by " +:+ fmt_1f (miles - 25) +:+ " miles/week";
           estimated_savings_kg := savings;
           category := "transportation";
           priority := "high" |} ]
    else []
  else [].

Definition food_rule (user_emission_data : gmap string float) (archetype : string)
    : list recommendation :=
  if Py.contains "Food" archetype
     || gtb (get user_emission_data "food_emissions_kg" 0) 1500 then
    let meat_meals := get user_emission_data "meat_meals_per_week" 0 in
    if gtb meat_meals 7 then
      let savings := (meat_meals - 5) * 3.5 in
      [ {| title := "Reduce Meat Consumption";
           rec_description :=
             "Replace " +:+ fmt_str (meat_meals - 5)
             +:+ " meat meals per week with vegetarian options";
           estimated_savings_kg := savings * 52;
           category := "food";
           priority := "high" |} ]
    else []
  else [].

Definition energy_rule (user_emission_data : gmap string float) (archetype : string)
    : list recommendation :=
  if Py.contains "Energy" archetype
     || gtb (get user_emission_data "energy_emissions_kg" 0) 3000 then
    let electricity := get user_emission_data "electricity_kwh_per_day" 0 in
    if gtb electricity 30 then
      let savings := (electricity - 25) * 0.5 * 365 in
      [ {| title := "Reduce Energy Consumption";
           rec_description :=
             "Reduce daily electricity usage by " +:+ fmt_1f (electricity - 25)
             +:+ " kWh";
           estimated_savings_kg := savings;
           category := "energy";
           priority := "medium" |} ]
    else []
  else [].

Definition maintain_low : recommendation :=
  {| title := "Maintain Low Emissions";
     rec_description := "You're doing great! Continue your sustainable habits.";
     estimated_savings_kg := 0;
     category := "general";
     priority := "low" |}.

Definition low_rule (archetype : string) : list recommendation :=
  if Py.contains "Low" archetype then [maintain_low] else [].

Definition track_progress : recommendation :=
  {| title := "Track Your Progress";
     rec_description :=
       "Continue logging activities to get personalized recommendations";
     estimated_savings_kg := 0;
     category := "general";
     priority := "low" |}.

(** [generate_rule_based_recommendations]: the four blocks append to one
    list in source order; the last block looks at the list so far. *)
Definition generate_rule_based_recommendations
    (user_emission_data : gmap string float) (archetype : string)
    : list recommendation :=
  let recommendations := [] in
  let recommendations :=
    recommendations ++ transport_rule user_emission_data archetype in
  let recommendations :=
    recommendations ++ food_rule user_emission_data archetype in
  let recommendations :=
    recommendations ++ energy_rule user_emission_data archetype in
  let recommendations := recommendations ++ low_rule archetype in
  match recommendations with
  | [] => recommendations ++ [track_progress]
  | _ :: _ => recommendations
  end.

End Rules.

(** The rational number a finite float stands for; 0 for an infinity or
    NaN. *)
Definition to_Q (x : float) : Q :=
  match Prim2SF x with
  | S754_finite s m e =>
      let v := (inject_Z (Z.pos m) * Qpower 2 e)%Q in
      if s then (- v)%Q else v
  | _ => 0%Q
  end.

(** The float of an integer; exact below [2^53]. *)
Definition of_Z (n : Z) : float :=
  if (n <? 0)%Z then - of_uint63 (Uint63.of_Z (- n)) else of_uint63 (Uint63.of_Z n).

End Binary64.

(* ===================================================================== *)
(** ** The label cascade and the dominant source, as the design states them *)
(* ===================================================================== *)

Module Design.

#[global] Instance Qlt_decision (x y : Q) : Decision (x < y).
Proof.
destruct (Qlt_le_dec x y) as [Hlt | Hle].
- left. exact Hlt.
- right. intros Hlt. exact (Qle_not_lt _ _ Hle Hlt).
Defined.

(** [k] is the arg-max of the dictionary [d], ties broken by enumeration
  order: no value exceeds its value, and no earlier value reaches it.  The
  values are floats; a comparison with NaN is false. *)
Definition is_argmax (d : list (string * float)) (k : string) : Prop :=
exists (i : nat) (v : float),
  d !! i = Some (k, v)
  /\ (forall (j : nat) (kv : string * float),
        d !! j = Some kv -> ~ Binary64.lt v kv.2)
  /\ (forall (j : nat) (kv : string * float),
        (j < i)%nat -> d !! j = Some kv -> ~ Binary64.le v kv.2).

(** The decision cascade, top to bottom, first match wins.  The maximum of
  three ratios is below 0.50 when each of them is. *)
Definition cascade
  (dominant : string)
  (mean_total mean_electricity mean_meat : float)
  (transport_ratio food_ratio energy_ratio flight_ratio : float) : string :=
if decide (Binary64.lt mean_total 6000) then
  "Low Total Emissions"
else if decide (dominant = "transport"%string
                /\ Binary64.lt 0.30 transport_ratio
                /\ Binary64.lt (1.1 * energy_ratio) transport_ratio) then
  "High Transportation"
else if decide (dominant = "food"%string /\ Binary64.lt 0.20 food_ratio) then
  "High Food Emissions"
else if decide (dominant = "energy"%string) then
  if decide (Binary64.lt 100 mean_electricity) then "Very High Energy Usage"
  else if decide (Binary64.lt 8 mean_meat) then "High Energy & Food Usage"
  else if decide (Binary64.lt mean_total 12000) then "Moderate Energy Usage"
  else "High Energy Usage"
else if decide (dominant = "flight"%string /\ Binary64.lt 0.15 flight_ratio) then
  "High Flight Emissions"
else if decide (Binary64.lt transport_ratio 0.50
                /\ Binary64.lt food_ratio 0.50
                /\ Binary64.lt energy_ratio 0.50) then
  "Balanced Emissions"
else
  "High Energy Usage".



(** What one entry of the rule engine's output may look like: a computed,
  strictly positive saving under one of the three rule titles, or a saving
  of exactly zero under one of the two generic titles. *)
Definition savings_shape (r : Service.recommendation) : Prop :=
(0 < Service.estimated_savings_kg r
 /\ Service.title r ∈ [ "Reduce Daily Driving"; "Reduce Meat Consumption";
                        "Reduce Energy Consumption" ]%string)
\/ (Service.estimated_savings_kg r = 0
    /\ Service.title r ∈ [ "Maintain Low Emissions"; "Track Your Progress" ]%string).

End Design.

(* ===================================================================== *)
(** ** Sample inputs *)
(* ===================================================================== *)

Module Sample.

(** One decimal place, ties to even; used for both format positions. *)
Definition one_decimal (x : Q) : string :=
let n := Py.round_half_even (x * 10) in
let a := Z.abs n in
(if (n <? 0)%Z then "-" else "") +:+ pretty (a / 10)%Z +:+ "." +:+ pretty (a mod 10)%Z.

Definition format : FloatFormat :=
{| fmt_1f := one_decimal; fmt_str := one_decimal |}.

Definition row (transport food energy flight total : Q) : Train.user_row :=
{| Train.daily_miles_driven := 10;
   Train.meat_meals_per_week := 3;
   Train.vegetarian_meals_per_week := 4;
   Train.electricity_kwh_per_day := 12;
   Train.natural_gas_therms_per_month := 2;
   Train.flights_per_year := 0;
   Train.total_annual_emissions_kg := total;
   Train.transport_emissions_kg := transport;
   Train.food_emissions_kg := food;
   Train.energy_emissions_kg := energy;
   Train.flight_emissions_kg := flight |}.

(** A one-member cluster whose shares are 1/6, 1/6, 2/3 and 0. *)
Definition sixths : list Train.user_row := [row 1000 1000 4000 0 6000].

(** A two-member cluster dominated by driving. *)
Definition drivers : list Train.user_row :=
[row 6000 1000 2000 0 9000; row 5000 1500 2500 0 9000].

(** A trained model with a single cluster at the origin of the scaled
  space, labelled [archetype]. *)
Definition origin_model (archetype : string) : Service.model_files :=
let d := Train.describe_cluster sixths in
let info :=
  {| Train.archetype := archetype;
     Train.stats := Train.stats d;
     Train.transport_ratio := Train.transport_ratio d;
     Train.food_ratio := Train.food_ratio d;
     Train.energy_ratio := Train.energy_ratio d;
     Train.flight_ratio := Train.flight_ratio d;
     Train.dominant_source := Train.dominant_source d;
     Train.dominant_ratio := Train.dominant_ratio d |} in
{| Service.kmeans_pkl :=
     Some {| Service.cluster_centers_ := [[0; 0; 0; 0; 0; 0; 0; 0]] |};
   Service.scaler_pkl :=
     Some {| Service.mean_ := [0; 0; 0; 0; 0; 0; 0; 0];
             Service.scale_ := [1; 1; 1; 1; 1; 1; 1; 1] |};
   Service.cluster_descriptions_json := Some {[ "0"%string := info ]} |}.

(** No model has been trained yet. *)
Definition no_model : Service.model_files :=
{| Service.kmeans_pkl := None;
   Service.scaler_pkl := None;
   Service.cluster_descriptions_json := None |}.

(** No API key is configured. *)
Definition offline : Gemini.collaborator :=
{| Gemini.GEMINI_API_KEY := None;
   Gemini.generate_content := fun _ => None |}.

(** A 40-mile drive logged at instant [when]. *)
Definition drive (when : Z) : Router.activity :=
{| Router.date := Some when;
   Router.activity_category := Some "transportation"%string;
   Router.co2e_kg := Some 16.44;
   Router.unit := Some "Miles"%string;
   Router.activity_subtype := Some "car"%string;
   Router.amount := Some 40 |}.

(** The feature dictionary of a window that holds no activity. *)
Definition idle : gmap string Q := Router.emission_data_of Router.zero_totals.

(** A synthetic user who hardly drives: 0.00004 miles a day, no meat and
  five vegetarian meals a week, 5.00004 kWh a day, no gas, no flights. *)
Definition homebody : Train.user_row :=
Train.synthetic_user 0.00004 0 5 5.00004 0 0.

(** A synthetic user whose four rounded categories add up to 20671.13
  while the rounded total is 20671.12. *)
Definition commuter : Train.user_row :=
Train.synthetic_user 41.75 4 11 65.137 23.687 0.

(** A mean that adds from the left and divides by the count, and a
  [round] that scales, rounds to the nearest integer (a tie to the even
  one) and scales back. *)
Definition left_mean (xs : list float) : float :=
(fold_left PrimFloat.add xs 0 / Binary64.of_Z (Z.of_nat (length xs)))%float.

Definition scaled_round (x : float) (ndigits : nat) : float :=
let p := Binary64.of_Z (10 ^ Z.of_nat ndigits) in
(Binary64.of_Z (Py.round_half_even (Binary64.to_Q (x * p))) / p)%float.

Definition numpy : Binary64.Numpy :=
{| Binary64.mean := left_mean; Binary64.round := scaled_round |}.

(** One decimal place of the exact value, ties to even. *)
Definition format64 : Binary64.Format :=
{| Binary64.fmt_1f := fun x => one_decimal (Binary64.to_Q x);
   Binary64.fmt_str := fun x => one_decimal (Binary64.to_Q x) |}.

(** A one-member cluster on which the exact ratios tie: its transport
  emissions are exactly 1.1 times its energy emissions. *)
Definition near_tie : list Binary64.user_row :=
[ {| Binary64.daily_miles_driven := 19;
     Binary64.meat_meals_per_week := 7;
     Binary64.vegetarian_meals_per_week := 7;
     Binary64.electricity_kwh_per_day := 14;
     Binary64.natural_gas_therms_per_month := 1;
     Binary64.flights_per_year := 2;
     Binary64.total_annual_emissions_kg := 9300;
     Binary64.transport_emissions_kg := 2860;
     Binary64.food_emissions_kg := 1920;
     Binary64.energy_emissions_kg := 2600;
     Binary64.flight_emissions_kg := 1920 |} ]%float.

(** One hundred days, in microseconds. *)
Definition day100 : Z := Router.timedelta_days 100.

End Sample.


(* ===================================================================== *)
(** ** What one activity contributes to the 30-day aggregates *)
(* ===================================================================== *)

Module Tally.

Definition category_is (c : string) (act : Router.activity) : bool :=
  String.eqb (default "" (Router.activity_category act)) c.

Definition unit_of (act : Router.activity) : string :=
  Py.lower (default "" (Router.unit act)).

Definition subtype_of (act : Router.activity) : string :=
  Py.lower (default "" (Router.activity_subtype act)).

(** The CO2e an activity adds to the total of category [c]. *)
Definition emissions_in (c : string) (act : Router.activity) : Q :=
  if category_is c act then default 0 (Router.co2e_kg act) else 0.

(** The distance of a transportation activity given in miles or km. *)
Definition distance_of (act : Router.activity) : Q :=
  if category_is "transportation" act && Py.in_list (unit_of act) ["miles"; "km"]%string
  then default 0 (Router.amount act) else 0.

(** The electricity of an energy activity given in kWh. *)
Definition kwh_of (act : Router.activity) : Q :=
  if category_is "energy" act
     && Py.in_list (unit_of act) ["kwh"; "kilowatt-hour"]%string
  then default 0 (Router.amount act) else 0.

(** The gas of an energy activity whose unit mentions therms. *)
Definition therms_of (act : Router.activity) : Q :=
  if category_is "energy" act
     && negb (Py.in_list (unit_of act) ["kwh"; "kilowatt-hour"]%string)
     && Py.contains "therm" (unit_of act)
  then default 0 (Router.amount act) else 0.

Definition is_meat_meal (act : Router.activity) : bool :=
  category_is "food" act
  && (Py.contains "meat" (subtype_of act) || Py.contains "beef" (subtype_of act)).

Definition is_veg_meal (act : Router.activity) : bool :=
  category_is "food" act
  && negb (Py.contains "meat" (subtype_of act) || Py.contains "beef" (subtype_of act)).

(** The activity is read by the aggregation loop: it is dated within the
    window and its category is one of the three the loop knows, spelled in
    lower case. *)
Definition counted (now : Z) (act : Router.activity) : bool :=
  Router.is_recent now act
  && (category_is "transportation" act || category_is "food" act
      || category_is "energy" act).

(** Amount and CO2e of the activity are not negative. *)
Definition nonnegative (act : Router.activity) : Prop :=
  0 <= default 0 (Router.amount act) /\ 0 <= default 0 (Router.co2e_kg act).

End Tally.

(* ===================================================================== *)
(** ** The model artifact: train_kmeans.py [save_model] *)
(* ===================================================================== *)

Module Artifact.

(** [json.dump(cluster_descriptions, f)]: the integer cluster ids become
    their decimal strings, the way the JSON encoder writes dictionary keys. *)
Definition json_dump (cluster_descriptions : list (nat * Train.cluster_description))
    : gmap string Train.cluster_description :=
  list_to_map (map (fun kv => (pretty kv.1, kv.2)) cluster_descriptions).

(** [save_model]: the three files of the model directory, written together.
    The service reads them back from the same directory. *)
Definition save_model
    (kmeans : Service.KMeans) (scaler : Service.StandardScaler)
    (cluster_descriptions : list (nat * Train.cluster_description))
    : Service.model_files :=
  {| Service.kmeans_pkl := Some kmeans;
     Service.scaler_pkl := Some scaler;
     Service.cluster_descriptions_json := Some (json_dump cluster_descriptions) |}.

(** The archetype names the label cascade can produce. *)
Definition archetype_names : list string :=
  [ "Low Total Emissions"; "High Transportation"; "High Food Emissions";
    "Very High Energy Usage"; "High Energy & Food Usage"; "Moderate Energy Usage";
    "High Energy Usage"; "High Flight Emissions"; "Balanced Emissions" ]%string.

End Artifact.

(* ===================================================================== *)
(** ** More Python primitives: slices and exceptions *)
(* ===================================================================== *)

Module PyStr.

(** [s[n:]] and [s[:n]] for [n >= 0]. *)
Fixpoint drop (n : nat) (s : string) : string :=
  match n, s with
  | O, _ => s
  | S n', String _ s' => drop n' s'
  | S _, EmptyString => EmptyString
  end.

Fixpoint take (n : nat) (s : string) : string :=
  match n, s with
  | O, _ => EmptyString
  | S n', String c s' => String c (take n' s')
  | S _, EmptyString => EmptyString
  end.

(** [s[:-n]] for [n > 0]. *)
Definition drop_end (n : nat) (s : string) : string :=
  take (String.length s - n) s.

Definition startswith (p s : string) : bool := String.prefix p s.

Definition endswith (p s : string) : bool :=
  (String.length p <=? String.length s)%nat
  && String.eqb (drop (String.length s - String.length p) s) p.

(** The string starts with a white-space character, of one, two or three
    bytes. *)
Definition leading_space (s : string) : bool :=
  match s with
  | EmptyString => false
  | String c1 s1 =>
      Py.is_space c1
      || match s1 with
         | EmptyString => false
         | String c2 s2 =>
             Py.is_space_char (String c1 (String c2 EmptyString))
             || match s2 with
                | EmptyString => false
                | String c3 _ =>
                    Py.is_space_char (String c1 (String c2 (String c3 EmptyString)))
                end
         end
  end.

(** [l[-k:]] on a list, for any integer [k]: the last [k] elements when
    [k > 0], the whole list when [k = 0], and [l[|k|:]] when [k < 0]. *)
Definition last_slice {A : Type} (k : Z) (l : list A) : list A :=
  if (0 <? k)%Z then List.skipn (length l - Z.to_nat k) l
  else List.skipn (Z.to_nat (- k)) l.

End PyStr.

Module Exn.

(** The exceptions the handlers raise.  [str(e)] is kept symbolic. *)
Inductive exn : Type :=
  | ValueError (msg : string)
  | TypeError (msg : string)
  | Exception (msg : string)
  | HTTPException (status_code : Z) (detail : detail)
with detail : Type :=
  | Text (s : string)
  | StrOf (e : exn).

Inductive outcome (A : Type) : Type :=
  | Returned (a : A)
  | Raised (e : exn).

Arguments Returned {A} a.
Arguments Raised {A} e.

End Exn.

(* ===================================================================== *)
(** ** backend/services/climatiq_service.py *)
(* ===================================================================== *)

Module Climatiq.

Record emission_result := {
  co2e_kg : Q;
  co2e : Q;
  co2e_unit : string;
  source : string
}.

(** The request body of [/estimate]. *)
Record payload := {
  activity_id : string;
  money : option Q;
  money_unit : option string;
  distance : option Q;
  distance_unit : option string;
  weight : option Q;
  weight_unit : option string;
  volume : option Q;
  volume_unit : option string;
  energy : option Q;
  energy_unit : option string
}.

(** What [requests.post] and [response.json()] give: no usable reply (a
    timeout, a connection error, a body that is not the expected JSON), or a
    status code with the "co2e" entry of the body when there is one. *)
Inductive reply : Type :=
  | NoReply
  | Reply (status_code : Z) (co2e : option Q).

Record api := {
  CLIMATIQ_API_KEY : option string;
  post_estimate : payload -> reply
}.

Definition no_key (a : api) : bool :=
  match CLIMATIQ_API_KEY a with
  | None => true
  | Some EmptyString => true
  | Some (String _ _) => false
  end.

Definition mapping : gmap (string * string * string) string :=
  list_to_map
    [ (("transportation", "car", "miles"),
       "passenger_vehicle-vehicle_type_car-fuel_source_na-distance_na-engine_size_na");
      (("transportation", "car", "km"),
       "passenger_vehicle-vehicle_type_car-fuel_source_na-distance_na-engine_size_na");
      (("food", "beef", "kg"), "food-beef");
      (("food", "beef", "lbs"), "food-beef");
      (("energy", "electricity", "kwh"), "electricity-energy_source_grid_mix");
      (("energy", "electricity", "kilowatt-hour"), "electricity-energy_source_grid_mix")
    ]%string.

Definition map_to_climatiq_activity (category subtype unit : string) : option string :=
  mapping !! (Py.lower category, Py.lower subtype, Py.lower unit).

Definition factors : gmap (string * string * string) Q :=
  list_to_map
    [ (("transportation", "car", "miles")%string, 0.411);
      (("transportation", "car", "km")%string, 0.255);
      (("food", "beef", "kg")%string, 27.0);
      (("food", "beef", "lbs")%string, 12.25);
      (("food", "chicken", "kg")%string, 6.9);
      (("food", "pork", "kg")%string, 12.1);
      (("energy", "electricity", "kwh")%string, 0.5);
      (("energy", "natural_gas", "therms")%string, 5.3) ].

Definition calculate_fallback_emissions
    (category subtype : string) (amount : Q) (unit : string) : emission_result :=
  let key := (Py.lower category, Py.lower subtype, Py.lower unit) in
  let factor := default 1.0 (factors !! key) in
  let co2e_kg := amount * factor in
  {| co2e_kg := co2e_kg;
     co2e := co2e_kg * 1000;
     co2e_unit := "kg";
     source := "fallback" |}.

(** The body sent for an activity id, with the one parameter the unit
    selects. *)
Definition estimate_payload (activity_id : string) (amount : Q) (unit : string)
    : payload :=
  let empty :=
    {| activity_id := activity_id;
       money := None; money_unit := None;
       distance := None; distance_unit := None;
       weight := None; weight_unit := None;
       volume := None; volume_unit := None;
       energy := None; energy_unit := None |} in
  if Py.in_list (Py.lower unit) ["miles"; "km"; "kilometers"]%string then
    let distance_km :=
      if Py.in_list (Py.lower unit) ["km"; "kilometers"]%string then amount
      else amount * 1.60934 in
    {| activity_id := activity_id;
       money := None; money_unit := None;
       distance := Some distance_km; distance_unit := Some "km"%string;
       weight := None; weight_unit := None;
       volume := None; volume_unit := None;
       energy := None; energy_unit := None |}
  else if Py.in_list (Py.lower unit) ["kwh"; "kilowatt-hour"; "kilowatt-hours"]%string then
    {| activity_id := activity_id;
       money := None; money_unit := None;
       distance := None; distance_unit := None;
       weight := None; weight_unit := None;
       volume := None; volume_unit := None;
       energy := Some amount; energy_unit := Some "kWh"%string |}
  else if Py.in_list (Py.lower unit) ["kg"; "kilograms"; "lbs"; "pounds"]%string then
    let weight_kg :=
      if Py.in_list (Py.lower unit) ["kg"; "kilograms"]%string then amount
      else amount * 0.453592 in
    {| activity_id := activity_id;
       money := None; money_unit := None;
       distance := None; distance_unit := None;
       weight := Some weight_kg; weight_unit := Some "kg"%string;
       volume := None; volume_unit := None;
       energy := None; energy_unit := None |}
  else empty.

Definition calculate_emissions
    (a : api) (category subtype : string) (amount : Q) (unit : string)
    : Exn.outcome emission_result :=
  if no_key a then Exn.Raised (Exn.ValueError "CLIMATIQ_API_KEY not configured")
  else
    match map_to_climatiq_activity category subtype unit with
    | None =>
        Exn.Returned (calculate_fallback_emissions category subtype amount unit)
    | Some activity_id =>
        match post_estimate a (estimate_payload activity_id amount unit) with
        | Reply 200 data_co2e =>
            let co2e_kg := default 0 data_co2e / 1000 in
            Exn.Returned {| co2e_kg := co2e_kg;
                            co2e := default 0 data_co2e;
                            co2e_unit := "kg";
                            source := "climatiq" |}
        | Reply _ _ =>
            Exn.Returned (calculate_fallback_emissions category subtype amount unit)
        | NoReply =>
            Exn.Returned (calculate_fallback_emissions category subtype amount unit)
        end
    end.

End Climatiq.

(* ===================================================================== *)
(** ** backend/models/schemas.py and gemini_service.py [parse_activity_text] *)
(* ===================================================================== *)

Module Schemas.

Record ActivityLogRequest := {
  text : option string;
  category : option string;
  subtype : option string;
  amount : option Q;
  unit : option string;
  date : option Z
}.

End Schemas.

Module Parse.

Record ActivityStructured := {
  category : string;
  subtype : string;
  amount : Q;
  unit : string;
  description : string
}.

(** [json.loads(response_text)] followed by the construction of
    [ActivityStructured] from the parsed dictionary, given the cleaned
    response and the original text; [None] when either raises. *)
Class Decoder := {
  decode_activity : string -> string -> option ActivityStructured
}.

Definition parse_prompt (text : string) : string :=
  Gemini.nl +:+ "Parse the following activity description into structured JSON format."
  +:+ Gemini.nl +:+ "Extract: category, subtype, amount, unit, and a brief description."
  +:+ Gemini.nl +:+ Gemini.nl
  +:+ "Activity description: " +:+ Gemini.dquote +:+ text +:+ Gemini.dquote
  +:+ Gemini.nl +:+ Gemini.nl
  +:+ "Return ONLY valid JSON in this exact format:" +:+ Gemini.nl
  +:+ "{" +:+ Gemini.nl
  +:+ "    " +:+ Gemini.dquote +:+ "category" +:+ Gemini.dquote +:+ ": "
  +:+ Gemini.dquote +:+ "transportation|food|energy|waste|other" +:+ Gemini.dquote
  +:+ "," +:+ Gemini.nl
  +:+ "    " +:+ Gemini.dquote +:+ "subtype" +:+ Gemini.dquote +:+ ": "
  +:+ Gemini.dquote +:+ "specific activity type (e.g., car, beef, electricity)"
  +:+ Gemini.dquote +:+ "," +:+ Gemini.nl
  +:+ "    " +:+ Gemini.dquote +:+ "amount" +:+ Gemini.dquote +:+ ": <number>,"
  +:+ Gemini.nl
  +:+ "    " +:+ Gemini.dquote +:+ "unit" +:+ Gemini.dquote +:+ ": "
  +:+ Gemini.dquote +:+ "miles|kg|kwh|therms|etc" +:+ Gemini.dquote +:+ "," +:+ Gemini.nl
  +:+ "    " +:+ Gemini.dquote +:+ "description" +:+ Gemini.dquote +:+ ": "
  +:+ Gemini.dquote +:+ "brief description" +:+ Gemini.dquote +:+ Gemini.nl
  +:+ "}" +:+ Gemini.nl +:+ Gemini.nl
  +:+ "If the amount cannot be determined, use 1.0 as default." +:+ Gemini.nl
  +:+ "If the unit cannot be determined, infer from context or use "
  +:+ Gemini.dquote +:+ "unit" +:+ Gemini.dquote +:+ "." +:+ Gemini.nl.

Definition fence : string := "```".
Definition fence_json : string := "```json".

(** The clean-up of the model's answer: markdown code fences removed. *)
Definition clean_response (response_text : string) : string :=
  let response_text := Py.strip response_text in
  let response_text :=
    if PyStr.startswith fence_json response_text then PyStr.drop 7 response_text
    else response_text in
  let response_text :=
    if PyStr.startswith fence response_text then PyStr.drop 3 response_text
    else response_text in
  let response_text :=
    if PyStr.endswith fence response_text then PyStr.drop_end 3 response_text
    else response_text in
  Py.strip response_text.

Definition parse_activity_text `{Decoder} (g : Gemini.collaborator) (text : string)
    : Exn.outcome (option ActivityStructured) :=
  if Gemini.no_key g then Exn.Raised (Exn.ValueError "GEMINI_API_KEY not configured")
  else
    match Gemini.generate_content g (parse_prompt text) with
    | Some response_text =>
        Exn.Returned (decode_activity (clean_response response_text) text)
    | None => Exn.Returned None
    end.

End Parse.

(* ===================================================================== *)
(** ** backend/routers/activities.py *)
(* ===================================================================== *)

(** How [{x:.2f}] prints a float. *)
Class Format2f := { fmt_2f : Q -> string }.

Module Activities.

(** The columns of an insert. *)
Record record_data := {
  rd_user_id : string;
  rd_activity_category : string;
  rd_activity_subtype : string;
  rd_amount : Q;
  rd_unit : string;
  rd_co2e_kg : Q;
  rd_date : Z
}.

(** A stored activity. *)
Record record := {
  id : string;
  user_id : string;
  activity_category : string;
  activity_subtype : string;
  amount : Q;
  unit : string;
  co2e_kg : Q;
  date : Z;
  created_at : Z
}.

(** The database behind [services/database.py], whose functions catch
    their own errors: an insert gives the stored row or [None], a query
    gives rows, none on any error. *)
Record database := {
  execute_insert_returning : record_data -> option record;
  select_history : Z -> list record;
  select_count : list Z;
  select_all : list record
}.

Record logged := {
  success : bool;
  emission_record : record;
  message : string
}.

Record history := {
  activities : list record;
  total : Z
}.

(** Truthiness of an optional string and of an optional number. *)
Definition truthy_str (o : option string) : bool :=
  match o with
  | Some (String _ _) => true
  | _ => false
  end.

Definition truthy_num (o : option Q) : bool :=
  match o with
  | Some q => negb (Qeq_bool q 0)
  | None => false
  end.

(** The record appended to the in-memory list. *)
Definition fallback_record (store : list record) (d : record_data) (created : Z) : record :=
  {| id := "act_" +:+ pretty (length store);
     user_id := rd_user_id d;
     activity_category := rd_activity_category d;
     activity_subtype := rd_activity_subtype d;
     amount := rd_amount d;
     unit := rd_unit d;
     co2e_kg := rd_co2e_kg d;
     date := rd_date d;
     created_at := created |}.

Section Handlers.
Context `{Parse.Decoder} `{Format2f}.

(** The [try] block of [log_activity]; [now] and [created] are the two
    readings of the clock. *)
Definition log_activity_try
    (g : Gemini.collaborator) (api : Climatiq.api) (db : option database)
    (now created : Z) (store : list record) (activity : Schemas.ActivityLogRequest)
    : Exn.outcome (logged * list record) :=
  let fields : Exn.outcome (string * string * Q * string) :=
    if truthy_str (Schemas.text activity) then
      match Parse.parse_activity_text g (default "" (Schemas.text activity)) with
      | Exn.Raised e => Exn.Raised e
      | Exn.Returned None =>
          Exn.Raised (Exn.HTTPException 400
                        (Exn.Text "Failed to parse activity from text"))
      | Exn.Returned (Some structured) =>
          Exn.Returned (Parse.category structured, Parse.subtype structured,
                        Parse.amount structured, Parse.unit structured)
      end
    else if truthy_str (Schemas.category activity)
            && truthy_str (Schemas.subtype activity)
            && truthy_num (Schemas.amount activity)
            && truthy_str (Schemas.unit activity) then
      Exn.Returned (default "" (Schemas.category activity),
                    default "" (Schemas.subtype activity),
                    default 0 (Schemas.amount activity),
                    default "" (Schemas.unit activity))
    else
      Exn.Raised (Exn.HTTPException 400
                    (Exn.Text "Missing required fields: category, subtype, amount, unit"))
  in
  match fields with
  | Exn.Raised e => Exn.Raised e
  | Exn.Returned (category, subtype, amount, unit) =>
      match Climatiq.calculate_emissions api category subtype amount unit with
      | Exn.Raised e => Exn.Raised e
      | Exn.Returned emission_result =>
          let record_data :=
            {| rd_user_id := "user_001";
               rd_activity_category := category;
               rd_activity_subtype := subtype;
               rd_amount := amount;
               rd_unit := unit;
               rd_co2e_kg := Climatiq.co2e_kg emission_result;
               rd_date := default now (Schemas.date activity) |} in
          let in_memory :=
            let record := fallback_record store record_data created in
            (record, store ++ [record]) in
          let saved :=
            match db with
            | Some d =>
                match execute_insert_returning d record_data with
                | Some result => (result, store)
                | None => in_memory
                end
            | None => in_memory
            end in
          Exn.Returned
            ({| success := true;
                emission_record := saved.1;
                message :=
                  "Activity logged: " +:+ fmt_2f (Climatiq.co2e_kg emission_result)
                  +:+ " kg CO₂e" |},
             saved.2)
      end
  end.

(** [log_activity]: the reply or the exception raised, and the in-memory
    list afterwards. *)
Definition log_activity
    (g : Gemini.collaborator) (api : Climatiq.api) (db : option database)
    (now created : Z) (store : list record) (activity : Schemas.ActivityLogRequest)
    : Exn.outcome logged * list record :=
  match log_activity_try g api db now created store activity with
  | Exn.Returned (reply, store') => (Exn.Returned reply, store')
  | Exn.Raised e => (Exn.Raised (Exn.HTTPException 500 (Exn.StrOf e)), store)
  end.

End Handlers.

Definition get_activity_history
    (db : option database) (store : list record) (limit : Z) : history :=
  match db with
  | Some d =>
      let activities := select_history d limit in
      let count_result := select_count d in
      {| activities := activities;
         total :=
           match count_result with
           | c :: _ => c
           | [] => Z.of_nat (length activities)
           end |}
  | None =>
      {| activities := PyStr.last_slice limit store;
         total := Z.of_nat (length store) |}
  end.

(** [get_activities] of the recommendation and emission routers. *)
Definition get_activities (db : option database) (store : list record) : list record :=
  match db with
  | Some d => select_all d
  | None => store
  end.

(** A stored activity as the recommendation handler reads it. *)
Definition as_activity (r : record) : Router.activity :=
  {| Router.date := Some (date r);
     Router.activity_category := Some (activity_category r);
     Router.co2e_kg := Some (co2e_kg r);
     Router.unit := Some (unit r);
     Router.activity_subtype := Some (activity_subtype r);
     Router.amount := Some (amount r) |}.

(** The ids the in-memory list hands out. *)
Definition fallback_ids (n : nat) : list string :=
  map (fun i => "act_" +:+ pretty i) (seq 0 n).

End Activities.

(* ===================================================================== *)
(** ** More sample inputs *)
(* ===================================================================== *)

Module Demo.

(** A decoder that understands no answer, and a two-decimal printer that
    truncates to the integer part. *)
Definition decoder : Parse.Decoder :=
  {| Parse.decode_activity := fun _ _ => None |}.

Definition format2 : Format2f :=
  {| fmt_2f := fun x => pretty (Qfloor x) +:+ ".00" |}.

(** A no-break space, U+00A0, in UTF-8. *)
Definition nbsp : string := String "194"%char (String "160"%char EmptyString).

(** The emission service with a key that never answers. *)
Definition silent_api : Climatiq.api :=
  {| Climatiq.CLIMATIQ_API_KEY := Some "key"%string;
     Climatiq.post_estimate := fun _ => Climatiq.NoReply |}.

(** A structured request: [miles] miles by car, undated. *)
Definition car_trip (miles : Q) : Schemas.ActivityLogRequest :=
  {| Schemas.text := None;
     Schemas.category := Some "transportation"%string;
     Schemas.subtype := Some "car"%string;
     Schemas.amount := Some miles;
     Schemas.unit := Some "miles"%string;
     Schemas.date := None |}.

End Demo.

(* ===================================================================== *)
(** ** The emission summary ([routers/emissions.py]) *)
(* ===================================================================== *)

Module Emissions.

(** A [datetime] object: naive, with its wall-clock reading, or aware, with
    its UTC instant and its offset from UTC; all in microseconds. *)
Inductive datetime : Type :=
  | Naive (wall : Z)
  | Aware (utc : Z) (utcoffset : Z).

Definition aware (d : datetime) : bool :=
  match d with
  | Naive _ => false
  | Aware _ _ => true
  end.

(** The number that orders datetimes of one kind. *)
Definition instant (d : datetime) : Z :=
  match d with
  | Naive wall => wall
  | Aware utc _ => utc
  end.

(** An activity row as the summary reads it.  A field is [None] when the
    key is absent; [date] is the datetime the row holds or its string
    parses to ([None] also for a null or empty value). *)
Record activity := {
  date : option datetime;
  activity_category : option string;
  co2e_kg : option Q
}.

(** [a < b] on datetimes: a naive and an aware one do not compare. *)
Definition mixed : Exn.exn :=
  Exn.TypeError "can't compare offset-naive and offset-aware datetimes".

Definition lt (a b : datetime) : Exn.outcome bool :=
  match a, b with
  | Naive x, Naive y => Exn.Returned (x <? y)%Z
  | Aware x _, Aware y _ => Exn.Returned (x <? y)%Z
  | _, _ => Exn.Raised mixed
  end.

(** [min(dates)] and [max(dates)] of a non-empty list: the running result
    is replaced by a later date only when that date is less, or greater. *)
Fixpoint min_from (best : datetime) (rest : list datetime) : Exn.outcome datetime :=
  match rest with
  | [] => Exn.Returned best
  | d :: rest' =>
      match lt d best with
      | Exn.Raised e => Exn.Raised e
      | Exn.Returned less => min_from (if less then d else best) rest'
      end
  end.

Fixpoint max_from (best : datetime) (rest : list datetime) : Exn.outcome datetime :=
  match rest with
  | [] => Exn.Returned best
  | d :: rest' =>
      match lt best d with
      | Exn.Raised e => Exn.Raised e
      | Exn.Returned greater => max_from (if greater then d else best) rest'
      end
  end.

(** [act.get("activity_category", "unknown")] and
    [float(act.get("co2e_kg", 0))]. *)
Definition category_of (act : activity) : string :=
  default "unknown" (activity_category act).

Definition co2e_of (act : activity) : Q :=
  default 0 (co2e_kg act).

(** [sum(float(act.get("co2e_kg", 0)) for act in all_activities)]. *)
Definition sum_co2e (all_activities : list activity) : Q :=
  fold_left (fun total act => total + co2e_of act) all_activities 0.

(** One iteration of the loop over a [defaultdict(float)]: a category not
    seen yet starts at [0.0]. *)
Definition add_category (category_breakdown : gmap string Q) (act : activity)
    : gmap string Q :=
  <[category_of act :=
      default 0 (category_breakdown !! category_of act) + co2e_of act]>
    category_breakdown.

Definition category_breakdown_of (all_activities : list activity)
    : gmap string Q :=
  fold_left add_category all_activities ∅.

(** The [dates] list: the datetimes of the activities that carry one. *)
Definition dates_of (all_activities : list activity) : list datetime :=
  omap date all_activities.

(** The reply of [GET /emissions/summary].  [date_range] holds the two
    datetimes that the handler prints with [isoformat]. *)
Record summary := {
  total_emissions_kg : Q;
  total_activities : nat;
  category_breakdown : gmap string Q;
  date_range : option (datetime * datetime)
}.

(** [get_emissions_summary]: the handler has no [try] block, so the
    [TypeError] of [min] or [max] leaves it. *)
Definition get_emissions_summary (all_activities : list activity)
    : Exn.outcome summary :=
  match all_activities with
  | [] =>
      Exn.Returned
        {| total_emissions_kg := 0;
           total_activities := 0;
           category_breakdown := ∅;
           date_range := None |}
  | _ :: _ =>
      let total_emissions := sum_co2e all_activities in
      let category_breakdown := category_breakdown_of all_activities in
      match dates_of all_activities with
      | [] =>
          Exn.Returned
            {| total_emissions_kg := total_emissions;
               total_activities := length all_activities;
               category_breakdown := category_breakdown;
               date_range := None |}
      | d :: ds =>
          match min_from d ds with
          | Exn.Raised e => Exn.Raised e
          | Exn.Returned earliest =>
              match max_from d ds with
              | Exn.Raised e => Exn.Raised e
              | Exn.Returned latest =>
                  Exn.Returned
                    {| total_emissions_kg := total_emissions;
                       total_activities := length all_activities;
                       category_breakdown := category_breakdown;
                       date_range := Some (earliest, latest) |}
              end
          end
      end
  end.

(** Whether an activity is counted under category [c]. *)
Definition in_category (c : string) (act : activity) : bool :=
  String.eqb (category_of act) c.

End Emissions.
(* ===================================================================== *)
(** ** Comparisons and the arg-max *)
(* ===================================================================== *)

Lemma ltb_lt (x y : Q) : Py.ltb x y = true <-> x < y.
Proof.
  unfold Py.ltb. rewrite negb_true_iff, <- not_true_iff_false, Qle_bool_iff.
  split; [apply Qnot_le_lt | intros Hlt Hle; exact (Qle_not_lt _ _ Hle Hlt)].
Qed.

Lemma gtb_lt (x y : Q) : Py.gtb x y = true <-> y < x.
Proof. unfold Py.gtb. apply ltb_lt. Qed.

Lemma gtb_false_le (x y : Q) : Py.gtb x y = false -> x <= y.
Proof.
  intros E. apply Qnot_lt_le. rewrite <- gtb_lt. congruence.
Qed.

Lemma eqb_decide (a b : string) : String.eqb a b = bool_decide (a = b).
Proof.
  destruct (String.eqb_spec a b) as [-> | Hne].
  - symmetry. by apply bool_decide_eq_true.
  - symmetry. by apply bool_decide_eq_false.
Qed.

(** The running maximum of [max(d, key=d.get)] ends on an entry of the
    dictionary that no entry exceeds and that every earlier entry is
    strictly below. *)
Lemma max_from_first_greatest (rest : list (string * Q)) (best : string * Q) :
  exists i : nat,
    (best :: rest) !! i = Some (Py.max_from best rest)
    /\ (forall (j : nat) (kv : string * Q),
          (best :: rest) !! j = Some kv -> kv.2 <= (Py.max_from best rest).2)
    /\ (forall (j : nat) (kv : string * Q),
          (j < i)%nat -> (best :: rest) !! j = Some kv -> kv.2 < (Py.max_from best rest).2).
Proof.
  revert best. induction rest as [| kv rest IH]; intros best.
  - exists 0%nat. simpl. split; [done |]. split.
    + intros [| j] kv' Hj; simpl in Hj; [| done].
      injection Hj as <-. apply Qle_refl.
    + intros j kv' Hlt. lia.
  - simpl. destruct (Py.gtb kv.2 best.2) eqn:E.
    + apply gtb_lt in E.
      destruct (IH kv) as (i & Hi & Hall & Hbefore).
      assert (Hkv : kv.2 <= (Py.max_from kv rest).2) by (apply (Hall 0%nat); done).
      exists (S i). split; [exact Hi |]. split.
      * intros [| j] kv' Hj; simpl in Hj.
        -- injection Hj as <-. apply Qlt_le_weak. by apply Qlt_le_trans with kv.2.
        -- by apply (Hall j).
      * intros [| j] kv' Hlt Hj; simpl in Hj.
        -- injection Hj as <-. by apply Qlt_le_trans with kv.2.
        -- apply (Hbefore j); [lia | done].
    + apply gtb_false_le in E.
      destruct (IH best) as (i & Hi & Hall & Hbefore).
      assert (Hbest : best.2 <= (Py.max_from best rest).2) by (apply (Hall 0%nat); done).
      destruct i as [| i].
      * exists 0%nat. split; [exact Hi |]. split.
        -- intros [| [| j]] kv' Hj; simpl in Hj.
           ++ by apply (Hall 0%nat).
           ++ injection Hj as <-. by apply Qle_trans with best.2.
           ++ by apply (Hall (S j)).
        -- intros j kv' Hlt. lia.
      * exists (S (S i)). split; [exact Hi |]. split.
        -- intros [| [| j]] kv' Hj; simpl in Hj.
           ++ by apply (Hall 0%nat).
           ++ injection Hj as <-. by apply Qle_trans with best.2.
           ++ by apply (Hall (S j)).
        -- intros [| [| j]] kv' Hlt Hj; simpl in Hj.
           ++ apply (Hbefore 0%nat); [lia | done].
           ++ injection Hj as <-. apply Qle_lt_trans with best.2; [done |].
              apply (Hbefore 0%nat); [lia | done].
           ++ apply (Hbefore (S j)); [lia | done].
Qed.

(* ===================================================================== *)
(** ** The order of binary64 numbers *)
(* ===================================================================== *)

(** The comparisons of two or three floats, decided on their
    sign-mantissa-exponent form. *)
Ltac float_order :=
  unfold Binary64.ltb, Binary64.gtb, is_nan;
  rewrite ?ltb_spec, ?leb_spec, ?eqb_spec;
  unfold SFltb, SFleb, SFeqb, SFcompare;
  repeat match goal with
         | |- context [Prim2SF ?x] => destruct (Prim2SF x) as [[] | [] | | [] ? ?]
         end;
  intros; try discriminate; try reflexivity;
  cbn in *;
  change (PosDef.Pos.compare_cont Eq) with Pos.compare in *;
  repeat match goal with
         | H : context [Z.compare ?a ?b] |- _ => destruct (Z.compare_spec a b); cbn in H
         | |- context [Z.compare ?a ?b] => destruct (Z.compare_spec a b); cbn
         | H : context [Pos.compare ?a ?b] |- _ => destruct (Pos.compare_spec a b); cbn in H
         | |- context [Pos.compare ?a ?b] => destruct (Pos.compare_spec a b); cbn
         end;
  try discriminate; try reflexivity; try lia.

Lemma float_lt_irrefl (a : float) : Binary64.ltb a a = false.
Proof. float_order. Qed.

Lemma float_lt_trans (a b c : float) :
  Binary64.ltb a b = true -> Binary64.ltb b c = true -> Binary64.ltb a c = true.
Proof. float_order. Qed.

Lemma float_lt_le (a b : float) :
  Binary64.ltb a b = true -> (a <=? b)%float = true.
Proof. float_order. Qed.

Lemma float_lt_not_ge (a b : float) :
  Binary64.ltb a b = true -> (b <=? a)%float = false.
Proof. float_order. Qed.

Lemma float_lt_asym (a b : float) :
  Binary64.ltb a b = true -> Binary64.ltb b a = false.
Proof. float_order. Qed.

(** A number that does not exceed the old maximum stays strictly below a
    new, greater one. *)
Lemma float_below_new_maximum (b r k : float) :
  Binary64.ltb b r = true -> Binary64.ltb b k = false -> (r <=? k)%float = false.
Proof. float_order. Qed.

Lemma float_not_le_not_lt (a b : float) :
  (a <=? b)%float = false -> Binary64.ltb a b = false.
Proof. float_order. Qed.

(** Among numbers, what is not above the running maximum is below every
    bound the maximum is below. *)
Lemma float_not_lt_lt (a b k : float) :
  is_nan a = false -> is_nan b = false ->
  Binary64.ltb a b = false -> Binary64.ltb a k = true -> Binary64.ltb b k = true.
Proof. float_order. Qed.

Lemma float_max2_lt (a b k : float) :
  is_nan a = false -> is_nan b = false ->
  Binary64.ltb (Binary64.max2 a b) k = Binary64.ltb a k && Binary64.ltb b k.
Proof.
  intros Ha Hb. unfold Binary64.max2.
  destruct (Binary64.gtb b a) eqn:E.
  - change (Binary64.ltb a b = true) in E.
    destruct (Binary64.ltb b k) eqn:Ek; [| by rewrite andb_false_r].
    by rewrite (float_lt_trans a b k E Ek).
  - change (Binary64.ltb a b = false) in E.
    destruct (Binary64.ltb a k) eqn:Ek; [| reflexivity].
    by rewrite (float_not_lt_lt a b k Ha Hb E Ek).
Qed.

Lemma float_max3_lt (a b c k : float) :
  is_nan a = false -> is_nan b = false -> is_nan c = false ->
  Binary64.ltb (Binary64.max3 a b c) k
  = Binary64.ltb a k && Binary64.ltb b k && Binary64.ltb c k.
Proof.
  intros Ha Hb Hc. unfold Binary64.max3.
  assert (Hab : is_nan (Binary64.max2 a b) = false)
    by (unfold Binary64.max2; by destruct (Binary64.gtb b a)).
  by rewrite (float_max2_lt _ c k Hab Hc), (float_max2_lt a b k Ha Hb).
Qed.

Lemma float_mul_comm (x y : float) : (x * y)%float = (y * x)%float.
Proof.
  apply Prim2SF_inj. rewrite !mul_spec. unfold SF64mul.
  destruct (Prim2SF x) as [sx | sx | | sx mx ex], (Prim2SF y) as [sy | sy | | sy my ey];
    cbn; rewrite ?(xorb_comm sx sy); try reflexivity.
  by rewrite Pos.mul_comm, Z.add_comm.
Qed.

Lemma float_ltb_decide (x y : float) : Binary64.ltb x y = bool_decide (Binary64.lt x y).
Proof.
  destruct (Binary64.ltb x y) eqn:E.
  - symmetry. by apply bool_decide_eq_true.
  - symmetry. apply bool_decide_eq_false. unfold Binary64.lt. by rewrite E.
Qed.

Lemma float_gtb_decide (x y : float) : Binary64.gtb x y = bool_decide (Binary64.lt y x).
Proof. apply float_ltb_decide. Qed.

(** The running maximum of [max(d, key=d.get)] on floats: it ends on an
    entry that no entry exceeds and that no earlier entry reaches. *)
Lemma float_max_from_first_greatest
    (rest : list (string * float)) (best : string * float) :
  exists i : nat,
    (best :: rest) !! i = Some (Binary64.max_from best rest)
    /\ (i = 0%nat \/ Binary64.ltb best.2 (Binary64.max_from best rest).2 = true)
    /\ (forall (j : nat) (kv : string * float),
          (best :: rest) !! j = Some kv ->
          Binary64.ltb (Binary64.max_from best rest).2 kv.2 = false)
    /\ (forall (j : nat) (kv : string * float),
          (j < i)%nat -> (best :: rest) !! j = Some kv ->
          ((Binary64.max_from best rest).2 <=? kv.2)%float = false).
Proof.
  revert best. induction rest as [| kv rest IH]; intros best.
  - exists 0%nat. cbn [Binary64.max_from]. split; [done |]. split; [by left |]. split.
    + intros [| j] kv' Hj; simpl in Hj; [| done].
      injection Hj as <-. apply float_lt_irrefl.
    + intros j kv' Hlt. lia.
  - cbn [Binary64.max_from]. destruct (Binary64.gtb kv.2 best.2) eqn:E.
    + change (Binary64.ltb best.2 kv.2 = true) in E.
      destruct (IH kv) as (i & Hi & Hfrom & Hall & Hbefore).
      set (R := Binary64.max_from kv rest) in *.
      assert (Hbest : Binary64.ltb best.2 R.2 = true).
      { destruct Hfrom as [-> | Hlt].
        - simpl in Hi. injection Hi as <-. exact E.
        - by apply float_lt_trans with kv.2. }
      exists (S i). split; [exact Hi |]. split; [by right |]. split.
      * intros [| j] kv' Hj; simpl in Hj.
        -- injection Hj as <-. by apply float_lt_asym.
        -- by apply (Hall j).
      * intros [| j] kv' Hlt Hj; simpl in Hj.
        -- injection Hj as <-. by apply float_lt_not_ge.
        -- apply (Hbefore j); [lia | done].
    + change (Binary64.ltb best.2 kv.2 = false) in E.
      destruct (IH best) as (i & Hi & Hfrom & Hall & Hbefore).
      set (R := Binary64.max_from best rest) in *.
      destruct i as [| i].
      * simpl in Hi. injection Hi as Hi.
        exists 0%nat. split; [simpl; by rewrite Hi |]. split; [by left |]. split.
        -- intros [| [| j]] kv' Hj; simpl in Hj.
           ++ by apply (Hall 0%nat).
           ++ injection Hj as <-. by rewrite <- Hi.
           ++ by apply (Hall (S j)).
        -- intros j kv' Hlt. lia.
      * destruct Hfrom as [Hfrom | Hfrom]; [discriminate |].
        assert (Hkv : (R.2 <=? kv.2)%float = false)
          by (by apply float_below_new_maximum with best.2).
        exists (S (S i)). split; [exact Hi |]. split; [by right |]. split.
        -- intros [| [| j]] kv' Hj; simpl in Hj.
           ++ by apply (Hall 0%nat).
           ++ injection Hj as <-. by apply float_not_le_not_lt.
           ++ by apply (Hall (S j)).
        -- intros [| [| j]] kv' Hlt Hj; simpl in Hj.
           ++ apply (Hbefore 0%nat); [lia | done].
           ++ injection Hj as <-. exact Hkv.
           ++ apply (Hbefore (S j)); [lia | done].
Qed.

Lemma float_max_key_is_argmax (d : list (string * float)) (k : string) :
  Binary64.max_key d = Some k -> Design.is_argmax d k.
Proof.
  destruct d as [| kv rest]; simpl; [done |].
  intros [= <-].
  destruct (float_max_from_first_greatest rest kv) as (i & Hi & _ & Hall & Hbefore).
  exists i, (Binary64.max_from kv rest).2. split; [| split].
  - rewrite Hi. by destruct (Binary64.max_from kv rest).
  - intros j kv' Hj Hlt. unfold Binary64.lt in Hlt. by rewrite (Hall j kv' Hj) in Hlt.
  - intros j kv' Hlt Hj Hle. unfold Binary64.le in Hle.
    by rewrite (Hbefore j kv' Hlt Hj) in Hle.
Qed.

(** For ratios that are numbers, the chain of [if]/[elif] tests computes
    the cascade of the design. *)
Lemma label_cascade (dominant : string)
    (avg_total avg_electricity avg_meat tr fr er flr : float) :
  is_nan tr = false -> is_nan fr = false -> is_nan er = false ->
  Binary64.label (Some dominant) avg_total avg_electricity avg_meat tr fr er flr
  = Design.cascade dominant avg_total avg_electricity avg_meat tr fr er flr.
Proof.
  intros Htr Hfr Her. unfold Binary64.label, Design.cascade.
  rewrite (float_max3_lt tr fr er 0.50 Htr Hfr Her).
  rewrite !float_ltb_decide, !float_gtb_decide, !eqb_decide.
  rewrite !decide_bool_decide, !bool_decide_and, !andb_assoc.
  by rewrite (float_mul_comm er 1.1).
Qed.

(* ===================================================================== *)
(** ** C4: one feature schema for training and inference *)
(* ===================================================================== *)

Lemma feature_vector_of_columns (u : Train.user_row) :
  Service.feature_vector (Train.columns u)
  = [ Train.daily_miles_driven u; Train.meat_meals_per_week u;
      Train.electricity_kwh_per_day u; Train.natural_gas_therms_per_month u;
      Train.flights_per_year u; Train.transport_emissions_kg u;
      Train.food_emissions_kg u; Train.energy_emissions_kg u ].
Proof. reflexivity. Qed.

Lemma X_rows (df : list Train.user_row) :
  Train.X df
  = Some (map (fun u => Service.feature_vector (Train.columns u)) df).
Proof.
  unfold Train.X.
  induction df as [| u df IH]; [reflexivity |].
  cbn [mapM map]. rewrite IH. reflexivity.
Qed.

(** C4.  Training ([prepare_features]) and inference
    ([classify_user_archetype]) list the same eight feature names in the
    same order, and build the same vector from them: the matrix training
    fits on holds, for each row, the vector that inference builds from the
    row's record, which is the row's eight feature columns in that order. *)
Theorem feature_cols_agree (df : list Train.user_row) :
  Service.feature_cols = Train.feature_cols
  /\ Train.feature_cols =
       [ "daily_miles_driven"; "meat_meals_per_week"; "electricity_kwh_per_day";
         "natural_gas_therms_per_month"; "flights_per_year";
         "transport_emissions_kg"; "food_emissions_kg"; "energy_emissions_kg" ]%string
  /\ length Service.feature_cols = 8%nat
  /\ (forall i : nat, Service.feature_cols !! i = Train.feature_cols !! i)
  /\ Train.X df
     = Some (map (fun u => Service.feature_vector (Train.columns u)) df)
  /\ (forall u : Train.user_row,
        Service.feature_vector (Train.columns u)
        = [ Train.daily_miles_driven u; Train.meat_meals_per_week u;
            Train.electricity_kwh_per_day u; Train.natural_gas_therms_per_month u;
            Train.flights_per_year u; Train.transport_emissions_kg u;
            Train.food_emissions_kg u; Train.energy_emissions_kg u ]).
Proof.
  do 4 (split; [reflexivity |]).
  split; [apply X_rows | apply feature_vector_of_columns].
Qed.

(* ===================================================================== *)
(** ** C1: the archetype label of a cluster *)
(* ===================================================================== *)

Lemma float_analyze_clusters_lookup `{Binary64.Numpy}
    (df : list Binary64.user_row) (labels_ : list nat) (n_clusters cluster_id : nat) :
  (cluster_id < n_clusters)%nat ->
  Binary64.analyze_clusters df labels_ n_clusters !! cluster_id
  = Some (cluster_id,
          Binary64.describe_cluster (Binary64.members df labels_ cluster_id)).
Proof.
  intros Hlt. unfold Binary64.analyze_clusters.
  rewrite list_lookup_fmap, lookup_seq_lt by done. reflexivity.
Qed.

(** C1.  For every cluster that training describes, of the rows whose
    label is the cluster's id, and whose transport, food and energy ratios
    are numbers: the dominant source is the arg-max of the four ratios of
    means (transport, food, energy, flight; the first wins a tie), and the
    archetype is the label the decision cascade gives for the means of
    those rows and the ratios of those means, all compared as binary64
    numbers. *)
Theorem archetype_by_cascade `{Binary64.Numpy}
    (df : list Binary64.user_row) (labels_ : list nat) (n_clusters cluster_id : nat) :
  length labels_ = length df ->
  (cluster_id < n_clusters)%nat ->
  let cluster_data :=
    map fst (filter (fun rl => rl.2 = cluster_id) (zip df labels_)) in
  let mean_of (col : Binary64.user_row -> float) :=
    Binary64.mean (map col cluster_data) in
  let total := mean_of Binary64.total_annual_emissions_kg in
  let transport_ratio := (mean_of Binary64.transport_emissions_kg / total)%float in
  let food_ratio := (mean_of Binary64.food_emissions_kg / total)%float in
  let energy_ratio := (mean_of Binary64.energy_emissions_kg / total)%float in
  let flight_ratio := (mean_of Binary64.flight_emissions_kg / total)%float in
  is_nan transport_ratio = false ->
  is_nan food_ratio = false ->
  is_nan energy_ratio = false ->
  exists (d : Binary64.cluster_description) (dominant : string),
    Binary64.analyze_clusters df labels_ n_clusters !! cluster_id = Some (cluster_id, d)
    /\ Binary64.dominant_source d = Some dominant
    /\ Design.is_argmax
         [ ("transport"%string, transport_ratio); ("food"%string, food_ratio);
           ("energy"%string, energy_ratio); ("flight"%string, flight_ratio) ]
         dominant
    /\ Binary64.archetype d
       = Design.cascade dominant total
           (mean_of Binary64.electricity_kwh_per_day)
           (mean_of Binary64.meat_meals_per_week)
           transport_ratio food_ratio energy_ratio flight_ratio.
Proof.
  intros _ Hlt cluster_data mean_of total transport_ratio food_ratio energy_ratio
    flight_ratio Htr Hfr Her.
  set (ratios := [ ("transport"%string, transport_ratio); ("food"%string, food_ratio);
                   ("energy"%string, energy_ratio); ("flight"%string, flight_ratio) ]).
  destruct (Binary64.max_key ratios) as [dominant |] eqn:Hmax; [| discriminate Hmax].
  exists (Binary64.describe_cluster (Binary64.members df labels_ cluster_id)), dominant.
  split; [by apply float_analyze_clusters_lookup |].
  split; [exact Hmax |].
  split; [by apply float_max_key_is_argmax |].
  unfold Binary64.describe_cluster. cbn [Binary64.archetype].
  change (Binary64.max_key _) with (Binary64.max_key ratios).
  rewrite Hmax. by apply label_cascade.
Qed.

Lemma archetype_by_cascade_witness :
  length [0%nat] = length Sample.near_tie
  /\ (0 < 1)%nat
  /\ is_nan (2860 / 9300) = false
  /\ exists (d : Binary64.cluster_description) (dominant : string),
       @Binary64.analyze_clusters Sample.numpy Sample.near_tie [0%nat] 1 !! 0%nat
       = Some (0%nat, d)
       /\ Binary64.dominant_source d = Some dominant
       /\ Binary64.archetype d
          = Design.cascade dominant 9300 14 7
              (2860 / 9300) (1920 / 9300) (2600 / 9300) (1920 / 9300).
Proof.
  split; [reflexivity |]. split; [lia |]. split; [reflexivity |].
  destruct (@archetype_by_cascade Sample.numpy Sample.near_tie [0%nat] 1 0 eq_refl
              (Nat.lt_0_1) eq_refl eq_refl eq_refl)
    as (d & dominant & Hd & Hdom & _ & Harch).
  exists d, dominant. split; [exact Hd |]. split; [exact Hdom |]. exact Harch.
Defined.

(** On the cluster of [Sample.near_tie] the transport ratio is, as a real
    number, exactly 1.1 times the energy ratio; in binary64 the product
    [energy_ratio * 1.1] falls just below it and the label is "High
    Transportation". *)
Example near_tie_label :
  Binary64.archetype (@Binary64.describe_cluster Sample.numpy Sample.near_tie)
  = "High Transportation"%string
  /\ Binary64.dominant_source (@Binary64.describe_cluster Sample.numpy Sample.near_tie)
     = Some "transport"%string.
Proof. split; vm_compute; reflexivity. Qed.

(* ===================================================================== *)
(** ** Sums, means and rounding *)
(* ===================================================================== *)

Lemma fold_left_Qplus_acc (xs : list Q) (a : Q) :
  fold_left Qplus xs a == a + fold_left Qplus xs 0.
Proof.
  revert a. induction xs as [| x xs IH]; intros a; simpl.
  - ring.
  - rewrite (IH (a + x)), (IH (0 + x)). ring.
Qed.

Lemma sum_cons (x : Q) (xs : list Q) : Py.sum (x :: xs) == x + Py.sum xs.
Proof.
  unfold Py.sum. simpl. rewrite fold_left_Qplus_acc. ring.
Qed.

Lemma round_half_even_near (y : Q) :
  Qabs (inject_Z (Py.round_half_even y) - y) <= 1 # 2.
Proof.
  pose proof (Qfloor_le y) as Hlo.
  pose proof (Qlt_floor y) as Hhi.
  rewrite inject_Z_plus in Hhi. change (inject_Z 1) with 1 in Hhi.
  unfold Py.round_half_even.
  set (f := Qfloor y) in *.
  apply Qabs_Qle_condition.
  destruct (Py.ltb (y - inject_Z f) (1 # 2)) eqn:E1.
  - apply ltb_lt in E1. split; lra.
  - assert (H1 : 1 # 2 <= y - inject_Z f).
    { apply Qnot_lt_le. rewrite <- ltb_lt. congruence. }
    destruct (Py.gtb (y - inject_Z f) (1 # 2)) eqn:E2.
    + rewrite inject_Z_plus. change (inject_Z 1) with 1. split; lra.
    + apply gtb_false_le in E2.
      destruct (Z.even f).
      * split; lra.
      * rewrite inject_Z_plus. change (inject_Z 1) with 1. split; lra.
Qed.

(** [round(x, 3)] moves [x] by at most half a thousandth. *)
Lemma round3_near (x : Q) : Qabs (Py.round x 3 - x) <= 0.0005.
Proof.
  unfold Py.round. change (inject_Z (10 ^ Z.of_nat 3)) with 1000.
  pose proof (round_half_even_near (x * 1000)) as Hnear.
  apply Qabs_Qle_condition in Hnear. apply Qabs_Qle_condition.
  set (n := inject_Z (Py.round_half_even (x * 1000))) in *.
  assert (Hdiv : n / 1000 == n * (1 # 1000)) by (field).
  rewrite Hdiv. split; lra.
Qed.

(** [round(x, 2)] moves [x] by at most half a hundredth. *)
Lemma round2_near (x : Q) : Qabs (Py.round x 2 - x) <= 0.005.
Proof.
  unfold Py.round. change (inject_Z (10 ^ Z.of_nat 2)) with 100.
  pose proof (round_half_even_near (x * 100)) as Hnear.
  apply Qabs_Qle_condition in Hnear. apply Qabs_Qle_condition.
  set (n := inject_Z (Py.round_half_even (x * 100))) in *.
  assert (Hdiv : n / 100 == n * (1 # 100)) by (field).
  rewrite Hdiv. split; lra.
Qed.

(** The generator rounds the total and the four categories separately, so
    a synthetic row's categories add up to its total only up to the five
    roundings. *)
Lemma synthetic_user_parts_near_total
    (daily_miles meat_meals veg_meals electricity_kwh gas_therms flights : Q) :
  let r := Train.synthetic_user daily_miles meat_meals veg_meals
                                electricity_kwh gas_therms flights in
  Qabs (Train.transport_emissions_kg r + Train.food_emissions_kg r
        + Train.energy_emissions_kg r + Train.flight_emissions_kg r
        - Train.total_annual_emissions_kg r) <= 0.025.
Proof.
  intros r. unfold r, Train.synthetic_user. cbv zeta.
  cbn [Train.transport_emissions_kg Train.food_emissions_kg Train.energy_emissions_kg
       Train.flight_emissions_kg Train.total_annual_emissions_kg].
  set (t := daily_miles * 365 * 0.411).
  set (f := (meat_meals * 3.5 + veg_meals * 0.5) * 52).
  set (e := electricity_kwh * 0.5 * 365 + gas_therms * 5.3 * 12).
  set (l := flights * 900).
  pose proof (round2_near t) as Ht. pose proof (round2_near f) as Hf.
  pose proof (round2_near e) as He. pose proof (round2_near l) as Hl.
  pose proof (round2_near (t + f + e + l)) as Hs.
  apply Qabs_Qle_condition in Ht, Hf, He, Hl, Hs. apply Qabs_Qle_condition.
  destruct Ht, Hf, He, Hl, Hs.
  set (rt := Py.round t 2) in *. set (rf := Py.round f 2) in *.
  set (re := Py.round e 2) in *. set (rl := Py.round l 2) in *.
  set (rs := Py.round (t + f + e + l) 2) in *.
  split; lra.
Qed.

Example homebody_parts_exceed_total :
  Train.total_annual_emissions_kg Sample.homebody == 1042.51
  /\ Train.transport_emissions_kg Sample.homebody
     + Train.food_emissions_kg Sample.homebody
     + Train.energy_emissions_kg Sample.homebody
     + Train.flight_emissions_kg Sample.homebody == 1042.52.
Proof. split; vm_compute; reflexivity. Qed.

Section ClusterRatios.
Variable cluster_data : list Train.user_row.

Local Abbreviation total_of col := (Py.sum (map col cluster_data)).
Local Abbreviation mean_of col := (Train.col_mean col cluster_data).

Lemma members_positive : cluster_data <> [] -> 0 < inject_Z (Z.of_nat (length cluster_data)).
Proof.
  intros Hne. destruct cluster_data; [done |].
  change 0 with (inject_Z 0). rewrite <- Zlt_Qlt. simpl. lia.
Qed.

Lemma mean_is_total_over_count (col : Train.user_row -> Q) :
  mean_of col = total_of col / inject_Z (Z.of_nat (length cluster_data)).
Proof. unfold Train.col_mean, Py.mean. by rewrite length_map. Qed.

Lemma positive_mean_positive_total :
  cluster_data <> [] ->
  0 < mean_of Train.total_annual_emissions_kg ->
  0 < total_of Train.total_annual_emissions_kg.
Proof.
  intros Hne Hpos. pose proof (members_positive Hne) as Hn.
  rewrite mean_is_total_over_count in Hpos.
  apply Qnot_le_lt. intros Hle. apply (Qlt_not_le _ _ Hpos).
  apply Qle_shift_div_r; [done |]. lra.
Qed.

(** A ratio of means is the ratio of the column sums: the member count
    cancels. *)
Lemma ratio_of_means_is_ratio_of_sums (col : Train.user_row -> Q) :
  cluster_data <> [] ->
  0 < mean_of Train.total_annual_emissions_kg ->
  mean_of col / mean_of Train.total_annual_emissions_kg
  == total_of col / total_of Train.total_annual_emissions_kg.
Proof.
  intros Hne Hpos. pose proof (members_positive Hne) as Hn.
  pose proof (positive_mean_positive_total Hne Hpos) as Htot.
  rewrite !mean_is_total_over_count.
  set (n := inject_Z (Z.of_nat (length cluster_data))) in *.
  set (t := total_of Train.total_annual_emissions_kg) in *.
  field. split; lra.
Qed.

(** If every member's four categories exceed its total by at most [slack],
    the four column sums exceed the sum of the totals by at most [slack]
    per member. *)
Lemma parts_sum_le_total (slack : Q) :
  Forall (fun r =>
            Train.transport_emissions_kg r + Train.food_emissions_kg r
            + Train.energy_emissions_kg r + Train.flight_emissions_kg r
            <= Train.total_annual_emissions_kg r + slack) cluster_data ->
  total_of Train.transport_emissions_kg + total_of Train.food_emissions_kg
  + total_of Train.energy_emissions_kg + total_of Train.flight_emissions_kg
  <= total_of Train.total_annual_emissions_kg
     + inject_Z (Z.of_nat (length cluster_data)) * slack.
Proof.
  induction 1 as [| r rs Hr Hrs IH].
  - change (inject_Z (Z.of_nat (length (@nil Train.user_row)))) with 0.
    unfold Py.sum. simpl. lra.
  - cbn [map length]. rewrite !sum_cons, Nat2Z.inj_succ, <- Z.add_1_r, inject_Z_plus.
    change (inject_Z 1) with 1. cbn [map] in IH.
    set (n := inject_Z (Z.of_nat (length rs))) in *.
    assert (Hdist : (n + 1) * slack == n * slack + slack) by ring.
    rewrite Hdist. set (ns := n * slack) in *. lra.
Qed.

(** The four ratios of means then sum to at most one plus the slack over
    the mean total. *)
Lemma ratios_sum_le (slack : Q) :
  cluster_data <> [] ->
  0 < mean_of Train.total_annual_emissions_kg ->
  Forall (fun r =>
            Train.transport_emissions_kg r + Train.food_emissions_kg r
            + Train.energy_emissions_kg r + Train.flight_emissions_kg r
            <= Train.total_annual_emissions_kg r + slack) cluster_data ->
  mean_of Train.transport_emissions_kg / mean_of Train.total_annual_emissions_kg
  + mean_of Train.food_emissions_kg / mean_of Train.total_annual_emissions_kg
  + mean_of Train.energy_emissions_kg / mean_of Train.total_annual_emissions_kg
  + mean_of Train.flight_emissions_kg / mean_of Train.total_annual_emissions_kg
  <= 1 + slack / mean_of Train.total_annual_emissions_kg.
Proof.
  intros Hne Hpos Hparts.
  rewrite !ratio_of_means_is_ratio_of_sums by done.
  pose proof (parts_sum_le_total slack Hparts) as Hsum.
  pose proof (positive_mean_positive_total Hne Hpos) as Htot.
  pose proof (members_positive Hne) as Hn.
  rewrite (mean_is_total_over_count Train.total_annual_emissions_kg).
  set (n := inject_Z (Z.of_nat (length cluster_data))) in *.
  set (t := total_of Train.total_annual_emissions_kg) in *.
  assert (Hfold :
    total_of Train.transport_emissions_kg / t + total_of Train.food_emissions_kg / t
    + total_of Train.energy_emissions_kg / t + total_of Train.flight_emissions_kg / t
    == (total_of Train.transport_emissions_kg + total_of Train.food_emissions_kg
        + total_of Train.energy_emissions_kg + total_of Train.flight_emissions_kg) / t).
  { field. lra. }
  assert (Hbound : 1 + slack / (t / n) == (t + n * slack) / t).
  { field. split; lra. }
  rewrite Hfold, Hbound. apply Qle_shift_div_r; [done |].
  assert (Hcancel : (t + n * slack) / t * t == t + n * slack) by (field; lra).
  rewrite Hcancel. exact Hsum.
Qed.

End ClusterRatios.

(* ===================================================================== *)
(** ** C2: the emission-source ratios of a cluster *)
(* ===================================================================== *)

(** C2, as amended.  For a cluster with at least one member and positive
    mean total emissions: each ratio the cascade uses is the mean of the
    category over the mean of the total, which is the ratio of the column
    sums; the value stored in the description is that ratio rounded to
    three decimals, so within 0.0005 of it.  If every member's four
    categories add up to at most its total plus [slack], the four ratios
    sum to at most 1 plus [slack] over the mean total, and the four stored
    values to at most 0.002 more. *)
Theorem ratios_are_ratios_of_means (cluster_data : list Train.user_row) (slack : Q) :
  cluster_data <> [] ->
  0 < Train.col_mean Train.total_annual_emissions_kg cluster_data ->
  Forall (fun r =>
            Train.transport_emissions_kg r + Train.food_emissions_kg r
            + Train.energy_emissions_kg r + Train.flight_emissions_kg r
            <= Train.total_annual_emissions_kg r + slack) cluster_data ->
  let d := Train.describe_cluster cluster_data in
  let mean_total := Train.col_mean Train.total_annual_emissions_kg cluster_data in
  let ratio col := Train.col_mean col cluster_data / mean_total in
  Train.ratios_of cluster_data
  = [ ("transport"%string, ratio Train.transport_emissions_kg);
      ("food"%string, ratio Train.food_emissions_kg);
      ("energy"%string, ratio Train.energy_emissions_kg);
      ("flight"%string, ratio Train.flight_emissions_kg) ]
  /\ (forall col,
        ratio col
        == Py.sum (map col cluster_data)
           / Py.sum (map Train.total_annual_emissions_kg cluster_data))
  /\ Train.transport_ratio d = Py.round (ratio Train.transport_emissions_kg) 3
  /\ Train.food_ratio d = Py.round (ratio Train.food_emissions_kg) 3
  /\ Train.energy_ratio d = Py.round (ratio Train.energy_emissions_kg) 3
  /\ Train.flight_ratio d = Py.round (ratio Train.flight_emissions_kg) 3
  /\ Qabs (Train.transport_ratio d - ratio Train.transport_emissions_kg) <= 0.0005
  /\ Qabs (Train.food_ratio d - ratio Train.food_emissions_kg) <= 0.0005
  /\ Qabs (Train.energy_ratio d - ratio Train.energy_emissions_kg) <= 0.0005
  /\ Qabs (Train.flight_ratio d - ratio Train.flight_emissions_kg) <= 0.0005
  /\ ratio Train.transport_emissions_kg + ratio Train.food_emissions_kg
     + ratio Train.energy_emissions_kg + ratio Train.flight_emissions_kg
     <= 1 + slack / mean_total
  /\ Train.transport_ratio d + Train.food_ratio d
     + Train.energy_ratio d + Train.flight_ratio d
     <= 1 + slack / mean_total + 0.002.
Proof.
  intros Hne Hpos Hparts d mean_total ratio.
  assert (Hsum : ratio Train.transport_emissions_kg + ratio Train.food_emissions_kg
                 + ratio Train.energy_emissions_kg + ratio Train.flight_emissions_kg
                 <= 1 + slack / mean_total)
    by exact (ratios_sum_le cluster_data slack Hne Hpos Hparts).
  pose proof (round3_near (ratio Train.transport_emissions_kg)) as Ht.
  pose proof (round3_near (ratio Train.food_emissions_kg)) as Hf.
  pose proof (round3_near (ratio Train.energy_emissions_kg)) as He.
  pose proof (round3_near (ratio Train.flight_emissions_kg)) as Hfl.
  split; [reflexivity |].
  split; [intros col; by apply ratio_of_means_is_ratio_of_sums |].
  do 4 (split; [reflexivity |]).
  do 4 (split; [done |]).
  split; [exact Hsum |].
  change (Train.transport_ratio d) with (Py.round (ratio Train.transport_emissions_kg) 3).
  change (Train.food_ratio d) with (Py.round (ratio Train.food_emissions_kg) 3).
  change (Train.energy_ratio d) with (Py.round (ratio Train.energy_emissions_kg) 3).
  change (Train.flight_ratio d) with (Py.round (ratio Train.flight_emissions_kg) 3).
  apply Qabs_Qle_condition in Ht, Hf, He, Hfl.
  destruct Ht as [_ Ht], Hf as [_ Hf], He as [_ He], Hfl as [_ Hfl].
  set (rt := ratio Train.transport_emissions_kg) in *.
  set (rf := ratio Train.food_emissions_kg) in *.
  set (re := ratio Train.energy_emissions_kg) in *.
  set (rl := ratio Train.flight_emissions_kg) in *.
  set (bound := 1 + slack / mean_total) in *.
  lra.
Qed.

(** The theorem at a cluster of two generated rows with different totals,
    where the ratio of means (about 0.289) is not the mean of the two
    members' own ratios (about 0.151). *)
Lemma ratios_are_ratios_of_means_witness :
  let cluster_data := [Sample.commuter; Sample.homebody] in
  let d := Train.describe_cluster cluster_data in
  let mean_total := Train.col_mean Train.total_annual_emissions_kg cluster_data in
  cluster_data <> []
  /\ 0 < mean_total
  /\ Train.col_mean Train.transport_emissions_kg cluster_data / mean_total
     == Py.sum (map Train.transport_emissions_kg cluster_data)
        / Py.sum (map Train.total_annual_emissions_kg cluster_data)
  /\ ~ (Train.col_mean Train.transport_emissions_kg cluster_data / mean_total
        == Py.mean (map (fun r => Train.transport_emissions_kg r
                                  / Train.total_annual_emissions_kg r) cluster_data))
  /\ Train.transport_ratio d + Train.food_ratio d
     + Train.energy_ratio d + Train.flight_ratio d
     <= 1 + 0.025 / mean_total + 0.002.
Proof.
  intros cluster_data d mean_total.
  assert (Hne : cluster_data <> []) by discriminate.
  assert (Hpos : 0 < mean_total) by (vm_compute; reflexivity).
  assert (Hparts :
    Forall (fun r =>
              Train.transport_emissions_kg r + Train.food_emissions_kg r
              + Train.energy_emissions_kg r + Train.flight_emissions_kg r
              <= Train.total_annual_emissions_kg r + 0.025) cluster_data).
  { constructor; [vm_compute; discriminate |].
    constructor; [vm_compute; discriminate | constructor]. }
  destruct (ratios_are_ratios_of_means cluster_data 0.025 Hne Hpos Hparts)
    as (_ & Hratio & _ & _ & _ & _ & _ & _ & _ & _ & _ & Hstored).
  split; [exact Hne |]. split; [exact Hpos |].
  split; [exact (Hratio Train.transport_emissions_kg) |].
  split; [vm_compute; discriminate | exact Hstored].
Defined.

(** C2, the claim as worded.  At the one-member cluster whose shares are
    1/6, 1/6, 2/3 and 0 the stored transport ratio is 0.167, not 1/6, and
    the four stored ratios add up to 1.001.  At the one-member cluster of a
    generated row whose categories, rounded one by one, add up to 20671.13
    against a rounded total of 20671.12, the four ratios themselves add up
    to more than 1. *)
Lemma stored_ratios_are_rounded :
  Sample.sixths <> []
  /\ 0 < Train.col_mean Train.total_annual_emissions_kg Sample.sixths
  /\ Train.col_mean Train.transport_emissions_kg Sample.sixths
     / Train.col_mean Train.total_annual_emissions_kg Sample.sixths == 1 # 6
  /\ Train.transport_ratio (Train.describe_cluster Sample.sixths) == 0.167
  /\ ~ (Train.transport_ratio (Train.describe_cluster Sample.sixths)
        == Train.col_mean Train.transport_emissions_kg Sample.sixths
           / Train.col_mean Train.total_annual_emissions_kg Sample.sixths)
  /\ Train.transport_ratio (Train.describe_cluster Sample.sixths)
     + Train.food_ratio (Train.describe_cluster Sample.sixths)
     + Train.energy_ratio (Train.describe_cluster Sample.sixths)
     + Train.flight_ratio (Train.describe_cluster Sample.sixths) == 1.001
  /\ ~ (Train.transport_ratio (Train.describe_cluster Sample.sixths)
        + Train.food_ratio (Train.describe_cluster Sample.sixths)
        + Train.energy_ratio (Train.describe_cluster Sample.sixths)
        + Train.flight_ratio (Train.describe_cluster Sample.sixths) <= 1)
  /\ 0 < Train.col_mean Train.total_annual_emissions_kg [Sample.commuter]
  /\ Train.total_annual_emissions_kg Sample.commuter == 20671.12
  /\ Train.transport_emissions_kg Sample.commuter + Train.food_emissions_kg Sample.commuter
     + Train.energy_emissions_kg Sample.commuter + Train.flight_emissions_kg Sample.commuter
     == 20671.13
  /\ ~ (Train.col_mean Train.transport_emissions_kg [Sample.commuter]
        / Train.col_mean Train.total_annual_emissions_kg [Sample.commuter]
        + Train.col_mean Train.food_emissions_kg [Sample.commuter]
          / Train.col_mean Train.total_annual_emissions_kg [Sample.commuter]
        + Train.col_mean Train.energy_emissions_kg [Sample.commuter]
          / Train.col_mean Train.total_annual_emissions_kg [Sample.commuter]
        + Train.col_mean Train.flight_emissions_kg [Sample.commuter]
          / Train.col_mean Train.total_annual_emissions_kg [Sample.commuter]
        <= 1).
Proof.
  split; [discriminate |].
  split; [vm_compute; reflexivity |].
  split; [vm_compute; reflexivity |].
  split; [vm_compute; reflexivity |].
  split; [vm_compute; discriminate |].
  split; [vm_compute; reflexivity |].
  split; [vm_compute; intros Hle; apply Hle; reflexivity |].
  split; [vm_compute; reflexivity |].
  split; [vm_compute; reflexivity |].
  split; [vm_compute; reflexivity |].
  vm_compute. intros Hle. apply Hle. reflexivity.
Qed.

(* ===================================================================== *)
(** ** The rule engine *)
(* ===================================================================== *)

Section RuleEngine.
Context `{FloatFormat}.

Lemma transport_rule_shape (data : gmap string Q) (archetype : string) :
  Forall Design.savings_shape (Service.transport_rule data archetype).
Proof.
  unfold Service.transport_rule.
  destruct (_ || _); [| constructor].
  destruct (Py.gtb _ 30) eqn:E; [| constructor].
  apply gtb_lt in E.
  constructor; [| constructor].
  left. simpl. split; [lra | set_solver].
Qed.

Lemma food_rule_shape (data : gmap string Q) (archetype : string) :
  Forall Design.savings_shape (Service.food_rule data archetype).
Proof.
  unfold Service.food_rule.
  destruct (_ || _); [| constructor].
  destruct (Py.gtb _ 7) eqn:E; [| constructor].
  apply gtb_lt in E.
  constructor; [| constructor].
  left. simpl. split; [lra | set_solver].
Qed.

Lemma energy_rule_shape (data : gmap string Q) (archetype : string) :
  Forall Design.savings_shape (Service.energy_rule data archetype).
Proof.
  unfold Service.energy_rule.
  destruct (_ || _); [| constructor].
  destruct (Py.gtb _ 30) eqn:E; [| constructor].
  apply gtb_lt in E.
  constructor; [| constructor].
  left. simpl. split; [lra | set_solver].
Qed.

Lemma low_rule_shape (archetype : string) :
  Forall Design.savings_shape (Service.low_rule archetype).
Proof.
  unfold Service.low_rule.
  destruct (Py.contains _ _); [| constructor].
  constructor; [| constructor].
  right. split; [reflexivity | set_solver].
Qed.

Lemma rules_nonempty (data : gmap string Q) (archetype : string) :
  Service.generate_rule_based_recommendations data archetype <> [].
Proof.
  unfold Service.generate_rule_based_recommendations. cbv zeta.
  destruct (((([] ++ _) ++ _) ++ _) ++ _); discriminate.
Qed.

End RuleEngine.

(* ===================================================================== *)
(** ** C3: the driving rule *)
(* ===================================================================== *)

Lemma float_transport_rule_fires `{Binary64.Format}
    (data : gmap string float) (archetype : string) :
  Py.contains "Transportation" archetype = true
  \/ Binary64.lt 2000 (Binary64.get data "transport_emissions_kg" 0) ->
  Binary64.lt 30 (Binary64.get data "daily_miles_driven" 0) ->
  Binary64.transport_rule data archetype
  = [ {| Binary64.title := "Reduce Daily Driving";
         Binary64.rec_description :=
           "Reduce driving by "
           +:+ Binary64.fmt_1f (Binary64.get data "daily_miles_driven" 0 - 25)%float
           +:+ " miles/week";
         Binary64.estimated_savings_kg :=
           ((Binary64.get data "daily_miles_driven" 0 - 25) * 0.411 * 7)%float;
         Binary64.category := "transportation";
         Binary64.priority := "high" |} ].
Proof.
  intros Hwho Hmiles. unfold Binary64.transport_rule.
  assert (Hcond : Py.contains "Transportation" archetype
                  || Binary64.gtb (Binary64.get data "transport_emissions_kg" 0) 2000
                  = true).
  { apply orb_true_iff. destruct Hwho as [Hin | Hkg]; [by left | by right]. }
  rewrite Hcond. unfold Binary64.lt in Hmiles.
  change (Binary64.gtb (Binary64.get data "daily_miles_driven" 0) 30 = true) in Hmiles.
  by rewrite Hmiles.
Qed.

(** C3, as amended.  When the archetype contains "Transportation" or the
    transport emissions exceed 2000, and the daily miles exceed 30, the
    output holds a "Reduce Daily Driving" entry of priority "high" whose
    savings are (miles - 25) * 0.411 * 7, computed from left to right in
    binary64; for the archetype "High Transportation" and 50 miles a day
    that is 71.92499999999998, which is below 71.925 by less than 1e-13. *)
Theorem reduce_driving_rule `{Binary64.Format}
    (data : gmap string float) (archetype : string) :
  Py.contains "Transportation" archetype = true
  \/ Binary64.lt 2000 (Binary64.get data "transport_emissions_kg" 0) ->
  Binary64.lt 30 (Binary64.get data "daily_miles_driven" 0) ->
  exists r : Binary64.recommendation,
    r ∈ Binary64.generate_rule_based_recommendations data archetype
    /\ Binary64.title r = "Reduce Daily Driving"%string
    /\ Binary64.estimated_savings_kg r
       = ((Binary64.get data "daily_miles_driven" 0 - 25) * 0.411 * 7)%float
    /\ Binary64.priority r = "high"%string
    /\ (archetype = "High Transportation"%string ->
        Binary64.get data "daily_miles_driven" 0 = 50%float ->
        Binary64.estimated_savings_kg r = 71.92499999999998%float
        /\ Binary64.lt (Binary64.estimated_savings_kg r) 71.925
        /\ Binary64.lt (71.925 - Binary64.estimated_savings_kg r) 1e-13).
Proof.
  intros Hwho Hmiles.
  eexists. split.
  - unfold Binary64.generate_rule_based_recommendations. cbv zeta.
    rewrite (float_transport_rule_fires data archetype Hwho Hmiles). simpl.
    apply list_elem_of_here.
  - cbn [Binary64.title Binary64.estimated_savings_kg Binary64.priority].
    do 3 (split; [reflexivity |]).
    intros _ ->. repeat split; vm_compute; reflexivity.
Qed.

Lemma reduce_driving_rule_witness :
  Binary64.lt 30
    (Binary64.get {[ "daily_miles_driven"%string := 50%float ]} "daily_miles_driven" 0)
  /\ exists r : Binary64.recommendation,
       r ∈ @Binary64.generate_rule_based_recommendations Sample.format64
             {[ "daily_miles_driven"%string := 50%float ]} "High Transportation"
       /\ Binary64.title r = "Reduce Daily Driving"%string
       /\ Binary64.priority r = "high"%string
       /\ Binary64.estimated_savings_kg r = 71.92499999999998%float.
Proof.
  assert (Hmiles : Binary64.lt 30
            (Binary64.get {[ "daily_miles_driven"%string := 50%float ]}
               "daily_miles_driven" 0))
    by (vm_compute; reflexivity).
  split; [exact Hmiles |].
  destruct (@reduce_driving_rule Sample.format64
              {[ "daily_miles_driven"%string := 50%float ]} "High Transportation"
              (or_introl eq_refl) Hmiles)
    as (r & Hin & Htitle & _ & Hprio & Hfifty).
  exists r. split; [exact Hin |]. split; [exact Htitle |]. split; [exact Hprio |].
  exact (proj1 (Hfifty eq_refl eq_refl)).
Defined.

(** C3, the claim as worded, for the archetype "High Transportation" and
    50 miles a day: the output is the single "Reduce Daily Driving" entry,
    its savings are 71.92499999999998, and no entry has savings 71.925. *)
Lemma driving_savings_at_fifty_miles :
  map Binary64.title
    (@Binary64.generate_rule_based_recommendations Sample.format64
       {[ "daily_miles_driven"%string := 50%float ]} "High Transportation")
  = ["Reduce Daily Driving"%string]
  /\ map Binary64.estimated_savings_kg
       (@Binary64.generate_rule_based_recommendations Sample.format64
          {[ "daily_miles_driven"%string := 50%float ]} "High Transportation")
     = [71.92499999999998%float]
  /\ (71.92499999999998 =? 71.925)%float = false
  /\ ~ (exists r : Binary64.recommendation,
          r ∈ @Binary64.generate_rule_based_recommendations Sample.format64
                {[ "daily_miles_driven"%string := 50%float ]} "High Transportation"
          /\ Binary64.estimated_savings_kg r = 71.925%float).
Proof.
  assert (Hsavings :
    map Binary64.estimated_savings_kg
      (@Binary64.generate_rule_based_recommendations Sample.format64
         {[ "daily_miles_driven"%string := 50%float ]} "High Transportation")
    = [71.92499999999998%float]) by (vm_compute; reflexivity).
  split; [vm_compute; reflexivity |]. split; [exact Hsavings |].
  split; [vm_compute; reflexivity |].
  intros (r & Hin & Hr).
  assert (Hfmap :
    Binary64.estimated_savings_kg
      <$> @Binary64.generate_rule_based_recommendations Sample.format64
            {[ "daily_miles_driven"%string := 50%float ]} "High Transportation"
    = [71.92499999999998%float]) by (vm_compute; reflexivity).
  apply (list_elem_of_fmap_2 Binary64.estimated_savings_kg) in Hin.
  rewrite Hfmap, Hr in Hin. apply list_elem_of_singleton in Hin.
  assert (Hneq : (71.925 =? 71.92499999999998)%float = true) by (by rewrite <- Hin).
  vm_compute in Hneq. discriminate.
Qed.

(* ===================================================================== *)
(** ** C10: savings are never negative *)
(* ===================================================================== *)

(** C10.  Every recommendation of the rule engine has non-negative savings:
    an entry of the driving, meat or energy rule has strictly positive
    savings, because of the guard it sits under, and every other entry has
    savings exactly 0. *)
Theorem savings_never_negative `{FloatFormat} (data : gmap string Q) (archetype : string) :
  Forall (fun r => 0 <= Service.estimated_savings_kg r /\ Design.savings_shape r)
         (Service.generate_rule_based_recommendations data archetype).
Proof.
  assert (Hshape : Forall Design.savings_shape
                     (Service.generate_rule_based_recommendations data archetype)).
  { unfold Service.generate_rule_based_recommendations. cbv zeta.
    assert (Hall : Forall Design.savings_shape
                     (((([] ++ Service.transport_rule data archetype)
                         ++ Service.food_rule data archetype)
                        ++ Service.energy_rule data archetype)
                       ++ Service.low_rule archetype)).
    { repeat apply Forall_app_2; [constructor | | | |].
      - apply transport_rule_shape.
      - apply food_rule_shape.
      - apply energy_rule_shape.
      - apply low_rule_shape. }
    destruct (((([] ++ _) ++ _) ++ _) ++ _) as [| r rs]; [| exact Hall].
    constructor; [| constructor].
    right. split; [reflexivity | set_solver]. }
  eapply Forall_impl; [exact Hshape |].
  intros r Hr. split; [| exact Hr].
  destruct Hr as [[Hpos _] | [Hzero _]].
  - by apply Qlt_le_weak.
  - rewrite Hzero. apply Qle_refl.
Qed.

(* ===================================================================== *)
(** ** C9: the flight counter *)
(* ===================================================================== *)

Lemma accumulate_keeps_flights (t : Router.totals) (act : Router.activity) :
  Router.flights (Router.accumulate t act) = Router.flights t.
Proof.
  unfold Router.accumulate. cbv zeta.
  repeat match goal with
         | |- context [if ?b then _ else _] => destruct b
         end; reflexivity.
Qed.

Lemma fold_keeps_flights (acts : list Router.activity) (t : Router.totals) :
  Router.flights (fold_left Router.accumulate acts t) = Router.flights t.
Proof.
  revert t. induction acts as [| act acts IH]; intros t; simpl; [reflexivity |].
  rewrite IH. apply accumulate_keeps_flights.
Qed.

Lemma lookup_flights_per_year (t : Router.totals) :
  Router.emission_data_of t !! "flights_per_year"%string
  = Some (inject_Z (Router.flights t * 12)).
Proof. reflexivity. Qed.

(** C9.  Whatever the activities and the reference time, the flight counter
    is still 0 after the aggregation loop, and the feature dictionary and
    the feature vector carry [flights_per_year = 0 * 12 = 0]. *)
Theorem flights_per_year_is_zero (now : Z) (all_activities : list Router.activity) :
  Router.flights (Router.aggregate (Router.recent_activities now all_activities)) = 0%Z
  /\ Router.user_emission_data now all_activities !! "flights_per_year"%string = Some 0
  /\ Service.feature_vector (Router.user_emission_data now all_activities) !! 4%nat
     = Some 0.
Proof.
  assert (Hzero : Router.flights
                    (Router.aggregate (Router.recent_activities now all_activities)) = 0%Z).
  { unfold Router.aggregate. by rewrite fold_keeps_flights. }
  assert (Hlookup : Router.user_emission_data now all_activities !! "flights_per_year"%string
                    = Some 0).
  { unfold Router.user_emission_data. by rewrite lookup_flights_per_year, Hzero. }
  split; [exact Hzero |]. split; [exact Hlookup |].
  unfold Service.feature_vector, Service.feature_cols. simpl.
  unfold Service.get. by rewrite Hlookup.
Qed.

(* ===================================================================== *)
(** ** C5: no trained model *)
(* ===================================================================== *)

Lemma load_with_missing_file (files : Service.model_files) :
  Service.kmeans_pkl files = None
  \/ Service.scaler_pkl files = None
  \/ Service.cluster_descriptions_json files = None ->
  Service.load_kmeans_model files = (None, None, None).
Proof.
  unfold Service.load_kmeans_model.
  intros [Hk | [Hs | Hd]].
  - by rewrite Hk.
  - rewrite Hs. by destruct (Service.kmeans_pkl files).
  - rewrite Hd. by destruct (Service.kmeans_pkl files), (Service.scaler_pkl files).
Qed.

(** C5.  With any of the three model files missing, the classifier returns
    [None] for every input, the handler answers with archetype "Unknown",
    and the recommendations are the rule engine's output for "Unknown",
    which is never empty. *)
Theorem missing_model_degrades `{FloatFormat}
    (files : Service.model_files) (g : Gemini.collaborator)
    (now : Z) (all_activities : list Router.activity) :
  Service.kmeans_pkl files = None
  \/ Service.scaler_pkl files = None
  \/ Service.cluster_descriptions_json files = None ->
  (forall data, Service.classify_user_archetype files data = None)
  /\ Router.user_archetype (Router.get_recommendations files g now all_activities)
     = "Unknown"%string
  /\ Router.recommendations (Router.get_recommendations files g now all_activities) <> []
  /\ Router.recommendations (Router.get_recommendations files g now all_activities)
     = match all_activities with
       | [] => [Router.start_logging]
       | _ :: _ =>
           map (Router.enhance g)
               (Service.generate_rule_based_recommendations
                  (Router.user_emission_data now all_activities) "Unknown")
       end.
Proof.
  intros Hmissing.
  assert (Hnone : forall data, Service.classify_user_archetype files data = None).
  { intros data. unfold Service.classify_user_archetype.
    by rewrite (load_with_missing_file files Hmissing). }
  split; [exact Hnone |].
  destruct all_activities as [| act acts].
  - repeat split. discriminate.
  - unfold Router.get_recommendations. cbv zeta. rewrite Hnone.
    cbn [Router.user_archetype Router.recommendations].
    split; [reflexivity |]. split; [| reflexivity].
    pose proof (rules_nonempty
                  (Router.user_emission_data now (act :: acts)) "Unknown") as Hne.
    destruct (Service.generate_rule_based_recommendations _ _); [done | discriminate].
Qed.

Lemma missing_model_degrades_witness :
  (Service.kmeans_pkl Sample.no_model = None
   \/ Service.scaler_pkl Sample.no_model = None
   \/ Service.cluster_descriptions_json Sample.no_model = None)
  /\ Router.user_archetype
       (@Router.get_recommendations Sample.format Sample.no_model Sample.offline
          Sample.day100 [Sample.drive Sample.day100])
     = "Unknown"%string
  /\ Router.recommendations
       (@Router.get_recommendations Sample.format Sample.no_model Sample.offline
          Sample.day100 [Sample.drive Sample.day100]) <> [].
Proof.
  assert (Hmissing : Service.kmeans_pkl Sample.no_model = None
                     \/ Service.scaler_pkl Sample.no_model = None
                     \/ Service.cluster_descriptions_json Sample.no_model = None)
    by (left; reflexivity).
  split; [exact Hmissing |].
  destruct (@missing_model_degrades Sample.format Sample.no_model Sample.offline
              Sample.day100 [Sample.drive Sample.day100] Hmissing)
    as (_ & Harch & Hne & _).
  split; [exact Harch | exact Hne].
Defined.

(* ===================================================================== *)
(** ** C6: the text enhancement falls back *)
(* ===================================================================== *)

Lemma generate_recommendation_text_fallback (g : Gemini.collaborator) (text : string) :
  Gemini.fails_on g text -> Gemini.generate_recommendation_text g text = text.
Proof.
  unfold Gemini.fails_on, Gemini.generate_recommendation_text.
  intros [Hkey | Hcall].
  - by rewrite Hkey.
  - rewrite Hcall. by destruct (Gemini.no_key g).
Qed.

(** C6, as amended.  When the text collaborator is unavailable or fails, the
    description of the returned recommendation is, verbatim, the string the
    handler sent to be rewritten: the rule's title, a colon and a space,
    then the rule's description.  Title, savings, category and priority are
    the rule engine's. *)
Theorem fallback_description (g : Gemini.collaborator) (rec : Service.recommendation) :
  Gemini.fails_on g (Service.title rec +:+ ": " +:+ Service.rec_description rec) ->
  Service.rec_description (Router.enhance g rec)
  = Service.title rec +:+ ": " +:+ Service.rec_description rec
  /\ Service.title (Router.enhance g rec) = Service.title rec
  /\ Service.estimated_savings_kg (Router.enhance g rec) = Service.estimated_savings_kg rec
  /\ Service.category (Router.enhance g rec) = Service.category rec
  /\ Service.priority (Router.enhance g rec) = Service.priority rec.
Proof.
  intros Hfails. unfold Router.enhance. simpl.
  rewrite (generate_recommendation_text_fallback g _ Hfails). repeat split.
Qed.

Lemma fallback_description_witness :
  Gemini.fails_on Sample.offline
    (Service.title Service.track_progress +:+ ": "
     +:+ Service.rec_description Service.track_progress)
  /\ Service.rec_description (Router.enhance Sample.offline Service.track_progress)
     = "Track Your Progress: Continue logging activities to get personalized recommendations"%string.
Proof.
  assert (Hfails : Gemini.fails_on Sample.offline
                     (Service.title Service.track_progress +:+ ": "
                      +:+ Service.rec_description Service.track_progress))
    by (left; reflexivity).
  split; [exact Hfails |].
  exact (proj1 (fallback_description Sample.offline Service.track_progress Hfails)).
Defined.

(** C6, the claim as worded, with no API key configured and the rule
    engine's "Track Your Progress" entry: the returned description starts
    with the title, so it is not the rule's description. *)
Lemma fallback_description_has_title :
  Service.track_progress
    ∈ @Service.generate_rule_based_recommendations Sample.format ∅ "Unknown"
  /\ Gemini.fails_on Sample.offline
       (Service.title Service.track_progress +:+ ": "
        +:+ Service.rec_description Service.track_progress)
  /\ Service.rec_description (Router.enhance Sample.offline Service.track_progress)
     <> Service.rec_description Service.track_progress.
Proof.
  split; [vm_compute; apply list_elem_of_here |].
  split; [left; reflexivity |].
  vm_compute. discriminate.
Qed.

(* ===================================================================== *)
(** ** C7: what the classifier does with a malformed feature dictionary *)
(* ===================================================================== *)





(* ===================================================================== *)
(** ** C8: no activity in the 30-day window *)
(* ===================================================================== *)

Section EmptyWindow.
Context `{FloatFormat}.

Lemma idle_features_zero : Forall (fun v => v == 0) (Service.feature_vector Sample.idle).
Proof. vm_compute. repeat constructor. Qed.

Lemma idle_transport_rule (archetype : string) :
  Service.transport_rule Sample.idle archetype = [].
Proof.
  unfold Service.transport_rule. cbv zeta.
  assert (Hmiles : Py.gtb (Service.get Sample.idle "daily_miles_driven" 0) 30 = false)
    by (vm_compute; reflexivity).
  rewrite Hmiles. by destruct (_ || _).
Qed.

Lemma idle_food_rule (archetype : string) :
  Service.food_rule Sample.idle archetype = [].
Proof.
  unfold Service.food_rule. cbv zeta.
  assert (Hmeals : Py.gtb (Service.get Sample.idle "meat_meals_per_week" 0) 7 = false)
    by (vm_compute; reflexivity).
  rewrite Hmeals. by destruct (_ || _).
Qed.

Lemma idle_energy_rule (archetype : string) :
  Service.energy_rule Sample.idle archetype = [].
Proof.
  unfold Service.energy_rule. cbv zeta.
  assert (Hkwh : Py.gtb (Service.get Sample.idle "electricity_kwh_per_day" 0) 30 = false)
    by (vm_compute; reflexivity).
  rewrite Hkwh. by destruct (_ || _).
Qed.

Lemma idle_recommendations (archetype : string) :
  Service.generate_rule_based_recommendations Sample.idle archetype
  = if Py.contains "Low" archetype then [Service.maintain_low]
    else [Service.track_progress].
Proof.
  unfold Service.generate_rule_based_recommendations. cbv zeta.
  rewrite idle_transport_rule, idle_food_rule, idle_energy_rule.
  unfold Service.low_rule. by destruct (Py.contains "Low" archetype).
Qed.

End EmptyWindow.

(** C8, as amended.  With no activity in the trailing 30 days, every entry
    of the feature vector is zero and the recommendation list is a single
    entry with zero savings: "Start Logging Activities" when there is no
    activity at all, otherwise "Maintain Low Emissions" when the archetype
    contains "Low" and "Track Your Progress" when it does not. *)
Theorem empty_window_recommendation `{FloatFormat}
    (files : Service.model_files) (g : Gemini.collaborator)
    (now : Z) (all_activities : list Router.activity) :
  Router.recent_activities now all_activities = [] ->
  let user_emission_data := Router.user_emission_data now all_activities in
  let response := Router.get_recommendations files g now all_activities in
  Forall (fun v => v == 0) (Service.feature_vector user_emission_data)
  /\ length (Service.feature_vector user_emission_data) = 8%nat
  /\ Router.recommendations response <> []
  /\ Forall (fun r => Service.estimated_savings_kg r = 0)
            (Router.recommendations response)
  /\ Router.recommendations response
     = match all_activities with
       | [] => [Router.start_logging]
       | _ :: _ =>
           if Py.contains "Low" (Router.user_archetype response)
           then [Router.enhance g Service.maintain_low]
           else [Router.enhance g Service.track_progress]
       end.
Proof.
  intros Hwindow user_emission_data response.
  assert (Hidle : user_emission_data = Sample.idle).
  { unfold user_emission_data, Router.user_emission_data. by rewrite Hwindow. }
  split; [rewrite Hidle; apply idle_features_zero |].
  split; [unfold Service.feature_vector; by rewrite length_map |].
  assert (Hrecs : Router.recommendations response
                  = match all_activities with
                    | [] => [Router.start_logging]
                    | _ :: _ =>
                        if Py.contains "Low" (Router.user_archetype response)
                        then [Router.enhance g Service.maintain_low]
                        else [Router.enhance g Service.track_progress]
                    end).
  { unfold response, Router.get_recommendations.
    destruct all_activities as [| act acts]; [reflexivity |].
    cbv zeta. fold user_emission_data. rewrite Hidle.
    cbn [Router.user_archetype Router.recommendations].
    rewrite idle_recommendations.
    by destruct (Py.contains "Low" _). }
  rewrite Hrecs.
  destruct all_activities as [| act acts].
  - split; [discriminate |]. split; [| reflexivity].
    constructor; [reflexivity | constructor].
  - destruct (Py.contains "Low" _).
    + split; [discriminate |]. split; [| reflexivity].
      constructor; [reflexivity | constructor].
    + split; [discriminate |]. split; [| reflexivity].
      constructor; [reflexivity | constructor].
Qed.

Lemma empty_window_recommendation_witness :
  Router.recent_activities Sample.day100 [Sample.drive 0] = []
  /\ Router.recommendations
       (@Router.get_recommendations Sample.format
          (Sample.origin_model "Balanced Emissions") Sample.offline
          Sample.day100 [Sample.drive 0])
     = [Router.enhance Sample.offline Service.track_progress].
Proof.
  assert (Hwindow : Router.recent_activities Sample.day100 [Sample.drive 0] = [])
    by reflexivity.
  split; [exact Hwindow |].
  destruct (@empty_window_recommendation Sample.format
              (Sample.origin_model "Balanced Emissions") Sample.offline
              Sample.day100 [Sample.drive 0] Hwindow)
    as (_ & _ & _ & _ & Hrecs).
  rewrite Hrecs. vm_compute. reflexivity.
Defined.

(** C8, the claim as worded, for a user whose only activity is older than
    30 days and whose nearest cluster is "Low Total Emissions": the list is
    the single entry "Maintain Low Emissions", with no "Track Your Progress"
    or "Start Logging Activities" entry in it. *)
Lemma empty_window_low_archetype :
  Router.recent_activities Sample.day100 [Sample.drive 0] = []
  /\ Router.user_archetype
       (@Router.get_recommendations Sample.format
          (Sample.origin_model "Low Total Emissions") Sample.offline
          Sample.day100 [Sample.drive 0])
     = "Low Total Emissions"%string
  /\ map Service.title
       (Router.recommendations
          (@Router.get_recommendations Sample.format
             (Sample.origin_model "Low Total Emissions") Sample.offline
             Sample.day100 [Sample.drive 0]))
     = ["Maintain Low Emissions"%string]
  /\ ~ (exists r : Service.recommendation,
          r ∈ Router.recommendations
                (@Router.get_recommendations Sample.format
                   (Sample.origin_model "Low Total Emissions") Sample.offline
                   Sample.day100 [Sample.drive 0])
          /\ (Service.title r = "Track Your Progress"%string
              \/ Service.title r = "Start Logging Activities"%string)).
Proof.
  split; [reflexivity |].
  split; [vm_compute; reflexivity |].
  assert (Htitles :
    map Service.title
      (Router.recommendations
         (@Router.get_recommendations Sample.format
            (Sample.origin_model "Low Total Emissions") Sample.offline
            Sample.day100 [Sample.drive 0]))
    = ["Maintain Low Emissions"%string]) by (vm_compute; reflexivity).
  split; [exact Htitles |].
  intros (r & Hin & Htitle).
  assert (Hrecs :
    Router.recommendations
      (@Router.get_recommendations Sample.format
         (Sample.origin_model "Low Total Emissions") Sample.offline
         Sample.day100 [Sample.drive 0])
    = [Router.enhance Sample.offline Service.maintain_low]) by (vm_compute; reflexivity).
  rewrite Hrecs in Hin. apply list_elem_of_singleton in Hin. subst r.
  destruct Htitle as [Ht | Ht]; vm_compute in Ht; discriminate.
Qed.

(* ===================================================================== *)
(** ** More on the rule engine *)
(* ===================================================================== *)

Section RuleBlocks.
Context `{FloatFormat}.

Lemma elem_of_transport_rule
    (data : gmap string Q) (archetype : string) (r : Service.recommendation) :
  r ∈ Service.transport_rule data archetype
  <-> ((Py.contains "Transportation" archetype = true
        \/ 2000 < Service.get data "transport_emissions_kg" 0)
       /\ 30 < Service.get data "daily_miles_driven" 0)
      /\ r = {| Service.title := "Reduce Daily Driving";
                Service.rec_description :=
                  "Reduce driving by "
                  +:+ fmt_1f (Service.get data "daily_miles_driven" 0 - 25)
                  +:+ " miles/week";
                Service.estimated_savings_kg :=
                  (Service.get data "daily_miles_driven" 0 - 25) * 0.411 * 7;
                Service.category := "transportation";
                Service.priority := "high" |}.
Proof.
  unfold Service.transport_rule. cbv zeta.
  rewrite <- gtb_lt, <- (gtb_lt (Service.get data "daily_miles_driven" 0)).
  rewrite <- orb_true_iff.
  destruct (_ || _); [| rewrite elem_of_nil; intuition discriminate].
  destruct (Py.gtb _ 30); [| rewrite elem_of_nil; intuition discriminate].
  rewrite list_elem_of_singleton. intuition.
Qed.

Lemma elem_of_food_rule
    (data : gmap string Q) (archetype : string) (r : Service.recommendation) :
  r ∈ Service.food_rule data archetype
  <-> ((Py.contains "Food" archetype = true
        \/ 1500 < Service.get data "food_emissions_kg" 0)
       /\ 7 < Service.get data "meat_meals_per_week" 0)
      /\ r = {| Service.title := "Reduce Meat Consumption";
                Service.rec_description :=
                  "Replace " +:+ fmt_str (Service.get data "meat_meals_per_week" 0 - 5)
                  +:+ " meat meals per week with vegetarian options";
                Service.estimated_savings_kg :=
                  (Service.get data "meat_meals_per_week" 0 - 5) * 3.5 * 52;
                Service.category := "food";
                Service.priority := "high" |}.
Proof.
  unfold Service.food_rule. cbv zeta.
  rewrite <- gtb_lt, <- (gtb_lt (Service.get data "meat_meals_per_week" 0)).
  rewrite <- orb_true_iff.
  destruct (_ || _); [| rewrite elem_of_nil; intuition discriminate].
  destruct (Py.gtb _ 7); [| rewrite elem_of_nil; intuition discriminate].
  rewrite list_elem_of_singleton. intuition.
Qed.

Lemma elem_of_energy_rule
    (data : gmap string Q) (archetype : string) (r : Service.recommendation) :
  r ∈ Service.energy_rule data archetype
  <-> ((Py.contains "Energy" archetype = true
        \/ 3000 < Service.get data "energy_emissions_kg" 0)
       /\ 30 < Service.get data "electricity_kwh_per_day" 0)
      /\ r = {| Service.title := "Reduce Energy Consumption";
                Service.rec_description :=
                  "Reduce daily electricity usage by "
                  +:+ fmt_1f (Service.get data "electricity_kwh_per_day" 0 - 25)
                  +:+ " kWh";
                Service.estimated_savings_kg :=
                  (Service.get data "electricity_kwh_per_day" 0 - 25) * 0.5 * 365;
                Service.category := "energy";
                Service.priority := "medium" |}.
Proof.
  unfold Service.energy_rule. cbv zeta.
  rewrite <- gtb_lt, <- (gtb_lt (Service.get data "electricity_kwh_per_day" 0)).
  rewrite <- orb_true_iff.
  destruct (_ || _); [| rewrite elem_of_nil; intuition discriminate].
  destruct (Py.gtb _ 30); [| rewrite elem_of_nil; intuition discriminate].
  rewrite list_elem_of_singleton. intuition.
Qed.

Lemma elem_of_low_rule (archetype : string) (r : Service.recommendation) :
  r ∈ Service.low_rule archetype
  <-> Py.contains "Low" archetype = true /\ r = Service.maintain_low.
Proof.
  unfold Service.low_rule.
  destruct (Py.contains "Low" archetype); [| rewrite elem_of_nil; intuition discriminate].
  rewrite list_elem_of_singleton. intuition.
Qed.

(** The output is the four blocks in source order, or the single generic
    entry when all four are empty. *)
Lemma rules_unfold (data : gmap string Q) (archetype : string) :
  Service.generate_rule_based_recommendations data archetype
  = match Service.transport_rule data archetype ++ Service.food_rule data archetype
          ++ Service.energy_rule data archetype ++ Service.low_rule archetype with
    | [] => [Service.track_progress]
    | r :: rs => r :: rs
    end.
Proof.
  unfold Service.generate_rule_based_recommendations. cbv zeta.
  assert (Hassoc :
    ((([] ++ Service.transport_rule data archetype) ++ Service.food_rule data archetype)
      ++ Service.energy_rule data archetype) ++ Service.low_rule archetype
    = Service.transport_rule data archetype ++ Service.food_rule data archetype
      ++ Service.energy_rule data archetype ++ Service.low_rule archetype)
    by (by rewrite app_nil_l, <- !app_assoc).
  rewrite Hassoc.
  by destruct (Service.transport_rule data archetype ++ _).
Qed.

Lemma elem_of_rules
    (data : gmap string Q) (archetype : string) (r : Service.recommendation) :
  r ∈ Service.generate_rule_based_recommendations data archetype
  <-> r ∈ Service.transport_rule data archetype
      \/ r ∈ Service.food_rule data archetype
      \/ r ∈ Service.energy_rule data archetype
      \/ r ∈ Service.low_rule archetype
      \/ (r = Service.track_progress
          /\ Service.transport_rule data archetype = []
          /\ Service.food_rule data archetype = []
          /\ Service.energy_rule data archetype = []
          /\ Service.low_rule archetype = []).
Proof.
  rewrite rules_unfold.
  destruct (Service.transport_rule data archetype ++ Service.food_rule data archetype
            ++ Service.energy_rule data archetype ++ Service.low_rule archetype)
    as [| r0 rs] eqn:Hall.
  - apply app_eq_nil in Hall as [-> Hall]. apply app_eq_nil in Hall as [-> Hall].
    apply app_eq_nil in Hall as [-> ->].
    rewrite list_elem_of_singleton, !elem_of_nil. intuition.
  - rewrite <- Hall, !elem_of_app. split; [intuition |].
    intros [Ht | [Hf | [He | [Hl | (_ & Ht & Hf & He & Hl)]]]]; auto.
    rewrite Ht, Hf, He, Hl in Hall. discriminate.
Qed.

End RuleBlocks.

(** X1.  A "Reduce Daily Driving" entry is in the output exactly when the
    archetype contains "Transportation" or the transport emissions exceed
    2000, and the daily miles exceed 30; every such entry has savings
    (miles - 25) * 0.411 * 7, category "transportation" and priority
    "high". *)
Theorem driving_entry_iff `{FloatFormat} (data : gmap string Q) (archetype : string) :
  ((exists r, r ∈ Service.generate_rule_based_recommendations data archetype
              /\ Service.title r = "Reduce Daily Driving"%string)
   <-> ((Py.contains "Transportation" archetype = true
         \/ 2000 < Service.get data "transport_emissions_kg" 0)
        /\ 30 < Service.get data "daily_miles_driven" 0))
  /\ Forall (fun r =>
               Service.title r = "Reduce Daily Driving"%string ->
               Service.estimated_savings_kg r
               = (Service.get data "daily_miles_driven" 0 - 25) * 0.411 * 7
               /\ Service.category r = "transportation"%string
               /\ Service.priority r = "high"%string)
            (Service.generate_rule_based_recommendations data archetype).
Proof.
  split.
  - split.
    + intros (r & Hin & Htitle). apply elem_of_rules in Hin.
      rewrite elem_of_transport_rule, elem_of_food_rule, elem_of_energy_rule,
        elem_of_low_rule in Hin.
      destruct Hin as [[Hc _] | [[_ ->] | [[_ ->] | [[_ ->] | [-> _]]]]];
        [exact Hc | discriminate ..].
    + intros Hc. eexists. split.
      * apply elem_of_rules. left. apply elem_of_transport_rule. split; [exact Hc | reflexivity].
      * reflexivity.
  - apply Forall_forall. intros r Hin Htitle. apply elem_of_rules in Hin.
    rewrite elem_of_transport_rule, elem_of_food_rule, elem_of_energy_rule,
      elem_of_low_rule in Hin.
    destruct Hin as [[_ ->] | [[_ ->] | [[_ ->] | [[_ ->] | [-> _]]]]];
      [repeat split | discriminate ..].
Qed.

(** X2.  A "Reduce Meat Consumption" entry is in the output exactly when the
    archetype contains "Food" or the food emissions exceed 1500, and the
    meat meals per week exceed 7; every such entry has savings
    (meals - 5) * 3.5 * 52, category "food" and priority "high". *)
Theorem meat_entry_iff `{FloatFormat} (data : gmap string Q) (archetype : string) :
  ((exists r, r ∈ Service.generate_rule_based_recommendations data archetype
              /\ Service.title r = "Reduce Meat Consumption"%string)
   <-> ((Py.contains "Food" archetype = true
         \/ 1500 < Service.get data "food_emissions_kg" 0)
        /\ 7 < Service.get data "meat_meals_per_week" 0))
  /\ Forall (fun r =>
               Service.title r = "Reduce Meat Consumption"%string ->
               Service.estimated_savings_kg r
               = (Service.get data "meat_meals_per_week" 0 - 5) * 3.5 * 52
               /\ Service.category r = "food"%string
               /\ Service.priority r = "high"%string)
            (Service.generate_rule_based_recommendations data archetype).
Proof.
  split.
  - split.
    + intros (r & Hin & Htitle). apply elem_of_rules in Hin.
      rewrite elem_of_transport_rule, elem_of_food_rule, elem_of_energy_rule,
        elem_of_low_rule in Hin.
      destruct Hin as [[_ ->] | [[Hc _] | [[_ ->] | [[_ ->] | [-> _]]]]];
        [discriminate | exact Hc | discriminate ..].
    + intros Hc. eexists. split.
      * apply elem_of_rules. right. left. apply elem_of_food_rule.
        split; [exact Hc | reflexivity].
      * reflexivity.
  - apply Forall_forall. intros r Hin Htitle. apply elem_of_rules in Hin.
    rewrite elem_of_transport_rule, elem_of_food_rule, elem_of_energy_rule,
      elem_of_low_rule in Hin.
    destruct Hin as [[_ ->] | [[_ ->] | [[_ ->] | [[_ ->] | [-> _]]]]];
      [discriminate | repeat split | discriminate ..].
Qed.

(** X3.  A "Reduce Energy Consumption" entry is in the output exactly when
    the archetype contains "Energy" or the energy emissions exceed 3000, and
    the electricity use exceeds 30 kWh a day; every such entry has savings
    (kWh - 25) * 0.5 * 365, category "energy" and priority "medium". *)
Theorem energy_entry_iff `{FloatFormat} (data : gmap string Q) (archetype : string) :
  ((exists r, r ∈ Service.generate_rule_based_recommendations data archetype
              /\ Service.title r = "Reduce Energy Consumption"%string)
   <-> ((Py.contains "Energy" archetype = true
         \/ 3000 < Service.get data "energy_emissions_kg" 0)
        /\ 30 < Service.get data "electricity_kwh_per_day" 0))
  /\ Forall (fun r =>
               Service.title r = "Reduce Energy Consumption"%string ->
               Service.estimated_savings_kg r
               = (Service.get data "electricity_kwh_per_day" 0 - 25) * 0.5 * 365
               /\ Service.category r = "energy"%string
               /\ Service.priority r = "medium"%string)
            (Service.generate_rule_based_recommendations data archetype).
Proof.
  split.
  - split.
    + intros (r & Hin & Htitle). apply elem_of_rules in Hin.
      rewrite elem_of_transport_rule, elem_of_food_rule, elem_of_energy_rule,
        elem_of_low_rule in Hin.
      destruct Hin as [[_ ->] | [[_ ->] | [[Hc _] | [[_ ->] | [-> _]]]]];
        [discriminate | discriminate | exact Hc | discriminate ..].
    + intros Hc. eexists. split.
      * apply elem_of_rules. right. right. left. apply elem_of_energy_rule.
        split; [exact Hc | reflexivity].
      * reflexivity.
  - apply Forall_forall. intros r Hin Htitle. apply elem_of_rules in Hin.
    rewrite elem_of_transport_rule, elem_of_food_rule, elem_of_energy_rule,
      elem_of_low_rule in Hin.
    destruct Hin as [[_ ->] | [[_ ->] | [[_ ->] | [[_ ->] | [-> _]]]]];
      [discriminate | discriminate | repeat split | discriminate ..].
Qed.

Section RuleOrder.
Context `{FloatFormat}.

Lemma transport_rule_nil (data : gmap string Q) (archetype : string) :
  Service.transport_rule data archetype = []
  <-> ~ ((Py.contains "Transportation" archetype = true
          \/ 2000 < Service.get data "transport_emissions_kg" 0)
         /\ 30 < Service.get data "daily_miles_driven" 0).
Proof.
  split.
  - intros Hnil Hc.
    assert (Hin := proj2 (elem_of_transport_rule data archetype _) (conj Hc eq_refl)).
    rewrite Hnil in Hin. by apply elem_of_nil in Hin.
  - intros Hc. destruct (Service.transport_rule data archetype) as [| r rs] eqn:E; [done |].
    exfalso. apply Hc.
    apply (proj1 (elem_of_transport_rule data archetype r)). rewrite E. apply list_elem_of_here.
Qed.

Lemma food_rule_nil (data : gmap string Q) (archetype : string) :
  Service.food_rule data archetype = []
  <-> ~ ((Py.contains "Food" archetype = true
          \/ 1500 < Service.get data "food_emissions_kg" 0)
         /\ 7 < Service.get data "meat_meals_per_week" 0).
Proof.
  split.
  - intros Hnil Hc.
    assert (Hin := proj2 (elem_of_food_rule data archetype _) (conj Hc eq_refl)).
    rewrite Hnil in Hin. by apply elem_of_nil in Hin.
  - intros Hc. destruct (Service.food_rule data archetype) as [| r rs] eqn:E; [done |].
    exfalso. apply Hc.
    apply (proj1 (elem_of_food_rule data archetype r)). rewrite E. apply list_elem_of_here.
Qed.

Lemma energy_rule_nil (data : gmap string Q) (archetype : string) :
  Service.energy_rule data archetype = []
  <-> ~ ((Py.contains "Energy" archetype = true
          \/ 3000 < Service.get data "energy_emissions_kg" 0)
         /\ 30 < Service.get data "electricity_kwh_per_day" 0).
Proof.
  split.
  - intros Hnil Hc.
    assert (Hin := proj2 (elem_of_energy_rule data archetype _) (conj Hc eq_refl)).
    rewrite Hnil in Hin. by apply elem_of_nil in Hin.
  - intros Hc. destruct (Service.energy_rule data archetype) as [| r rs] eqn:E; [done |].
    exfalso. apply Hc.
    apply (proj1 (elem_of_energy_rule data archetype r)). rewrite E. apply list_elem_of_here.
Qed.

Lemma low_rule_nil (archetype : string) :
  Service.low_rule archetype = [] <-> Py.contains "Low" archetype = false.
Proof.
  unfold Service.low_rule. by destruct (Py.contains "Low" archetype).
Qed.

Lemma transport_rule_titles (data : gmap string Q) (archetype : string) :
  sublist (map Service.title (Service.transport_rule data archetype))
          ["Reduce Daily Driving"%string].
Proof.
  unfold Service.transport_rule.
  destruct (_ || _); [| apply sublist_nil_l].
  destruct (Py.gtb _ 30); [reflexivity | apply sublist_nil_l].
Qed.

Lemma food_rule_titles (data : gmap string Q) (archetype : string) :
  sublist (map Service.title (Service.food_rule data archetype))
          ["Reduce Meat Consumption"%string].
Proof.
  unfold Service.food_rule.
  destruct (_ || _); [| apply sublist_nil_l].
  destruct (Py.gtb _ 7); [reflexivity | apply sublist_nil_l].
Qed.

Lemma energy_rule_titles (data : gmap string Q) (archetype : string) :
  sublist (map Service.title (Service.energy_rule data archetype))
          ["Reduce Energy Consumption"%string].
Proof.
  unfold Service.energy_rule.
  destruct (_ || _); [| apply sublist_nil_l].
  destruct (Py.gtb _ 30); [reflexivity | apply sublist_nil_l].
Qed.

Lemma low_rule_titles (archetype : string) :
  sublist (map Service.title (Service.low_rule archetype))
          ["Maintain Low Emissions"%string].
Proof.
  unfold Service.low_rule.
  destruct (Py.contains "Low" archetype); [reflexivity | apply sublist_nil_l].
Qed.

Lemma specific_titles (data : gmap string Q) (archetype : string) :
  sublist
    (map Service.title
       (Service.transport_rule data archetype ++ Service.food_rule data archetype
        ++ Service.energy_rule data archetype ++ Service.low_rule archetype))
    [ "Reduce Daily Driving"; "Reduce Meat Consumption";
      "Reduce Energy Consumption"; "Maintain Low Emissions" ]%string.
Proof.
  rewrite !map_app.
  change [ "Reduce Daily Driving"; "Reduce Meat Consumption";
           "Reduce Energy Consumption"; "Maintain Low Emissions" ]%string
    with ([ "Reduce Daily Driving"%string ] ++ [ "Reduce Meat Consumption"%string ]
          ++ [ "Reduce Energy Consumption"%string ] ++ [ "Maintain Low Emissions"%string ]).
  repeat apply sublist_app.
  - apply transport_rule_titles.
  - apply food_rule_titles.
  - apply energy_rule_titles.
  - apply low_rule_titles.
Qed.

End RuleOrder.

(** X4.  The generic "Track Your Progress" entry is in the output exactly
    when it is the whole output, and that is exactly when none of the four
    rule blocks fired. *)
Theorem track_progress_iff `{FloatFormat} (data : gmap string Q) (archetype : string) :
  (Service.track_progress ∈ Service.generate_rule_based_recommendations data archetype
   <-> Service.generate_rule_based_recommendations data archetype
       = [Service.track_progress])
  /\ (Service.generate_rule_based_recommendations data archetype = [Service.track_progress]
      <-> ~ ((Py.contains "Transportation" archetype = true
              \/ 2000 < Service.get data "transport_emissions_kg" 0)
             /\ 30 < Service.get data "daily_miles_driven" 0)
          /\ ~ ((Py.contains "Food" archetype = true
                 \/ 1500 < Service.get data "food_emissions_kg" 0)
                /\ 7 < Service.get data "meat_meals_per_week" 0)
          /\ ~ ((Py.contains "Energy" archetype = true
                 \/ 3000 < Service.get data "energy_emissions_kg" 0)
                /\ 30 < Service.get data "electricity_kwh_per_day" 0)
          /\ Py.contains "Low" archetype = false).
Proof.
  assert (Hin_nil :
    Service.track_progress ∈ Service.generate_rule_based_recommendations data archetype ->
    Service.transport_rule data archetype = []
    /\ Service.food_rule data archetype = []
    /\ Service.energy_rule data archetype = []
    /\ Service.low_rule archetype = []).
  { intros Hin. apply elem_of_rules in Hin.
    rewrite elem_of_transport_rule, elem_of_food_rule, elem_of_energy_rule,
      elem_of_low_rule in Hin.
    destruct Hin as [[_ Heq] | [[_ Heq] | [[_ Heq] | [[_ Heq] | [_ Hnil]]]]];
      [discriminate Heq .. | exact Hnil]. }
  assert (Hnil_eq :
    Service.transport_rule data archetype = []
    /\ Service.food_rule data archetype = []
    /\ Service.energy_rule data archetype = []
    /\ Service.low_rule archetype = [] ->
    Service.generate_rule_based_recommendations data archetype = [Service.track_progress]).
  { intros (Ht & Hf & He & Hl). by rewrite rules_unfold, Ht, Hf, He, Hl. }
  split.
  - split; [intros Hin; by apply Hnil_eq, Hin_nil |].
    intros ->. apply list_elem_of_here.
  - rewrite <- transport_rule_nil, <- food_rule_nil, <- energy_rule_nil, <- low_rule_nil.
    split; [| exact Hnil_eq].
    intros Heq. apply Hin_nil. rewrite Heq. apply list_elem_of_here.
Qed.

(** X5.  The output lists at most one entry per rule, in the fixed order
    driving, meat, energy, maintenance, generic: its titles are a
    subsequence of that list, and it has between one and four entries. *)
Theorem recommendations_in_rule_order `{FloatFormat}
    (data : gmap string Q) (archetype : string) :
  sublist
    (map Service.title (Service.generate_rule_based_recommendations data archetype))
    [ "Reduce Daily Driving"; "Reduce Meat Consumption"; "Reduce Energy Consumption";
      "Maintain Low Emissions"; "Track Your Progress" ]%string
  /\ (1 <= length (Service.generate_rule_based_recommendations data archetype) <= 4)%nat.
Proof.
  rewrite rules_unfold.
  pose proof (specific_titles data archetype) as Hsub.
  destruct (Service.transport_rule data archetype ++ _) as [| r rs].
  - split; [| simpl; lia].
    apply (sublist_inserts_l
             [ "Reduce Daily Driving"; "Reduce Meat Consumption";
               "Reduce Energy Consumption"; "Maintain Low Emissions" ]%string
             [ "Track Your Progress"%string ]). reflexivity.
  - split.
    + apply (sublist_inserts_r [ "Track Your Progress"%string ]) in Hsub. exact Hsub.
    + apply sublist_length in Hsub. rewrite length_map in Hsub. simpl in *. lia.
Qed.

(** X6.  The rule engine reads six features only (the three emission totals,
    the daily miles, the meat meals and the electricity use): two feature
    dictionaries that agree on them get the same recommendations, whatever
    they say about flights, gas or vegetarian meals. *)
Theorem rules_read_six_features `{FloatFormat}
    (data data' : gmap string Q) (archetype : string) :
  (forall col : string,
     col ∈ [ "transport_emissions_kg"; "daily_miles_driven"; "food_emissions_kg";
             "meat_meals_per_week"; "energy_emissions_kg";
             "electricity_kwh_per_day" ]%string ->
     data !! col = data' !! col) ->
  Service.generate_rule_based_recommendations data archetype
  = Service.generate_rule_based_recommendations data' archetype.
Proof.
  intros Hsame.
  assert (Hget : forall col : string,
            col ∈ [ "transport_emissions_kg"; "daily_miles_driven"; "food_emissions_kg";
                    "meat_meals_per_week"; "energy_emissions_kg";
                    "electricity_kwh_per_day" ]%string ->
            Service.get data col 0 = Service.get data' col 0).
  { intros col Hcol. unfold Service.get. by rewrite (Hsame col Hcol). }
  unfold Service.generate_rule_based_recommendations,
    Service.transport_rule, Service.food_rule, Service.energy_rule.
  cbv zeta.
  rewrite (Hget "transport_emissions_kg"%string) by set_solver.
  rewrite (Hget "daily_miles_driven"%string) by set_solver.
  rewrite (Hget "food_emissions_kg"%string) by set_solver.
  rewrite (Hget "meat_meals_per_week"%string) by set_solver.
  rewrite (Hget "energy_emissions_kg"%string) by set_solver.
  rewrite (Hget "electricity_kwh_per_day"%string) by set_solver.
  reflexivity.
Qed.

Lemma rules_read_six_features_witness :
  (forall col : string,
     col ∈ [ "transport_emissions_kg"; "daily_miles_driven"; "food_emissions_kg";
             "meat_meals_per_week"; "energy_emissions_kg";
             "electricity_kwh_per_day" ]%string ->
     ({[ "flights_per_year"%string := 10 ]} : gmap string Q) !! col
     = (∅ : gmap string Q) !! col)
  /\ @Service.generate_rule_based_recommendations Sample.format
       {[ "flights_per_year"%string := 10 ]} "High Flight Emissions"
     = @Service.generate_rule_based_recommendations Sample.format
         ∅ "High Flight Emissions".
Proof.
  assert (Hsame : forall col : string,
     col ∈ [ "transport_emissions_kg"; "daily_miles_driven"; "food_emissions_kg";
             "meat_meals_per_week"; "energy_emissions_kg";
             "electricity_kwh_per_day" ]%string ->
     ({[ "flights_per_year"%string := 10 ]} : gmap string Q) !! col
     = (∅ : gmap string Q) !! col).
  { intros col Hcol.
    repeat (apply elem_of_cons in Hcol as [-> | Hcol]; [reflexivity |]).
    by apply elem_of_nil in Hcol. }
  split; [exact Hsame |].
  exact (@rules_read_six_features Sample.format _ _ "High Flight Emissions" Hsame).
Defined.

(* ===================================================================== *)
(** ** The aggregation loop of the feature pipeline *)
(* ===================================================================== *)

Lemma sum_nonneg (xs : list Q) : Forall (fun x => 0 <= x) xs -> 0 <= Py.sum xs.
Proof.
  induction 1 as [| x xs Hx Hxs IH].
  - unfold Py.sum. simpl. lra.
  - rewrite sum_cons. lra.
Qed.

Lemma sum_nil : Py.sum [] == 0.
Proof. reflexivity. Qed.

(** Every branch of the loop body, with the category tests decided. *)
Ltac accumulate_cases act :=
  unfold Router.accumulate, Tally.emissions_in, Tally.distance_of, Tally.kwh_of,
    Tally.therms_of, Tally.is_meat_meal, Tally.is_veg_meal, Tally.category_is,
    Tally.unit_of, Tally.subtype_of;
  cbv zeta;
  destruct (String.eqb (default "" (Router.activity_category act)) "transportation") eqn:Et;
  destruct (String.eqb (default "" (Router.activity_category act)) "food") eqn:Ef;
  destruct (String.eqb (default "" (Router.activity_category act)) "energy") eqn:Ee;
  try (apply String.eqb_eq in Et; rewrite Et in *; discriminate);
  try (apply String.eqb_eq in Ef; rewrite Ef in *; discriminate);
  cbn [andb orb negb];
  repeat match goal with
         | |- context [if ?b then _ else _] => destruct b; cbn [andb orb negb]
         end;
  simpl.

Lemma accumulate_transport_emissions (t : Router.totals) (act : Router.activity) :
  Router.transport_emissions (Router.accumulate t act)
  == Router.transport_emissions t + Tally.emissions_in "transportation" act.
Proof. accumulate_cases act; ring. Qed.

Lemma accumulate_food_emissions (t : Router.totals) (act : Router.activity) :
  Router.food_emissions (Router.accumulate t act)
  == Router.food_emissions t + Tally.emissions_in "food" act.
Proof. accumulate_cases act; ring. Qed.

Lemma accumulate_energy_emissions (t : Router.totals) (act : Router.activity) :
  Router.energy_emissions (Router.accumulate t act)
  == Router.energy_emissions t + Tally.emissions_in "energy" act.
Proof. accumulate_cases act; ring. Qed.

Lemma accumulate_daily_miles (t : Router.totals) (act : Router.activity) :
  Router.daily_miles (Router.accumulate t act)
  == Router.daily_miles t + Tally.distance_of act / 30.
Proof. accumulate_cases act; field. Qed.

Lemma accumulate_electricity (t : Router.totals) (act : Router.activity) :
  Router.electricity_kwh (Router.accumulate t act)
  == Router.electricity_kwh t + Tally.kwh_of act / 30.
Proof. accumulate_cases act; field. Qed.

Lemma accumulate_gas (t : Router.totals) (act : Router.activity) :
  Router.gas_therms (Router.accumulate t act)
  == Router.gas_therms t + Tally.therms_of act / 30.
Proof. accumulate_cases act; field. Qed.

Lemma accumulate_meat_meals (t : Router.totals) (act : Router.activity) :
  Router.meat_meals (Router.accumulate t act)
  = (Router.meat_meals t + if Tally.is_meat_meal act then 1 else 0)%Z.
Proof. accumulate_cases act; lia. Qed.

Lemma accumulate_veg_meals (t : Router.totals) (act : Router.activity) :
  Router.veg_meals (Router.accumulate t act)
  = (Router.veg_meals t + if Tally.is_veg_meal act then 1 else 0)%Z.
Proof. accumulate_cases act; lia. Qed.

Lemma fold_adds (f : Router.totals -> Q) (c : Router.activity -> Q) :
  (forall t act, f (Router.accumulate t act) == f t + c act) ->
  forall acts t,
    f (fold_left Router.accumulate acts t) == f t + Py.sum (map c acts).
Proof.
  intros Hstep acts. induction acts as [| act acts IH]; intros t; simpl.
  - rewrite sum_nil. ring.
  - rewrite IH, Hstep, sum_cons. ring.
Qed.

Lemma fold_counts (f : Router.totals -> Z) (p : Router.activity -> bool) :
  (forall t act, f (Router.accumulate t act) = (f t + if p act then 1 else 0)%Z) ->
  forall acts t,
    f (fold_left Router.accumulate acts t)
    = (f t + Z.of_nat (length (List.filter p acts)))%Z.
Proof.
  intros Hstep acts. induction acts as [| act acts IH]; intros t; simpl.
  - lia.
  - rewrite IH, Hstep. destruct (p act); simpl length; lia.
Qed.

Lemma sum_map_scale (A : Type) (c : A -> Q) (k : Q) (l : list A) :
  Py.sum (map (fun a => c a / k) l) == Py.sum (map c l) / k.
Proof.
  induction l as [| a l IH]; simpl.
  - rewrite !sum_nil. unfold Qdiv. ring.
  - rewrite !sum_cons, IH. unfold Qdiv. ring.
Qed.

Lemma emission_data_lookups (t : Router.totals) :
  Service.get (Router.emission_data_of t) "daily_miles_driven" 0 = Router.daily_miles t
  /\ Service.get (Router.emission_data_of t) "meat_meals_per_week" 0
     = inject_Z (Router.meat_meals t) / 30 * 7
  /\ Service.get (Router.emission_data_of t) "vegetarian_meals_per_week" 0
     = inject_Z (Router.veg_meals t) / 30 * 7
  /\ Service.get (Router.emission_data_of t) "electricity_kwh_per_day" 0
     = Router.electricity_kwh t
  /\ Service.get (Router.emission_data_of t) "natural_gas_therms_per_month" 0
     = Router.gas_therms t * 30
  /\ Service.get (Router.emission_data_of t) "transport_emissions_kg" 0
     = Router.transport_emissions t * 365 / 30
  /\ Service.get (Router.emission_data_of t) "food_emissions_kg" 0
     = Router.food_emissions t * 365 / 30
  /\ Service.get (Router.emission_data_of t) "energy_emissions_kg" 0
     = Router.energy_emissions t * 365 / 30.
Proof. repeat split. Qed.

(** X7.  The three emission features are the CO2e of the window's
    activities of that category, summed and scaled by 365/30; the category
    is matched as spelled, in lower case. *)
Theorem emission_features_are_window_sums (now : Z) (all_activities : list Router.activity) :
  let recent := Router.recent_activities now all_activities in
  let data := Router.user_emission_data now all_activities in
  Service.get data "transport_emissions_kg" 0
  == Py.sum (map (Tally.emissions_in "transportation") recent) * 365 / 30
  /\ Service.get data "food_emissions_kg" 0
     == Py.sum (map (Tally.emissions_in "food") recent) * 365 / 30
  /\ Service.get data "energy_emissions_kg" 0
     == Py.sum (map (Tally.emissions_in "energy") recent) * 365 / 30.
Proof.
  intros recent data. unfold data, Router.user_emission_data, Router.aggregate.
  fold recent.
  destruct (emission_data_lookups (fold_left Router.accumulate recent Router.zero_totals))
    as (_ & _ & _ & _ & _ & -> & -> & ->).
  rewrite (fold_adds _ _ accumulate_transport_emissions),
    (fold_adds _ _ accumulate_food_emissions),
    (fold_adds _ _ accumulate_energy_emissions).
  simpl. repeat split; field.
Qed.

(** X8.  The usage features are sums of thirtieths over the window, added
    in the order of the activities: daily miles add amount/30 for each
    transportation activity given in miles or km (without conversion), daily
    kWh add amount/30 for each energy activity given in kWh, and monthly
    therms are 30 times the sum of amount/30 over the energy activities
    whose unit mentions "therm". *)
Theorem usage_features_are_window_rates (now : Z) (all_activities : list Router.activity) :
  let recent := Router.recent_activities now all_activities in
  let data := Router.user_emission_data now all_activities in
  Service.get data "daily_miles_driven" 0
  == Py.sum (map (fun act => Tally.distance_of act / 30) recent)
  /\ Service.get data "electricity_kwh_per_day" 0
     == Py.sum (map (fun act => Tally.kwh_of act / 30) recent)
  /\ Service.get data "natural_gas_therms_per_month" 0
     == Py.sum (map (fun act => Tally.therms_of act / 30) recent) * 30.
Proof.
  intros recent data. unfold data, Router.user_emission_data, Router.aggregate.
  fold recent.
  destruct (emission_data_lookups (fold_left Router.accumulate recent Router.zero_totals))
    as (-> & _ & _ & -> & -> & _).
  rewrite (fold_adds _ (fun act => Tally.distance_of act / 30) accumulate_daily_miles),
    (fold_adds _ (fun act => Tally.kwh_of act / 30) accumulate_electricity),
    (fold_adds _ (fun act => Tally.therms_of act / 30) accumulate_gas).
  simpl. repeat split; ring.
Qed.

(** X9.  Every window activity of category "food" is counted as exactly one
    meal, a meat meal when its lower-cased subtype contains "meat" or
    "beef" and a vegetarian meal otherwise; the two weekly features are the
    counts times 7/30. *)
Theorem meal_features_count_food (now : Z) (all_activities : list Router.activity) :
  let recent := Router.recent_activities now all_activities in
  let data := Router.user_emission_data now all_activities in
  let meat := Z.of_nat (length (List.filter Tally.is_meat_meal recent)) in
  let veg := Z.of_nat (length (List.filter Tally.is_veg_meal recent)) in
  Service.get data "meat_meals_per_week" 0 = inject_Z meat / 30 * 7
  /\ Service.get data "vegetarian_meals_per_week" 0 = inject_Z veg / 30 * 7
  /\ (meat + veg)%Z
     = Z.of_nat (length (List.filter (Tally.category_is "food") recent)).
Proof.
  intros recent data meat veg. unfold data, Router.user_emission_data, Router.aggregate.
  fold recent.
  destruct (emission_data_lookups (fold_left Router.accumulate recent Router.zero_totals))
    as (_ & -> & -> & _).
  rewrite (fold_counts _ _ accumulate_meat_meals), (fold_counts _ _ accumulate_veg_meals).
  simpl. fold meat veg. split; [reflexivity |]. split; [reflexivity |].
  unfold meat, veg. clear. induction recent as [| act acts IH]; simpl; [reflexivity |].
  unfold Tally.is_meat_meal, Tally.is_veg_meal in *.
  destruct (Tally.category_is "food" act); cbn [andb]; [| exact IH].
  destruct (_ || _); cbn [negb]; simpl length; lia.
Qed.

Lemma tally_nonnegative (act : Router.activity) (c : string) :
  Tally.nonnegative act ->
  0 <= Tally.emissions_in c act /\ 0 <= Tally.distance_of act / 30
  /\ 0 <= Tally.kwh_of act / 30 /\ 0 <= Tally.therms_of act / 30.
Proof.
  intros [Hamount Hco2e].
  unfold Tally.emissions_in, Tally.distance_of, Tally.kwh_of, Tally.therms_of.
  repeat split;
    match goal with |- context [if ?b then _ else _] => destruct b end;
    first [done | apply Qle_refl | apply Qle_shift_div_l; lra].
Qed.

Lemma aggregate_nonnegative (recent : list Router.activity) :
  Forall Tally.nonnegative recent ->
  0 <= Router.daily_miles (Router.aggregate recent)
  /\ (0 <= Router.meat_meals (Router.aggregate recent))%Z
  /\ (0 <= Router.veg_meals (Router.aggregate recent))%Z
  /\ 0 <= Router.electricity_kwh (Router.aggregate recent)
  /\ 0 <= Router.gas_therms (Router.aggregate recent)
  /\ 0 <= Router.transport_emissions (Router.aggregate recent)
  /\ 0 <= Router.food_emissions (Router.aggregate recent)
  /\ 0 <= Router.energy_emissions (Router.aggregate recent).
Proof.
  intros Hall. unfold Router.aggregate.
  assert (Hsum : forall c : Router.activity -> Q,
            (forall act, Tally.nonnegative act -> 0 <= c act) ->
            0 <= Py.sum (map c recent)).
  { intros c Hc. apply sum_nonneg, Forall_map.
    eapply Forall_impl; [exact Hall | exact Hc]. }
  rewrite (fold_adds _ _ accumulate_daily_miles), (fold_adds _ _ accumulate_electricity),
    (fold_adds _ _ accumulate_gas), (fold_adds _ _ accumulate_transport_emissions),
    (fold_adds _ _ accumulate_food_emissions), (fold_adds _ _ accumulate_energy_emissions),
    (fold_counts _ _ accumulate_meat_meals), (fold_counts _ _ accumulate_veg_meals).
  simpl.
  repeat split; try lia; rewrite Qplus_0_l; apply Hsum; intros act Hact;
    first [ apply (tally_nonnegative act "transportation" Hact)
          | apply (tally_nonnegative act "food" Hact)
          | apply (tally_nonnegative act "energy" Hact) ].
Qed.

(** X10.  When no activity in the window has a negative amount or a
    negative CO2e, every value of the feature dictionary is non-negative. *)
Theorem features_nonnegative (now : Z) (all_activities : list Router.activity) :
  Forall Tally.nonnegative (Router.recent_activities now all_activities) ->
  map_Forall (fun _ v => 0 <= v) (Router.user_emission_data now all_activities).
Proof.
  intros Hall col v Hlookup.
  destruct (aggregate_nonnegative _ Hall)
    as (Hm & Hmeat & Hveg & Hk & Hg & Ht & Hf & He).
  assert (Hflights : Router.flights
                       (Router.aggregate (Router.recent_activities now all_activities)) = 0%Z)
    by (unfold Router.aggregate; by rewrite fold_keeps_flights).
  unfold Router.user_emission_data, Router.emission_data_of in Hlookup.
  apply elem_of_list_to_map_2 in Hlookup.
  set (t := Router.aggregate (Router.recent_activities now all_activities)) in *.
  repeat (apply elem_of_cons in Hlookup as [[= -> ->] | Hlookup]).
  - exact Hm.
  - apply Qmult_le_0_compat; [| lra].
    apply Qle_shift_div_l; [lra |]. rewrite Qmult_0_l.
    change 0 with (inject_Z 0). by rewrite <- Zle_Qle.
  - apply Qmult_le_0_compat; [| lra].
    apply Qle_shift_div_l; [lra |]. rewrite Qmult_0_l.
    change 0 with (inject_Z 0). by rewrite <- Zle_Qle.
  - exact Hk.
  - lra.
  - rewrite Hflights. apply Qle_refl.
  - apply Qle_shift_div_l; lra.
  - apply Qle_shift_div_l; lra.
  - apply Qle_shift_div_l; lra.
  - by apply elem_of_nil in Hlookup.
Qed.

Lemma features_nonnegative_witness :
  Forall Tally.nonnegative (Router.recent_activities Sample.day100 [Sample.drive Sample.day100])
  /\ map_Forall (fun _ v => 0 <= v)
       (Router.user_emission_data Sample.day100 [Sample.drive Sample.day100]).
Proof.
  assert (Hall : Forall Tally.nonnegative
                   (Router.recent_activities Sample.day100 [Sample.drive Sample.day100])).
  { constructor; [| constructor]. split; vm_compute; discriminate. }
  split; [exact Hall |].
  exact (features_nonnegative Sample.day100 [Sample.drive Sample.day100] Hall).
Defined.

Lemma accumulate_skips (t : Router.totals) (act : Router.activity) :
  Tally.category_is "transportation" act || Tally.category_is "food" act
  || Tally.category_is "energy" act = false ->
  Router.accumulate t act = t.
Proof.
  unfold Tally.category_is, Router.accumulate. cbv zeta.
  intros Hcat. apply orb_false_iff in Hcat as [Hcat He].
  apply orb_false_iff in Hcat as [Ht Hf].
  by rewrite Ht, Hf, He.
Qed.

(** X11.  An activity that is undated, dated more than 30 days before the
    reference time, or whose category is not exactly "transportation",
    "food" or "energy" has no influence on the feature dictionary. *)
Theorem uncounted_activity_ignored
    (now : Z) (before after : list Router.activity) (act : Router.activity) :
  Tally.counted now act = false ->
  Router.user_emission_data now (before ++ act :: after)
  = Router.user_emission_data now (before ++ after).
Proof.
  intros Hskip. unfold Router.user_emission_data, Router.recent_activities.
  f_equal. rewrite !List.filter_app. unfold Router.aggregate.
  rewrite !fold_left_app. cbn [List.filter].
  unfold Tally.counted in Hskip.
  destruct (Router.is_recent now act); [| reflexivity].
  cbn [andb] in Hskip. cbn [fold_left]. by rewrite accumulate_skips.
Qed.

Lemma uncounted_activity_ignored_witness :
  Tally.counted Sample.day100 (Sample.drive 0) = false
  /\ Router.user_emission_data Sample.day100
       ([Sample.drive Sample.day100] ++ Sample.drive 0 :: [])
     = Router.user_emission_data Sample.day100 ([Sample.drive Sample.day100] ++ []).
Proof.
  assert (Hskip : Tally.counted Sample.day100 (Sample.drive 0) = false) by reflexivity.
  split; [exact Hskip |].
  exact (uncounted_activity_ignored Sample.day100 [Sample.drive Sample.day100] []
           (Sample.drive 0) Hskip).
Defined.

(* ===================================================================== *)
(** ** The handler around the rule engine *)
(* ===================================================================== *)

Lemma rule_savings_nonnegative `{FloatFormat} (data : gmap string Q) (archetype : string) :
  Forall (fun r => 0 <= Service.estimated_savings_kg r)
         (Service.generate_rule_based_recommendations data archetype).
Proof.
  apply Forall_forall. intros r Hin. apply elem_of_rules in Hin.
  rewrite elem_of_transport_rule, elem_of_food_rule, elem_of_energy_rule,
    elem_of_low_rule in Hin.
  destruct Hin as [[[_ Hg] ->] | [[[_ Hg] ->] | [[[_ Hg] ->] | [[_ ->] | [-> _]]]]];
    simpl; lra.
Qed.

Lemma enhance_keeps (g : Gemini.collaborator) (rules : list Service.recommendation) :
  map Service.title (map (Router.enhance g) rules) = map Service.title rules
  /\ map Service.estimated_savings_kg (map (Router.enhance g) rules)
     = map Service.estimated_savings_kg rules
  /\ map Service.category (map (Router.enhance g) rules) = map Service.category rules
  /\ map Service.priority (map (Router.enhance g) rules) = map Service.priority rules.
Proof. rewrite !map_map. repeat split. Qed.

(** X12.  Whatever the text collaborator answers, the response carries the
    rule engine's titles, savings, categories and priorities, entry by
    entry; only descriptions can differ.  The total potential savings are
    the sum of the rule engine's savings and never negative. *)
Theorem response_keeps_rule_numbers `{FloatFormat}
    (files : Service.model_files) (g : Gemini.collaborator)
    (now : Z) (all_activities : list Router.activity) :
  let response := Router.get_recommendations files g now all_activities in
  let rules :=
    match all_activities with
    | [] => [Router.start_logging]
    | _ :: _ =>
        Service.generate_rule_based_recommendations
          (Router.user_emission_data now all_activities)
          (Router.user_archetype response)
    end in
  map Service.title (Router.recommendations response) = map Service.title rules
  /\ map Service.estimated_savings_kg (Router.recommendations response)
     = map Service.estimated_savings_kg rules
  /\ map Service.category (Router.recommendations response) = map Service.category rules
  /\ map Service.priority (Router.recommendations response) = map Service.priority rules
  /\ Router.total_potential_savings_kg response
     == Py.sum (map Service.estimated_savings_kg rules)
  /\ 0 <= Router.total_potential_savings_kg response.
Proof.
  intros response rules. unfold rules, response, Router.get_recommendations.
  destruct all_activities as [| act acts].
  - cbn [Router.recommendations Router.total_potential_savings_kg]. repeat split.
    apply Qle_refl.
  - cbv zeta.
    cbn [Router.recommendations Router.total_potential_savings_kg Router.user_archetype].
    set (data := Router.user_emission_data now (act :: acts)).
    set (archetype := match Service.classify_user_archetype files data with
                      | Some r => Service.archetype r
                      | None => "Unknown"%string
                      end).
    destruct (enhance_keeps g (Service.generate_rule_based_recommendations data archetype))
      as (Ht & Hs & Hc & Hp).
    rewrite Ht, Hs, Hc, Hp. do 4 (split; [reflexivity |]).
    split; [reflexivity |].
    apply sum_nonneg, Forall_map, rule_savings_nonnegative.
Qed.

(* ===================================================================== *)
(** ** The classifier and the trained artifact *)
(* ===================================================================== *)

(** X13.  The classifier reads the eight feature columns only: two
    dictionaries that agree on them are classified alike, so that the extra
    "vegetarian_meals_per_week" entry of the handler's dictionary has no
    effect. *)
Theorem classifier_reads_feature_cols
    (files : Service.model_files) (data data' : gmap string Q) :
  (forall col : string, col ∈ Service.feature_cols -> data !! col = data' !! col) ->
  Service.classify_user_archetype files data = Service.classify_user_archetype files data'.
Proof.
  intros Hsame.
  assert (Hvec : Service.feature_vector data = Service.feature_vector data').
  { unfold Service.feature_vector. apply map_ext_in. intros col Hcol.
    unfold Service.get. rewrite (Hsame col); [reflexivity |].
    by apply list_elem_of_In. }
  unfold Service.classify_user_archetype. by rewrite Hvec.
Qed.

Lemma classifier_reads_feature_cols_witness :
  (forall col : string,
     col ∈ Service.feature_cols ->
     ({[ "vegetarian_meals_per_week"%string := 14 ]} : gmap string Q) !! col
     = (∅ : gmap string Q) !! col)
  /\ Service.classify_user_archetype (Sample.origin_model "Balanced Emissions")
       {[ "vegetarian_meals_per_week"%string := 14 ]}
     = Service.classify_user_archetype (Sample.origin_model "Balanced Emissions") ∅.
Proof.
  assert (Hsame : forall col : string,
     col ∈ Service.feature_cols ->
     ({[ "vegetarian_meals_per_week"%string := 14 ]} : gmap string Q) !! col
     = (∅ : gmap string Q) !! col).
  { intros col Hcol. unfold Service.feature_cols in Hcol.
    repeat (apply elem_of_cons in Hcol as [-> | Hcol]; [reflexivity |]).
    by apply elem_of_nil in Hcol. }
  split; [exact Hsame |].
  exact (classifier_reads_feature_cols _ _ _ Hsame).
Defined.

Lemma argmin_from_bound (ds : list Q) (best_i i : nat) (best : Q) :
  (best_i < i)%nat -> (Service.argmin_from best_i best i ds < i + length ds)%nat.
Proof.
  revert best_i i best. induction ds as [| d ds IH]; intros best_i i best Hlt; simpl.
  - lia.
  - destruct (Py.ltb d best).
    + specialize (IH i (S i) d). lia.
    + specialize (IH best_i (S i) best). lia.
Qed.

Lemma predict_bound (kmeans : Service.KMeans) (x : list Q) :
  Service.cluster_centers_ kmeans <> [] ->
  (Service.predict kmeans x < length (Service.cluster_centers_ kmeans))%nat.
Proof.
  unfold Service.predict. intros Hne.
  destruct (Service.cluster_centers_ kmeans) as [| c cs]; [done |]. simpl.
  pose proof (argmin_from_bound (map (Service.sq_dist x) cs) 0 1
                (Service.sq_dist x c)) as Hb.
  rewrite length_map in Hb. lia.
Qed.

Lemma json_dump_lookup
    (df : list Train.user_row) (labels_ : list nat) (n_clusters cluster_id : nat) :
  (cluster_id < n_clusters)%nat ->
  Artifact.json_dump (Train.analyze_clusters df labels_ n_clusters) !! pretty cluster_id
  = Some (Train.describe_cluster (Train.members df labels_ cluster_id)).
Proof.
  intros Hlt. unfold Artifact.json_dump, Train.analyze_clusters.
  apply elem_of_list_to_map_1.
  - rewrite <- !list_fmap_compose.
    apply (NoDup_fmap_2 (pretty : nat -> string)), NoDup_ListNoDup, seq_NoDup.
  - apply list_elem_of_fmap.
    exists (cluster_id, Train.describe_cluster (Train.members df labels_ cluster_id)).
    split; [reflexivity |].
    apply list_elem_of_fmap. exists cluster_id. split; [reflexivity |].
    apply list_elem_of_In, in_seq. lia.
Qed.

Lemma label_is_named (dominant : option string)
    (avg_total avg_electricity avg_meat tr fr er flr : Q) :
  Train.label dominant avg_total avg_electricity avg_meat tr fr er flr
    ∈ Artifact.archetype_names.
Proof.
  unfold Train.label, Artifact.archetype_names. cbv zeta.
  repeat match goal with
         | |- context [if ?b then _ else _] => destruct b
         end; set_solver.
Qed.

(** X14.  Train, save, load, classify: with the artifact that training
    wrote for [n_clusters >= 1] clusters, every feature dictionary is
    assigned a cluster id below [n_clusters], the description returned is
    the one training computed for that cluster, and the archetype is that
    description's label, which is one of the nine names of the cascade and
    so never "Unknown". *)
Theorem trained_artifact_round_trip
    (df : list Train.user_row) (labels_ : list nat) (n_clusters : nat)
    (kmeans : Service.KMeans) (scaler : Service.StandardScaler)
    (data : gmap string Q) :
  length (Service.cluster_centers_ kmeans) = n_clusters ->
  (1 <= n_clusters)%nat ->
  exists c : Service.classification,
    Service.classify_user_archetype
      (Artifact.save_model kmeans scaler (Train.analyze_clusters df labels_ n_clusters))
      data = Some c
    /\ (Service.cluster_id c < n_clusters)%nat
    /\ Service.description c
       = Some (Train.describe_cluster (Train.members df labels_ (Service.cluster_id c)))
    /\ Service.archetype c
       = Train.archetype
           (Train.describe_cluster (Train.members df labels_ (Service.cluster_id c)))
    /\ Service.archetype c ∈ Artifact.archetype_names
    /\ Service.archetype c <> "Unknown"%string.
Proof.
  intros Hlen Hpos.
  unfold Service.classify_user_archetype, Artifact.save_model.
  cbn [Service.load_kmeans_model Service.kmeans_pkl Service.scaler_pkl
       Service.cluster_descriptions_json].
  set (id := Service.predict kmeans
               (Service.transform scaler (Service.feature_vector data))).
  assert (Hid : (id < n_clusters)%nat).
  { rewrite <- Hlen. apply predict_bound. intros Hnil. rewrite Hnil in Hlen.
    simpl in Hlen. lia. }
  rewrite (json_dump_lookup df labels_ n_clusters id Hid).
  eexists. split; [reflexivity |].
  cbn [Service.cluster_id Service.description Service.archetype].
  split; [exact Hid |]. split; [reflexivity |]. split; [reflexivity |].
  assert (Hnamed : Train.archetype (Train.describe_cluster (Train.members df labels_ id))
                     ∈ Artifact.archetype_names) by apply label_is_named.
  split; [exact Hnamed |].
  intros Heq. rewrite Heq in Hnamed. unfold Artifact.archetype_names in Hnamed.
  repeat (apply elem_of_cons in Hnamed as [Hnamed | Hnamed]; [discriminate |]).
  by apply elem_of_nil in Hnamed.
Qed.

Lemma trained_artifact_round_trip_witness :
  length (Service.cluster_centers_
            {| Service.cluster_centers_ := [[0; 0; 0; 0; 0; 0; 0; 0]] |}) = 1%nat
  /\ (1 <= 1)%nat
  /\ exists c : Service.classification,
       Service.classify_user_archetype
         (Artifact.save_model
            {| Service.cluster_centers_ := [[0; 0; 0; 0; 0; 0; 0; 0]] |}
            {| Service.mean_ := [0; 0; 0; 0; 0; 0; 0; 0];
               Service.scale_ := [1; 1; 1; 1; 1; 1; 1; 1] |}
            (Train.analyze_clusters Sample.drivers [0%nat; 0%nat] 1))
         ∅ = Some c
       /\ Service.archetype c <> "Unknown"%string.
Proof.
  split; [reflexivity |]. split; [lia |].
  destruct (trained_artifact_round_trip Sample.drivers [0%nat; 0%nat] 1
              {| Service.cluster_centers_ := [[0; 0; 0; 0; 0; 0; 0; 0]] |}
              {| Service.mean_ := [0; 0; 0; 0; 0; 0; 0; 0];
                 Service.scale_ := [1; 1; 1; 1; 1; 1; 1; 1] |}
              ∅ eq_refl (le_n 1))
    as (c & Hc & _ & _ & _ & _ & Hne).
  exists c. split; [exact Hc | exact Hne].
Defined.


Lemma cluster_sizes_count (rows : list (Train.user_row * nat)) (n : nat) :
  sum_list_with (fun i => length (filter (fun rl => rl.2 = i) rows)) (seq 0 n)
  = length (filter (fun rl => (rl.2 < n)%nat) rows).
Proof.
  induction n as [| n IH].
  - simpl. induction rows as [| r rows IHr]; [reflexivity |].
    rewrite filter_cons. case_decide; [lia | exact IHr].
  - rewrite seq_S, sum_list_with_app, IH. simpl. clear IH.
    induction rows as [| r rows IHr]; [reflexivity |].
    rewrite !filter_cons.
    repeat case_decide; simpl in *; lia.
Qed.

Lemma filter_all (rows : list (Train.user_row * nat)) (n : nat) :
  Forall (fun rl : Train.user_row * nat => (rl.2 < n)%nat) rows ->
  filter (fun rl => (rl.2 < n)%nat) rows = rows.
Proof.
  induction 1 as [| r rows Hr Hrows IH]; [reflexivity |].
  rewrite filter_cons. case_decide; [by rewrite IH | done].
Qed.

(** X16.  Training describes the clusters 0 .. n_clusters-1 in order, and
    when every row carries a label below [n_clusters] the cluster sizes add
    up to the number of rows: each row is a member of exactly one
    cluster. *)
Theorem clusters_partition_rows
    (df : list Train.user_row) (labels_ : list nat) (n_clusters : nat) :
  length labels_ = length df ->
  Forall (fun l => (l < n_clusters)%nat) labels_ ->
  map fst (Train.analyze_clusters df labels_ n_clusters) = seq 0 n_clusters
  /\ sum_list_with (fun kd => Train.size (Train.stats kd.2))
                   (Train.analyze_clusters df labels_ n_clusters)
     = length df.
Proof.
  intros Hlen Hlabels. unfold Train.analyze_clusters. split.
  - rewrite map_map. simpl. apply map_id.
  - assert (Hall : Forall (fun rl : Train.user_row * nat => (rl.2 < n_clusters)%nat)
                          (zip df labels_)).
    { clear Hlen. revert df. induction Hlabels as [| l ls Hl Hls IH]; intros df.
      - destruct df; constructor.
      - destruct df as [| r df]; [constructor |]. simpl.
        constructor; [exact Hl | apply IH]. }
    transitivity (sum_list_with
                    (fun i => length (filter (fun rl => rl.2 = i) (zip df labels_)))
                    (seq 0 n_clusters)).
    + generalize (seq 0 n_clusters). intros ids.
      induction ids as [| i ids IH]; [reflexivity |]. simpl. rewrite IH.
      unfold Train.members. by rewrite length_map.
    + rewrite cluster_sizes_count, (filter_all _ _ Hall), length_zip_with. lia.
Qed.

Lemma clusters_partition_rows_witness :
  length [0%nat; 0%nat] = length Sample.drivers
  /\ Forall (fun l => (l < 1)%nat) [0%nat; 0%nat]
  /\ sum_list_with (fun kd => Train.size (Train.stats kd.2))
                   (Train.analyze_clusters Sample.drivers [0%nat; 0%nat] 1)
     = length Sample.drivers.
Proof.
  assert (Hlen : length [0%nat; 0%nat] = length Sample.drivers) by reflexivity.
  assert (Hall : Forall (fun l => (l < 1)%nat) [0%nat; 0%nat])
    by (repeat constructor).
  split; [exact Hlen |]. split; [exact Hall |].
  exact (proj2 (clusters_partition_rows Sample.drivers [0%nat; 0%nat] 1 Hlen Hall)).
Defined.

(* ===================================================================== *)
(** ** Rounding, the generator's columns and the stored dominant ratio *)
(* ===================================================================== *)

Lemma round_half_even_floor (y : Q) :
  (Qfloor y <= Py.round_half_even y <= Qfloor y + 1)%Z.
Proof.
  unfold Py.round_half_even.
  repeat match goal with
         | |- context [if ?b then _ else _] => destruct b
         end; lia.
Qed.

Lemma round_half_even_mono (x y : Q) :
  x <= y -> (Py.round_half_even x <= Py.round_half_even y)%Z.
Proof.
  intros Hle.
  pose proof (Qfloor_resp_le _ _ Hle) as Hfloor.
  pose proof (round_half_even_floor x) as Hx.
  pose proof (round_half_even_floor y) as Hy.
  destruct (Z.eq_dec (Qfloor x) (Qfloor y)) as [Heq | Hne]; [| lia].
  unfold Py.round_half_even in *. rewrite Heq in *.
  set (f := Qfloor y) in *.
  destruct (Py.ltb (x - inject_Z f) (1 # 2)) eqn:Ex1; [lia |].
  assert (Hx1 : 1 # 2 <= x - inject_Z f).
  { apply Qnot_lt_le. rewrite <- ltb_lt. congruence. }
  assert (Ey1 : Py.ltb (y - inject_Z f) (1 # 2) = false).
  { apply not_true_is_false. rewrite ltb_lt. lra. }
  rewrite Ey1.
  destruct (Py.gtb (x - inject_Z f) (1 # 2)) eqn:Ex2.
  - apply gtb_lt in Ex2.
    assert (Ey2 : Py.gtb (y - inject_Z f) (1 # 2) = true) by (apply gtb_lt; lra).
    rewrite Ey2. lia.
  - destruct (Py.gtb (y - inject_Z f) (1 # 2)); [| lia].
    destruct (Z.even f); lia.
Qed.

Lemma round_mono (x y : Q) (ndigits : nat) :
  x <= y -> Py.round x ndigits <= Py.round y ndigits.
Proof.
  intros Hle. unfold Py.round.
  assert (Hp : 0 < inject_Z (10 ^ Z.of_nat ndigits)).
  { change 0 with (inject_Z 0). rewrite <- Zlt_Qlt. apply Z.pow_pos_nonneg; lia. }
  set (p := inject_Z (10 ^ Z.of_nat ndigits)) in *.
  apply Qmult_le_compat_r; [| apply Qlt_le_weak, Qinv_lt_0_compat, Hp].
  rewrite <- Zle_Qle. apply round_half_even_mono.
  apply Qmult_le_compat_r; [exact Hle | by apply Qlt_le_weak].
Qed.

Lemma round_nonnegative (x : Q) (ndigits : nat) : 0 <= x -> 0 <= Py.round x ndigits.
Proof.
  intros Hx. unfold Py.round.
  assert (Hp : 0 < inject_Z (10 ^ Z.of_nat ndigits)).
  { change 0 with (inject_Z 0). rewrite <- Zlt_Qlt. apply Z.pow_pos_nonneg; lia. }
  set (p := inject_Z (10 ^ Z.of_nat ndigits)) in *.
  apply Qle_shift_div_l; [exact Hp |]. rewrite Qmult_0_l.
  change 0 with (inject_Z 0). rewrite <- Zle_Qle.
  assert (Hxp : 0 <= x * p) by (apply Qmult_le_0_compat; [exact Hx | by apply Qlt_le_weak]).
  pose proof (Qfloor_resp_le _ _ Hxp) as Hfloor. change (Qfloor 0) with 0%Z in Hfloor.
  pose proof (round_half_even_floor (x * p)). lia.
Qed.

(** X17.  For non-negative draws the generator's five emission columns are
    non-negative, each within 0.005 of the linear formula it rounds
    (0.411 kg a mile over 365 days; 3.5 kg a meat meal and 0.5 kg a
    vegetarian meal over 52 weeks; 0.5 kg a kWh over 365 days plus 5.3 kg a
    therm over 12 months; 900 kg a flight), and the four categories add up
    to the stored total within 0.025. *)
Theorem synthetic_emission_columns
    (daily_miles meat_meals veg_meals electricity_kwh gas_therms flights : Q) :
  0 <= daily_miles -> 0 <= meat_meals -> 0 <= veg_meals ->
  0 <= electricity_kwh -> 0 <= gas_therms -> 0 <= flights ->
  let r := Train.synthetic_user daily_miles meat_meals veg_meals
                                electricity_kwh gas_therms flights in
  (0 <= Train.transport_emissions_kg r /\ 0 <= Train.food_emissions_kg r
   /\ 0 <= Train.energy_emissions_kg r /\ 0 <= Train.flight_emissions_kg r
   /\ 0 <= Train.total_annual_emissions_kg r)
  /\ Qabs (Train.transport_emissions_kg r - daily_miles * 365 * 0.411) <= 0.005
  /\ Qabs (Train.food_emissions_kg r - (meat_meals * 3.5 + veg_meals * 0.5) * 52) <= 0.005
  /\ Qabs (Train.energy_emissions_kg r
           - (electricity_kwh * 0.5 * 365 + gas_therms * 5.3 * 12)) <= 0.005
  /\ Qabs (Train.flight_emissions_kg r - flights * 900) <= 0.005
  /\ Qabs (Train.transport_emissions_kg r + Train.food_emissions_kg r
           + Train.energy_emissions_kg r + Train.flight_emissions_kg r
           - Train.total_annual_emissions_kg r) <= 0.025.
Proof.
  intros Hm Hmeat Hveg Hk Hg Hfl r.
  split; [| split; [apply round2_near |]; split; [apply round2_near |];
            split; [apply round2_near |]; split; [apply round2_near |];
            apply synthetic_user_parts_near_total].
  unfold r, Train.synthetic_user. cbv zeta.
  cbn [Train.transport_emissions_kg Train.food_emissions_kg Train.energy_emissions_kg
       Train.flight_emissions_kg Train.total_annual_emissions_kg].
  repeat split; apply round_nonnegative; nra.
Qed.

Lemma synthetic_emission_columns_witness :
  0 <= 0.00004 /\ 0 <= 5 /\ 0 <= 5.00004
  /\ Qabs (Train.transport_emissions_kg Sample.homebody
           + Train.food_emissions_kg Sample.homebody
           + Train.energy_emissions_kg Sample.homebody
           + Train.flight_emissions_kg Sample.homebody
           - Train.total_annual_emissions_kg Sample.homebody) <= 0.025.
Proof.
  assert (H1 : 0 <= 0.00004) by (vm_compute; discriminate).
  assert (H2 : 0 <= 0) by (vm_compute; discriminate).
  assert (H3 : 0 <= 5) by (vm_compute; discriminate).
  assert (H4 : 0 <= 5.00004) by (vm_compute; discriminate).
  split; [exact H1 |]. split; [exact H3 |]. split; [exact H4 |].
  exact (proj2 (proj2 (proj2 (proj2 (proj2
           (synthetic_emission_columns 0.00004 0 5 5.00004 0 0 H1 H2 H3 H4 H2 H2)))))).
Defined.

Lemma ratios_entry_cases (cluster_data : list Train.user_row) (i : nat) (kv : string * Q) :
  Train.ratios_of cluster_data !! i = Some kv ->
  Py.item (Train.ratios_of cluster_data) kv.1 = Some kv.2.
Proof.
  unfold Train.ratios_of. cbv zeta. intros Hi.
  destruct i as [| [| [| [| i]]]]; simpl in Hi; [injection Hi as <- .. | discriminate];
    reflexivity.
Qed.

(** X18.  For a cluster with at least one member and a positive mean
    total, the stored dominant ratio is the stored ratio of the dominant
    source, and none of the four stored ratios exceeds it. *)
Theorem dominant_ratio_is_largest (cluster_data : list Train.user_row) :
  cluster_data <> [] ->
  0 < Train.col_mean Train.total_annual_emissions_kg cluster_data ->
  let d := Train.describe_cluster cluster_data in
  exists (dominant : string) (v : Q),
    Train.dominant_source d = Some dominant
    /\ Train.dominant_ratio d = Some v
    /\ (dominant, v)
         ∈ [ ("transport"%string, Train.transport_ratio d);
             ("food"%string, Train.food_ratio d);
             ("energy"%string, Train.energy_ratio d);
             ("flight"%string, Train.flight_ratio d) ]
    /\ Train.transport_ratio d <= v /\ Train.food_ratio d <= v
    /\ Train.energy_ratio d <= v /\ Train.flight_ratio d <= v.
Proof.
  intros _ _ d.
  destruct (max_from_first_greatest
              (tail (Train.ratios_of cluster_data))
              ("transport"%string,
               Train.col_mean Train.transport_emissions_kg cluster_data
               / Train.col_mean Train.total_annual_emissions_kg cluster_data))
    as (i & Hi & Hall & _).
  change (_ :: tail (Train.ratios_of cluster_data))
    with (Train.ratios_of cluster_data) in Hi, Hall.
  set (best := Py.max_from _ (tail (Train.ratios_of cluster_data))) in *.
  pose proof (ratios_entry_cases cluster_data i best Hi) as Hitem.
  exists best.1, (Py.round best.2 3).
  assert (Hdom : Train.dominant_source d = Some best.1) by reflexivity.
  assert (Hratio : Train.dominant_ratio d = Some (Py.round best.2 3)).
  { unfold d, Train.describe_cluster. cbn [Train.dominant_ratio].
    change (Py.max_key (Train.ratios_of cluster_data)) with (Some best.1).
    cbv beta iota. by rewrite Hitem. }
  split; [exact Hdom |]. split; [exact Hratio |].
  split.
  - unfold Train.ratios_of in Hi. cbv zeta in Hi.
    destruct i as [| [| [| [| i]]]]; simpl in Hi; [injection Hi as <- .. | discriminate];
      cbn [fst snd]; set_solver.
  - repeat split; apply round_mono.
    + apply (Hall 0%nat ("transport"%string, _)). reflexivity.
    + apply (Hall 1%nat ("food"%string, _)). reflexivity.
    + apply (Hall 2%nat ("energy"%string, _)). reflexivity.
    + apply (Hall 3%nat ("flight"%string, _)). reflexivity.
Qed.

Lemma dominant_ratio_is_largest_witness :
  Sample.drivers <> []
  /\ 0 < Train.col_mean Train.total_annual_emissions_kg Sample.drivers
  /\ exists (dominant : string) (v : Q),
       Train.dominant_source (Train.describe_cluster Sample.drivers) = Some dominant
       /\ Train.dominant_ratio (Train.describe_cluster Sample.drivers) = Some v
       /\ Train.food_ratio (Train.describe_cluster Sample.drivers) <= v.
Proof.
  assert (Hne : Sample.drivers <> []) by discriminate.
  assert (Hpos : 0 < Train.col_mean Train.total_annual_emissions_kg Sample.drivers)
    by (vm_compute; reflexivity).
  split; [exact Hne |]. split; [exact Hpos |].
  destruct (dominant_ratio_is_largest Sample.drivers Hne Hpos)
    as (dominant & v & Hdom & Hratio & _ & _ & Hfood & _).
  exists dominant, v. split; [exact Hdom |]. split; [exact Hratio | exact Hfood].
Defined.

(* ===================================================================== *)
(** ** The emission calculator *)
(* ===================================================================== *)

Lemma lower_ascii_idempotent (c : ascii) :
  Py.lower_ascii (Py.lower_ascii c) = Py.lower_ascii c.
Proof.
  destruct c as [[] [] [] [] [] [] [] []]; reflexivity.
Qed.

Lemma lower_ascii_kelvin (c : ascii) :
  (N_of_ascii (Py.lower_ascii c) =? 226)%N = (N_of_ascii c =? 226)%N
  /\ (N_of_ascii (Py.lower_ascii c) =? 132)%N = (N_of_ascii c =? 132)%N
  /\ (N_of_ascii (Py.lower_ascii c) =? 170)%N = (N_of_ascii c =? 170)%N.
Proof.
  destruct c as [[] [] [] [] [] [] [] []]; repeat split.
Qed.

Lemma lower_cons_k (s : string) : Py.lower (String "k" s) = String "k" (Py.lower s).
Proof. by destruct s as [| c2 [| c3 s3]]. Qed.

(** Outside a Kelvin sign, the first character is lowered on its own. *)
Lemma lower_cons (c1 : ascii) (s1 : string) :
  match s1 with
  | String c2 (String c3 _) => Py.is_kelvin c1 c2 c3 = false
  | _ => True
  end ->
  Py.lower (String c1 s1) = String (Py.lower_ascii c1) (Py.lower s1).
Proof.
  destruct s1 as [| c2 [| c3 s3]]; [reflexivity | reflexivity |].
  intros Hk. cbn [Py.lower]. by rewrite Hk.
Qed.

Lemma lower_kelvin (c1 c2 c3 : ascii) (s3 : string) :
  Py.is_kelvin c1 c2 c3 = true ->
  Py.lower (String c1 (String c2 (String c3 s3))) = String "k" (Py.lower s3).
Proof. intros Hk. cbn [Py.lower]. by rewrite Hk. Qed.

Lemma is_kelvin_lower_ascii (c1 c2 c3 : ascii) :
  Py.is_kelvin (Py.lower_ascii c1) (Py.lower_ascii c2) (Py.lower_ascii c3)
  = Py.is_kelvin c1 c2 c3.
Proof.
  unfold Py.is_kelvin.
  destruct (lower_ascii_kelvin c1) as (-> & _ & _).
  destruct (lower_ascii_kelvin c2) as (_ & -> & _).
  by destruct (lower_ascii_kelvin c3) as (_ & _ & ->).
Qed.

Lemma is_kelvin_k_second (c1 c3 : ascii) : Py.is_kelvin c1 "k" c3 = false.
Proof. unfold Py.is_kelvin. by rewrite andb_false_r. Qed.

Lemma is_kelvin_k_third (c1 c2 : ascii) : Py.is_kelvin c1 c2 "k" = false.
Proof. unfold Py.is_kelvin. by rewrite andb_false_r. Qed.

(** Lowering does not bring a Kelvin sign about: if a lowered character
    and the first two characters of a lowered string make one, the
    character and the first two characters of the string did. *)
Lemma lower_head (c1 : ascii) (s : string) :
  match Py.lower s with
  | String a (String b _) => Py.is_kelvin (Py.lower_ascii c1) a b
  | _ => false
  end = true ->
  match s with
  | String x (String y _) => Py.is_kelvin c1 x y
  | _ => false
  end = true.
Proof.
  destruct s as [| x [| y [| z s]]]; [done | done | |].
  - cbn [Py.lower]. by rewrite is_kelvin_lower_ascii.
  - destruct (Py.is_kelvin x y z) eqn:Exyz.
    + rewrite (lower_kelvin x y z s Exyz).
      destruct (Py.lower s); [done |]. by rewrite is_kelvin_k_second.
    + rewrite (lower_cons x (String y (String z s)) Exyz).
      destruct s as [| w s].
      * cbn [Py.lower]. by rewrite is_kelvin_lower_ascii.
      * destruct (Py.is_kelvin y z w) eqn:Eyzw.
        -- rewrite (lower_kelvin y z w s Eyzw). by rewrite is_kelvin_k_third.
        -- rewrite (lower_cons y (String z (String w s)) Eyzw).
           by rewrite is_kelvin_lower_ascii.
Qed.

Lemma lower_idempotent (s : string) : Py.lower (Py.lower s) = Py.lower s.
Proof.
  assert (Hlen : forall (n : nat) (t : string),
            (String.length t <= n)%nat -> Py.lower (Py.lower t) = Py.lower t).
  { induction n as [| n IH]; intros t Ht.
    - destruct t; [reflexivity | cbn [String.length] in Ht; lia].
    - destruct t as [| c1 s1]; [reflexivity |]. cbn [String.length] in Ht.
      assert (Hstep : Py.lower (String c1 s1) = String (Py.lower_ascii c1) (Py.lower s1) ->
                      match s1 with
                      | String x (String y _) => Py.is_kelvin c1 x y
                      | _ => false
                      end = false ->
                      Py.lower (Py.lower (String c1 s1)) = Py.lower (String c1 s1)).
      { intros -> Hnot. rewrite lower_cons.
        - rewrite lower_ascii_idempotent, IH by lia. reflexivity.
        - pose proof (lower_head c1 s1) as Hhead.
          destruct (Py.lower s1) as [| a [| b t]]; [exact I | exact I |].
          destruct (Py.is_kelvin (Py.lower_ascii c1) a b); [| reflexivity].
          rewrite (Hhead eq_refl) in Hnot. discriminate. }
      destruct s1 as [| c2 [| c3 s3]]; [by apply Hstep | by apply Hstep |].
      destruct (Py.is_kelvin c1 c2 c3) eqn:Ek.
      + rewrite (lower_kelvin c1 c2 c3 s3 Ek), lower_cons_k, IH; [reflexivity |].
        cbn [String.length] in Ht. lia.
      + apply Hstep; [by apply lower_cons | reflexivity]. }
  by apply (Hlen (String.length s)).
Qed.

Lemma factors_range (key : string * string * string) (factor : Q) :
  Climatiq.factors !! key = Some factor -> 0.255 <= factor /\ factor <= 27.
Proof.
  unfold Climatiq.factors. intros Hkey. apply elem_of_list_to_map_2 in Hkey.
  repeat (apply elem_of_cons in Hkey as [[= -> ->] | Hkey];
          [split; vm_compute; discriminate |]).
  by apply elem_of_nil in Hkey.
Qed.

(** X19.  The fallback calculator multiplies the amount by a factor that
    depends only on the lower-cased (category, subtype, unit): the listed
    factor, or 1.0 for a combination that is not listed.  The factor lies
    between 0.255 and 27, so the sign of the amount is kept; [co2e] is 1000
    times [co2e_kg], and the result is marked "fallback". *)
Theorem fallback_emissions_linear (category subtype unit : string) (amount : Q) :
  let r := Climatiq.calculate_fallback_emissions category subtype amount unit in
  (exists factor : Q,
     0.255 <= factor /\ factor <= 27
     /\ Climatiq.co2e_kg r = amount * factor
     /\ Climatiq.co2e r = amount * factor * 1000
     /\ factor = default 1.0
                   (Climatiq.factors !! (Py.lower category, Py.lower subtype, Py.lower unit)))
  /\ Climatiq.source r = "fallback"%string
  /\ Climatiq.co2e_unit r = "kg"%string
  /\ Climatiq.calculate_fallback_emissions
       (Py.lower category) (Py.lower subtype) amount (Py.lower unit) = r.
Proof.
  intros r. unfold r, Climatiq.calculate_fallback_emissions. cbv zeta.
  cbn [Climatiq.co2e_kg Climatiq.co2e Climatiq.source Climatiq.co2e_unit].
  split; [| by rewrite !lower_idempotent].
  eexists. repeat split.
  - destruct (Climatiq.factors !! _) as [factor |] eqn:E; simpl.
    + by apply (factors_range _ _ E).
    + vm_compute. discriminate.
  - destruct (Climatiq.factors !! _) as [factor |] eqn:E; simpl.
    + by apply (factors_range _ _ E).
    + vm_compute. discriminate.
Qed.

Lemma calculate_emissions_unfold
    (a : Climatiq.api) (category subtype : string) (amount : Q) (unit : string) :
  Climatiq.calculate_emissions a category subtype amount unit
  = if Climatiq.no_key a
    then Exn.Raised (Exn.ValueError "CLIMATIQ_API_KEY not configured")
    else
      match Climatiq.map_to_climatiq_activity category subtype unit with
      | None =>
          Exn.Returned (Climatiq.calculate_fallback_emissions category subtype amount unit)
      | Some activity_id =>
          match Climatiq.post_estimate a
                  (Climatiq.estimate_payload activity_id amount unit) with
          | Climatiq.NoReply =>
              Exn.Returned
                (Climatiq.calculate_fallback_emissions category subtype amount unit)
          | Climatiq.Reply status_code data_co2e =>
              if (status_code =? 200)%Z then
                Exn.Returned
                  {| Climatiq.co2e_kg := default 0 data_co2e / 1000;
                     Climatiq.co2e := default 0 data_co2e;
                     Climatiq.co2e_unit := "kg";
                     Climatiq.source := "climatiq" |}
              else
                Exn.Returned
                  (Climatiq.calculate_fallback_emissions category subtype amount unit)
          end
      end.
Proof.
  unfold Climatiq.calculate_emissions.
  destruct (Climatiq.no_key a); [reflexivity |].
  destruct (Climatiq.map_to_climatiq_activity category subtype unit); [| reflexivity].
  destruct (Climatiq.post_estimate a _) as [| status_code data_co2e]; [reflexivity |].
  destruct (Z.eqb_spec status_code 200) as [-> | Hne]; [reflexivity |].
  destruct status_code as [| p | p]; try reflexivity.
  repeat (destruct p as [p | p |]; try reflexivity).
  done.
Qed.

(** X20.  [calculate_emissions] raises exactly when no API key is set, and
    otherwise always returns a result, never [None], whose unit is "kg":
    the fallback result, or, when the activity has a Climatiq id and the
    service answered with status 200, a result marked "climatiq" whose
    [co2e] is the answer's and whose [co2e_kg] is that [co2e] divided by
    1000. *)
Theorem calculate_emissions_outcomes
    (a : Climatiq.api) (category subtype : string) (amount : Q) (unit : string) :
  match Climatiq.calculate_emissions a category subtype amount unit with
  | Exn.Raised e =>
      Climatiq.no_key a = true
      /\ e = Exn.ValueError "CLIMATIQ_API_KEY not configured"
  | Exn.Returned r =>
      Climatiq.no_key a = false
      /\ Climatiq.co2e_unit r = "kg"%string
      /\ (r = Climatiq.calculate_fallback_emissions category subtype amount unit
          \/ (Climatiq.source r = "climatiq"%string
              /\ exists activity_id data_co2e,
                   Climatiq.map_to_climatiq_activity category subtype unit
                   = Some activity_id
                   /\ Climatiq.post_estimate a
                        (Climatiq.estimate_payload activity_id amount unit)
                      = Climatiq.Reply 200 data_co2e
                   /\ Climatiq.co2e r = default 0 data_co2e
                   /\ Climatiq.co2e_kg r = Climatiq.co2e r / 1000))
  end.
Proof.
  rewrite calculate_emissions_unfold.
  assert (Hunit :
    Climatiq.co2e_unit (Climatiq.calculate_fallback_emissions category subtype amount unit)
    = "kg"%string) by reflexivity.
  destruct (Climatiq.no_key a); [by split |].
  destruct (Climatiq.map_to_climatiq_activity category subtype unit) as [activity_id |] eqn:Emap.
  - destruct (Climatiq.post_estimate a _) as [| status_code data_co2e] eqn:Epost.
    + split; [reflexivity |]. split; [exact Hunit | by left].
    + destruct (Z.eqb_spec status_code 200) as [-> | Hne].
      * split; [reflexivity |]. split; [reflexivity |].
        right. split; [reflexivity |]. by exists activity_id, data_co2e.
      * split; [reflexivity |]. split; [exact Hunit | by left].
  - split; [reflexivity |]. split; [exact Hunit | by left].
Qed.

(* ===================================================================== *)
(** ** Logging an activity *)
(* ===================================================================== *)

(** X21.  [log_activity] fails only with status 500, and a failed call
    leaves the in-memory list as it was.  The two errors the handler raises
    with status 400 (an unparsable text, missing fields) are raised inside
    its own [try] block and reach the caller wrapped in a 500, as do the
    two missing-key errors. *)
Theorem log_activity_failures_are_500 `{Parse.Decoder} `{Format2f}
    (g : Gemini.collaborator) (api : Climatiq.api) (db : option Activities.database)
    (now created : Z) (store : list Activities.record)
    (activity : Schemas.ActivityLogRequest) :
  match Activities.log_activity g api db now created store activity with
  | (Exn.Returned reply, _) => Activities.success reply = true
  | (Exn.Raised e, store') =>
      store' = store
      /\ exists inner : Exn.exn,
           e = Exn.HTTPException 500 (Exn.StrOf inner)
           /\ (inner = Exn.ValueError "GEMINI_API_KEY not configured"
               \/ inner = Exn.HTTPException 400
                            (Exn.Text "Failed to parse activity from text")
               \/ inner = Exn.HTTPException 400
                            (Exn.Text "Missing required fields: category, subtype, amount, unit")
               \/ inner = Exn.ValueError "CLIMATIQ_API_KEY not configured")
  end.
Proof.
  unfold Activities.log_activity, Activities.log_activity_try. cbv zeta.
  assert (Hcalc : forall category subtype amount unit,
            match Climatiq.calculate_emissions api category subtype amount unit with
            | Exn.Raised e => e = Exn.ValueError "CLIMATIQ_API_KEY not configured"
            | Exn.Returned _ => True
            end).
  { intros. rewrite calculate_emissions_unfold.
    destruct (Climatiq.no_key api); [reflexivity |].
    destruct (Climatiq.map_to_climatiq_activity _ _ _); [| exact I].
    destruct (Climatiq.post_estimate api _); [exact I |].
    by destruct (_ =? 200)%Z. }
  destruct (Activities.truthy_str (Schemas.text activity)).
  - unfold Parse.parse_activity_text.
    destruct (Gemini.no_key g).
    { split; [reflexivity |]. eexists. split; [reflexivity |]. by left. }
    destruct (Gemini.generate_content g _) as [response_text |].
    + destruct (Parse.decode_activity _ _) as [structured |].
      * specialize (Hcalc (Parse.category structured) (Parse.subtype structured)
                          (Parse.amount structured) (Parse.unit structured)).
        destruct (Climatiq.calculate_emissions api _ _ _ _) as [r | e]; [reflexivity |].
        split; [reflexivity |]. eexists. split; [reflexivity |]. rewrite Hcalc. by do 3 right.
      * split; [reflexivity |]. eexists. split; [reflexivity |]. right. by left.
    + split; [reflexivity |]. eexists. split; [reflexivity |]. right. by left.
  - destruct (_ && _).
    + specialize (Hcalc (default "" (Schemas.category activity))
                        (default "" (Schemas.subtype activity))
                        (default 0 (Schemas.amount activity))
                        (default "" (Schemas.unit activity))).
      destruct (Climatiq.calculate_emissions api _ _ _ _) as [r | e]; [reflexivity |].
      split; [reflexivity |]. eexists. split; [reflexivity |]. rewrite Hcalc. by do 3 right.
    + split; [reflexivity |]. eexists. split; [reflexivity |]. right. right. by left.
Qed.

Lemma log_activity_success_cases `{Parse.Decoder} `{Format2f}
    (g : Gemini.collaborator) (api : Climatiq.api) (db : option Activities.database)
    (now created : Z) (store store' : list Activities.record)
    (activity : Schemas.ActivityLogRequest) (reply : Activities.logged) :
  Activities.log_activity g api db now created store activity
  = (Exn.Returned reply, store') ->
  exists d : Activities.record_data,
    Activities.rd_user_id d = "user_001"%string
    /\ Activities.rd_date d = default now (Schemas.date activity)
    /\ ((exists database,
           db = Some database
           /\ Activities.execute_insert_returning database d
              = Some (Activities.emission_record reply)
           /\ store' = store)
        \/ ((db = None
             \/ exists database,
                  db = Some database
                  /\ Activities.execute_insert_returning database d = None)
            /\ Activities.emission_record reply
               = Activities.fallback_record store d created
            /\ store' = store ++ [Activities.emission_record reply])).
Proof.
  unfold Activities.log_activity, Activities.log_activity_try. cbv zeta.
  match goal with
  | |- context [match ?fields with Exn.Returned _ => _ | Exn.Raised _ => _ end] =>
      destruct fields as [[[[category subtype] amount] unit] | e]
  end; [| discriminate].
  destruct (Climatiq.calculate_emissions api category subtype amount unit)
    as [emission_result | e]; [| discriminate].
  set (d := {| Activities.rd_user_id := "user_001";
               Activities.rd_activity_category := category;
               Activities.rd_activity_subtype := subtype;
               Activities.rd_amount := amount;
               Activities.rd_unit := unit;
               Activities.rd_co2e_kg := Climatiq.co2e_kg emission_result;
               Activities.rd_date := default now (Schemas.date activity) |}).
  intros Heq. exists d. split; [reflexivity |]. split; [reflexivity |].
  destruct db as [database |].
  - destruct (Activities.execute_insert_returning database d) as [row |] eqn:Einsert.
    + injection Heq as <- <-. left. by exists database.
    + injection Heq as <- <-. right. split; [| by split].
      right. by exists database.
  - injection Heq as <- <-. right. split; [by left | by split].
Qed.

(** X22.  A successful [log_activity] either got its record from the
    database and left the in-memory list alone, or (with no database, or an
    insert that returned nothing) appended exactly one record to the end of
    the list and returned that record, with id "act_<old length>"; the
    record is for user "user_001" and dated as requested, or [now] when the
    request has no date. *)
Theorem log_activity_stores_one_record `{Parse.Decoder} `{Format2f}
    (g : Gemini.collaborator) (api : Climatiq.api) (db : option Activities.database)
    (now created : Z) (store store' : list Activities.record)
    (activity : Schemas.ActivityLogRequest) (reply : Activities.logged) :
  Activities.log_activity g api db now created store activity
  = (Exn.Returned reply, store') ->
  exists d : Activities.record_data,
    Activities.rd_user_id d = "user_001"%string
    /\ Activities.rd_date d = default now (Schemas.date activity)
    /\ ((exists database,
           db = Some database
           /\ Activities.execute_insert_returning database d
              = Some (Activities.emission_record reply)
           /\ store' = store)
        \/ ((db = None
             \/ exists database,
                  db = Some database
                  /\ Activities.execute_insert_returning database d = None)
            /\ Activities.emission_record reply
               = Activities.fallback_record store d created
            /\ store' = store ++ [Activities.emission_record reply])).
Proof. apply log_activity_success_cases. Qed.

Lemma log_activity_stores_one_record_witness :
  exists (reply : Activities.logged) (store' : list Activities.record),
    @Activities.log_activity Demo.decoder Demo.format2 Sample.offline Demo.silent_api
      None 0 1 [] (Demo.car_trip 10)
    = (Exn.Returned reply, store')
    /\ store' = [Activities.emission_record reply]
    /\ Activities.id (Activities.emission_record reply) = "act_0"%string
    /\ Activities.co2e_kg (Activities.emission_record reply) == 4.11.
Proof.
  eexists _, _. split; [reflexivity |].
  destruct (@log_activity_stores_one_record Demo.decoder Demo.format2 Sample.offline
              Demo.silent_api None 0 1 [] _ (Demo.car_trip 10) _ eq_refl)
    as (d & _ & _ & _).
  split; [reflexivity |]. split; [reflexivity |]. vm_compute. reflexivity.
Defined.

Lemma log_activity_failure_store `{Parse.Decoder} `{Format2f}
    (g : Gemini.collaborator) (api : Climatiq.api) (db : option Activities.database)
    (now created : Z) (store store' : list Activities.record)
    (activity : Schemas.ActivityLogRequest) (e : Exn.exn) :
  Activities.log_activity g api db now created store activity = (Exn.Raised e, store') ->
  store' = store.
Proof.
  unfold Activities.log_activity.
  destruct (Activities.log_activity_try _ _ _ _ _ _ _) as [[reply s] | e'];
    intros [= _ <-]; reflexivity.
Qed.

Lemma fallback_ids_S (n : nat) :
  Activities.fallback_ids (S n)
  = Activities.fallback_ids n ++ ["act_" +:+ pretty n].
Proof. unfold Activities.fallback_ids. by rewrite seq_S, map_app. Qed.

Lemma fallback_ids_NoDup (n : nat) : NoDup (Activities.fallback_ids n).
Proof.
  unfold Activities.fallback_ids.
  assert (Hinj : Inj (=) (=) (fun i : nat => "act_" +:+ pretty i)).
  { intros i j Heq. simpl in Heq. injection Heq as Heq. by apply pretty_nat_inj in Heq. }
  apply (NoDup_fmap_2 _), NoDup_ListNoDup, seq_NoDup.
Qed.

(** X23.  If the ids of the in-memory list are "act_0", "act_1", ... in
    order, they still are after any call of [log_activity], successful or
    not; in particular they stay pairwise distinct. *)
Theorem fallback_ids_stay_sequential `{Parse.Decoder} `{Format2f}
    (g : Gemini.collaborator) (api : Climatiq.api) (db : option Activities.database)
    (now created : Z) (store : list Activities.record)
    (activity : Schemas.ActivityLogRequest) :
  map Activities.id store = Activities.fallback_ids (length store) ->
  let store' := (Activities.log_activity g api db now created store activity).2 in
  map Activities.id store' = Activities.fallback_ids (length store')
  /\ NoDup (map Activities.id store').
Proof.
  intros Hids store'.
  assert (Hseq : map Activities.id store' = Activities.fallback_ids (length store')).
  { unfold store'.
    destruct (Activities.log_activity g api db now created store activity)
      as [[reply | e] s] eqn:Hlog; cbn [snd].
    - apply log_activity_success_cases in Hlog
        as (d & _ & _ & [(database & _ & _ & ->) | (_ & Hrec & ->)]); [exact Hids |].
      rewrite map_app, length_app, Hids, Hrec. cbn [length map Activities.id
        Activities.fallback_record].
      by rewrite Nat.add_1_r, fallback_ids_S.
    - apply log_activity_failure_store in Hlog as ->. exact Hids. }
  split; [exact Hseq |]. rewrite Hseq. apply fallback_ids_NoDup.
Qed.

Lemma fallback_ids_stay_sequential_witness :
  map Activities.id ([] : list Activities.record) = Activities.fallback_ids (length ([] : list Activities.record))
  /\ NoDup (map Activities.id
              (@Activities.log_activity Demo.decoder Demo.format2 Sample.offline
                 Demo.silent_api None 0 1 [] (Demo.car_trip 10)).2).
Proof.
  split; [reflexivity |].
  exact (proj2 (@fallback_ids_stay_sequential Demo.decoder Demo.format2 Sample.offline
                  Demo.silent_api None 0 1 [] (Demo.car_trip 10) eq_refl)).
Defined.

(** X24.  Without a database, the history is a suffix of the in-memory
    list and [total] is its length.  For a positive [limit] it holds the
    last [limit] records (all of them when there are fewer); for [limit = 0]
    it holds every record, not none; for a negative [limit] it drops the
    first [-limit] records. *)
Theorem history_is_a_suffix (store : list Activities.record) (limit : Z) :
  let h := Activities.get_activity_history None store limit in
  Activities.total h = Z.of_nat (length store)
  /\ suffix (Activities.activities h) store
  /\ length (Activities.activities h)
     = (if (0 <? limit)%Z then Nat.min (Z.to_nat limit) (length store)
        else length store - Z.to_nat (- limit))%nat
  /\ Activities.activities (Activities.get_activity_history None store 0) = store.
Proof.
  intros h. unfold h, Activities.get_activity_history, PyStr.last_slice.
  cbn [Activities.total Activities.activities].
  split; [reflexivity |]. split; [| split; [| reflexivity]].
  - destruct (0 <? limit)%Z; apply suffix_drop.
  - destruct (0 <? limit)%Z; rewrite length_skipn; lia.
Qed.

(** X25.  Log, then read back: after a successful [log_activity] without a
    database, the history (for any [limit >= 1]) ends with the record that
    was returned, and [total] has grown by one. *)
Theorem logged_record_is_latest `{Parse.Decoder} `{Format2f}
    (g : Gemini.collaborator) (api : Climatiq.api)
    (now created : Z) (store store' : list Activities.record)
    (activity : Schemas.ActivityLogRequest) (reply : Activities.logged) (limit : Z) :
  Activities.log_activity g api None now created store activity
  = (Exn.Returned reply, store') ->
  (1 <= limit)%Z ->
  let h := Activities.get_activity_history None store' limit in
  last (Activities.activities h) = Some (Activities.emission_record reply)
  /\ Activities.total h = (Z.of_nat (length store) + 1)%Z
  /\ Activities.get_activities None store' = store ++ [Activities.emission_record reply].
Proof.
  intros Hlog Hlimit h.
  apply log_activity_success_cases in Hlog
    as (d & _ & _ & [(database & Hdb & _) | (_ & _ & ->)]); [discriminate Hdb |].
  unfold h, Activities.get_activity_history, PyStr.last_slice.
  cbn [Activities.total Activities.activities Activities.get_activities].
  assert (Hpos : (0 <? limit)%Z = true) by (apply Z.ltb_lt; lia).
  rewrite Hpos, length_app. cbn [length].
  split; [| split; [lia | reflexivity]].
  assert (Hsplit : (length store + 1 - Z.to_nat limit
                    = length store - (Z.to_nat limit - 1))%nat) by lia.
  rewrite Hsplit.
  change (@List.skipn) with (@drop).
  rewrite drop_app_le by lia. apply last_snoc.
Qed.

Lemma logged_record_is_latest_witness :
  exists (reply : Activities.logged) (store' : list Activities.record),
    @Activities.log_activity Demo.decoder Demo.format2 Sample.offline Demo.silent_api
      None 0 1 [] (Demo.car_trip 10)
    = (Exn.Returned reply, store')
    /\ (1 <= 50)%Z
    /\ last (Activities.activities (Activities.get_activity_history None store' 50))
       = Some (Activities.emission_record reply).
Proof.
  eexists _, _. split; [reflexivity |].
  assert (Hlimit : (1 <= 50)%Z) by lia.
  split; [exact Hlimit |].
  exact (proj1 (@logged_record_is_latest Demo.decoder Demo.format2 Sample.offline
                  Demo.silent_api 0 1 [] _ (Demo.car_trip 10) _ 50 eq_refl Hlimit)).
Defined.

(* ===================================================================== *)
(** ** The clean-up of a parsed answer *)
(* ===================================================================== *)

Lemma string_app_cons (x : ascii) (a b : string) :
  String x a +:+ b = String x (a +:+ b).
Proof. reflexivity. Qed.

Lemma string_app_assoc (a b c : string) : (a +:+ b) +:+ c = a +:+ (b +:+ c).
Proof.
  induction a as [| x a IH]; [reflexivity |].
  by rewrite !string_app_cons, IH.
Qed.

Lemma string_length_app (a b : string) :
  String.length (a +:+ b) = (String.length a + String.length b)%nat.
Proof.
  induction a as [| x a IH]; [reflexivity |].
  rewrite string_app_cons. cbn [String.length]. by rewrite IH.
Qed.

Lemma drop_length_app (a b : string) : PyStr.drop (String.length a) (a +:+ b) = b.
Proof.
  induction a as [| x a IH]; [by destruct b |].
  rewrite string_app_cons. exact IH.
Qed.

Lemma take_length_app (a b : string) : PyStr.take (String.length a) (a +:+ b) = a.
Proof.
  induction a as [| x a IH]; [by destruct b |].
  rewrite string_app_cons. cbn [String.length PyStr.take]. by rewrite IH.
Qed.

Lemma is_space_char_length (s : string) :
  Py.is_space_char s = true -> (String.length s <= 3)%nat.
Proof.
  destruct s as [| c1 [| c2 [| c3 [| c4 s]]]]; cbn [String.length]; try lia.
  discriminate.
Qed.

Lemma rstrip_app_fence (s : string) : Py.rstrip (s +:+ Parse.fence) = s +:+ Parse.fence.
Proof.
  induction s as [| c s IH]; [reflexivity |].
  rewrite string_app_cons.
  cbn [Py.rstrip]. cbv zeta. rewrite IH.
  destruct (Py.is_space_char (String c (s +:+ Parse.fence))) eqn:E; [| reflexivity].
  apply is_space_char_length in E. cbn [String.length] in E.
  rewrite string_length_app in E. change (String.length Parse.fence) with 3%nat in E. lia.
Qed.

Lemma endswith_app_fence (s : string) :
  PyStr.endswith Parse.fence (s +:+ Parse.fence) = true
  /\ PyStr.drop_end 3 (s +:+ Parse.fence) = s.
Proof.
  unfold PyStr.endswith, PyStr.drop_end. rewrite string_length_app.
  change (String.length Parse.fence) with 3%nat.
  replace (String.length s + 3 - 3)%nat with (String.length s) by lia.
  rewrite drop_length_app, take_length_app. split; [| reflexivity].
  apply andb_true_iff. split; [apply Nat.leb_le; lia | reflexivity].
Qed.

Lemma prefix_nil (s : string) : String.prefix "" s = true.
Proof. by destruct s. Qed.

Lemma startswith_app (p q s : string) :
  PyStr.startswith (p +:+ q) (p +:+ s) = PyStr.startswith q s.
Proof.
  unfold PyStr.startswith. induction p as [| c p IH]; [reflexivity |].
  rewrite !string_app_cons. cbn [String.prefix].
  destruct (ascii_dec c c); [exact IH | done].
Qed.

(** X26.  An answer wrapped in a markdown code fence, with or without the
    "json" tag, is reduced to its stripped body before it is decoded. *)
Theorem fenced_answer_is_unwrapped (body : string) :
  PyStr.startswith Parse.fence (body +:+ Parse.fence) = false ->
  PyStr.startswith "json" (body +:+ Parse.fence) = false ->
  Parse.clean_response (Parse.fence_json +:+ body +:+ Parse.fence) = Py.strip body
  /\ Parse.clean_response (Parse.fence +:+ body +:+ Parse.fence) = Py.strip body.
Proof.
  intros Hfence Hjson.
  destruct (endswith_app_fence body) as [Hends Hcut].
  assert (Hstrip : forall opening : string,
            Py.lstrip (opening +:+ body +:+ Parse.fence) = opening +:+ body +:+ Parse.fence ->
            Py.strip (opening +:+ body +:+ Parse.fence) = opening +:+ body +:+ Parse.fence).
  { intros opening Hl. unfold Py.strip. rewrite Hl.
    by rewrite <- string_app_assoc, rstrip_app_fence. }
  assert (Hopen_json :
    PyStr.startswith Parse.fence_json (Parse.fence_json +:+ body +:+ Parse.fence) = true).
  { change Parse.fence_json with (Parse.fence_json +:+ "") at 1.
    rewrite startswith_app. apply prefix_nil. }
  assert (Hopen :
    PyStr.startswith Parse.fence (Parse.fence +:+ body +:+ Parse.fence) = true).
  { change Parse.fence with (Parse.fence +:+ "") at 1.
    rewrite startswith_app. apply prefix_nil. }
  assert (Hnot :
    PyStr.startswith Parse.fence_json (Parse.fence +:+ body +:+ Parse.fence) = false).
  { change Parse.fence_json with (Parse.fence +:+ "json").
    by rewrite startswith_app. }
  assert (Hdrop7 : PyStr.drop 7 (Parse.fence_json +:+ body +:+ Parse.fence)
                   = body +:+ Parse.fence)
    by apply (drop_length_app Parse.fence_json).
  assert (Hdrop3 : PyStr.drop 3 (Parse.fence +:+ body +:+ Parse.fence)
                   = body +:+ Parse.fence)
    by apply (drop_length_app Parse.fence).
  split.
  - unfold Parse.clean_response. cbv zeta.
    rewrite (Hstrip Parse.fence_json) by reflexivity.
    by rewrite Hopen_json, Hdrop7, Hfence, Hends, Hcut.
  - unfold Parse.clean_response. cbv zeta.
    rewrite (Hstrip Parse.fence) by reflexivity.
    by rewrite Hnot, Hopen, Hdrop3, Hends, Hcut.
Qed.

Lemma fenced_answer_is_unwrapped_witness :
  PyStr.startswith Parse.fence (Demo.nbsp +:+ "{} " +:+ Parse.fence) = false
  /\ PyStr.startswith "json" (Demo.nbsp +:+ "{} " +:+ Parse.fence) = false
  /\ Parse.clean_response (Parse.fence_json +:+ (Demo.nbsp +:+ "{} ") +:+ Parse.fence)
     = "{}"%string.
Proof.
  split; [reflexivity |]. split; [reflexivity |].
  exact (proj1 (fenced_answer_is_unwrapped (Demo.nbsp +:+ "{} ") eq_refl eq_refl)).
Defined.

Lemma rstrip_idempotent (s : string) : Py.rstrip (Py.rstrip s) = Py.rstrip s.
Proof.
  induction s as [| c s IH]; [reflexivity |].
  cbn [Py.rstrip]. cbv zeta.
  destruct (Py.is_space_char (String c (Py.rstrip s))) eqn:E; [reflexivity |].
  cbn [Py.rstrip]. cbv zeta. by rewrite IH, E.
Qed.

(** What [rstrip] returns is the start of its argument. *)
Lemma rstrip_prefix (s : string) : exists u : string, s = Py.rstrip s +:+ u.
Proof.
  induction s as [| c s [u IH]]; [by exists ""%string |].
  cbn [Py.rstrip]. cbv zeta.
  destruct (Py.is_space_char (String c (Py.rstrip s))).
  - by exists (String c s).
  - exists u. rewrite string_app_cons. by rewrite <- IH.
Qed.

Lemma leading_space_prefix (p u : string) :
  PyStr.leading_space (p +:+ u) = false -> PyStr.leading_space p = false.
Proof.
  destruct p as [| c1 [| c2 [| c3 p]]]; [reflexivity | | |].
  - rewrite string_app_cons. cbn [PyStr.leading_space].
    intros H. apply orb_false_iff in H as [-> _]. reflexivity.
  - rewrite !string_app_cons. cbn [PyStr.leading_space].
    intros H. apply orb_false_iff in H as [-> H].
    apply orb_false_iff in H as [-> _]. reflexivity.
  - rewrite !string_app_cons. cbn [PyStr.leading_space]. done.
Qed.

Lemma lstrip_fixed (s : string) : PyStr.leading_space s = false -> Py.lstrip s = s.
Proof.
  destruct s as [| c1 [| c2 [| c3 s]]]; [reflexivity | | |]; cbn [PyStr.leading_space].
  - intros H. apply orb_false_iff in H as [H _]. cbn [Py.lstrip]. by rewrite H.
  - intros H. apply orb_false_iff in H as [H1 H]. apply orb_false_iff in H as [H2 _].
    cbn [Py.lstrip]. by rewrite H1, H2.
  - intros H. apply orb_false_iff in H as [H1 H]. apply orb_false_iff in H as [H2 H3].
    cbn [Py.lstrip]. by rewrite H1, H2, H3.
Qed.

(** What [lstrip] returns does not start with white space. *)
Lemma lstrip_no_leading_space (s : string) : PyStr.leading_space (Py.lstrip s) = false.
Proof.
  assert (Hlen : forall (n : nat) (t : string),
            (String.length t <= n)%nat -> PyStr.leading_space (Py.lstrip t) = false).
  { induction n as [| n IH]; intros t Ht.
    - destruct t; [reflexivity | cbn [String.length] in Ht; lia].
    - destruct t as [| c1 s1]; [reflexivity |].
      cbn [String.length] in Ht. cbn [Py.lstrip].
      destruct (Py.is_space c1) eqn:E1; [apply IH; lia |].
      destruct s1 as [| c2 s2]; [cbn [PyStr.leading_space]; by rewrite E1 |].
      cbn [String.length] in Ht.
      destruct (Py.is_space_char (String c1 (String c2 ""))) eqn:E2; [apply IH; lia |].
      destruct s2 as [| c3 s3]; [cbn [PyStr.leading_space]; by rewrite E1, E2 |].
      cbn [String.length] in Ht.
      destruct (Py.is_space_char (String c1 (String c2 (String c3 "")))) eqn:E3;
        [apply IH; lia |].
      cbn [PyStr.leading_space]. by rewrite E1, E2, E3. }
  by apply (Hlen (String.length s)).
Qed.

Lemma strip_idempotent (s : string) : Py.strip (Py.strip s) = Py.strip s.
Proof.
  unfold Py.strip.
  pose proof (lstrip_no_leading_space s) as Hhead.
  destruct (rstrip_prefix (Py.lstrip s)) as [u Hu].
  rewrite Hu in Hhead. apply leading_space_prefix in Hhead.
  by rewrite (lstrip_fixed _ Hhead), rstrip_idempotent.
Qed.

Lemma startswith_weaken (p q s : string) :
  PyStr.startswith p s = false -> PyStr.startswith (p +:+ q) s = false.
Proof.
  unfold PyStr.startswith. revert s. induction p as [| c p IH]; intros s.
  - by rewrite prefix_nil.
  - rewrite string_app_cons. destruct s as [| d s]; [reflexivity |].
    cbn [String.prefix]. destruct (ascii_dec c d); [apply IH | reflexivity].
Qed.

(** X27.  An answer that, once stripped, neither starts nor ends with a
    code fence is decoded as it is, stripped of surrounding whitespace. *)
Theorem unfenced_answer_is_stripped (response_text : string) :
  PyStr.startswith Parse.fence (Py.strip response_text) = false ->
  PyStr.endswith Parse.fence (Py.strip response_text) = false ->
  Parse.clean_response response_text = Py.strip response_text.
Proof.
  intros Hstart Hend. unfold Parse.clean_response. cbv zeta.
  assert (Hjson : PyStr.startswith Parse.fence_json (Py.strip response_text) = false)
    by apply (startswith_weaken Parse.fence "json" _ Hstart).
  rewrite Hjson, Hstart, Hend. apply strip_idempotent.
Qed.

Lemma unfenced_answer_is_stripped_witness :
  PyStr.startswith Parse.fence (Py.strip (Demo.nbsp +:+ "{} ")) = false
  /\ PyStr.endswith Parse.fence (Py.strip (Demo.nbsp +:+ "{} ")) = false
  /\ Parse.clean_response (Demo.nbsp +:+ "{} ") = "{}"%string.
Proof.
  split; [reflexivity |]. split; [reflexivity |].
  exact (unfenced_answer_is_stripped (Demo.nbsp +:+ "{} ") eq_refl eq_refl).
Defined.

(* ===================================================================== *)
(** ** From the log to the features *)
(* ===================================================================== *)

(** X28.  A first activity logged as a structured transportation request
    in miles, without a database, is what the recommendation handler
    aggregates for the next 30 days: the daily miles are the logged miles
    over 30, the transport emissions are the logged CO2e scaled by 365/30,
    and the food and energy emissions are zero.  [now] is the clock reading
    that dates the record, read as UTC by the recommendation handler, and
    [later] is that handler's own clock. *)
Theorem logged_trip_reaches_features `{Parse.Decoder} `{Format2f}
    (g : Gemini.collaborator) (api : Climatiq.api) (now created later : Z)
    (subtype : string) (miles : Q)
    (reply : Activities.logged) (store' : list Activities.record) :
  Activities.log_activity g api None now created []
    {| Schemas.text := None;
       Schemas.category := Some "transportation"%string;
       Schemas.subtype := Some subtype;
       Schemas.amount := Some miles;
       Schemas.unit := Some "miles"%string;
       Schemas.date := None |}
  = (Exn.Returned reply, store') ->
  (later - Router.timedelta_days 30 <= now)%Z ->
  let data :=
    Router.user_emission_data later
      (map Activities.as_activity (Activities.get_activities None store')) in
  Service.get data "daily_miles_driven" 0 == miles / 30
  /\ Service.get data "transport_emissions_kg" 0
     == Activities.co2e_kg (Activities.emission_record reply) * 365 / 30
  /\ Service.get data "food_emissions_kg" 0 == 0
  /\ Service.get data "energy_emissions_kg" 0 == 0.
Proof.
  unfold Activities.log_activity, Activities.log_activity_try. cbv zeta.
  cbn [Schemas.text Schemas.category Schemas.subtype Schemas.amount Schemas.unit
       Schemas.date Activities.truthy_str Activities.truthy_num andb default].
  destruct subtype as [| c subtype]; [discriminate |].
  destruct (Qeq_bool miles 0); [discriminate |]. cbn [negb andb].
  destruct (Climatiq.calculate_emissions api _ _ _ _) as [r | e]; [| discriminate].
  cbn [fst snd app id]. intros [= <- <-] Hwindow.
  assert (Hrecent : (later - Router.timedelta_days 30 <=? now)%Z = true)
    by (by apply Z.leb_le).
  unfold Router.user_emission_data, Router.recent_activities, Router.aggregate.
  cbn [Activities.get_activities map List.filter Activities.as_activity
       Activities.fallback_record Activities.date Router.is_recent Router.date
       Activities.rd_date default].
  rewrite Hrecent. cbn [fold_left].
  destruct (emission_data_lookups
              (Router.accumulate Router.zero_totals
                 (Activities.as_activity
                    (Activities.fallback_record []
                       {| Activities.rd_user_id := "user_001";
                          Activities.rd_activity_category := "transportation";
                          Activities.rd_activity_subtype := String c subtype;
                          Activities.rd_amount := miles;
                          Activities.rd_unit := "miles";
                          Activities.rd_co2e_kg := Climatiq.co2e_kg r;
                          Activities.rd_date := now |} created))))
    as (Hm & _ & _ & _ & _ & Ht & Hf & He).
  cbn [Activities.as_activity Activities.fallback_record Activities.date
       Activities.activity_category Activities.co2e_kg Activities.unit
       Activities.activity_subtype Activities.amount Activities.rd_date
       Activities.rd_activity_category Activities.rd_co2e_kg Activities.rd_unit
       Activities.rd_activity_subtype Activities.rd_amount] in Hm, Ht, Hf, He |- *.
  rewrite Hm, Ht, Hf, He.
  cbn [Activities.emission_record].
  rewrite accumulate_daily_miles, accumulate_transport_emissions,
    accumulate_food_emissions, accumulate_energy_emissions.
  unfold Tally.distance_of, Tally.emissions_in, Tally.category_is, Tally.unit_of,
    Activities.as_activity, Activities.fallback_record.
  cbn [Router.activity_category Router.unit Router.amount Router.co2e_kg default id
       Activities.activity_category Activities.co2e_kg Activities.unit
       Activities.amount Activities.rd_activity_category Activities.rd_co2e_kg
       Activities.rd_unit Activities.rd_amount].
  change (String.eqb "transportation" "transportation") with true.
  change (String.eqb "transportation" "food") with false.
  change (String.eqb "transportation" "energy") with false.
  change (Py.in_list (Py.lower "miles") ["miles"; "km"]%string) with true.
  cbn [andb Router.zero_totals Router.daily_miles Router.transport_emissions
       Router.food_emissions Router.energy_emissions].
  repeat split; field.
Qed.

Lemma logged_trip_reaches_features_witness :
  exists (reply : Activities.logged) (store' : list Activities.record),
    @Activities.log_activity Demo.decoder Demo.format2 Sample.offline Demo.silent_api
      None 0 1 []
      {| Schemas.text := None;
         Schemas.category := Some "transportation"%string;
         Schemas.subtype := Some "car"%string;
         Schemas.amount := Some 60;
         Schemas.unit := Some "miles"%string;
         Schemas.date := None |}
    = (Exn.Returned reply, store')
    /\ (Router.timedelta_days 10 - Router.timedelta_days 30 <= 0)%Z
    /\ Service.get
         (Router.user_emission_data (Router.timedelta_days 10)
            (map Activities.as_activity (Activities.get_activities None store')))
         "daily_miles_driven" 0 == 60 / 30.
Proof.
  eexists _, _. split; [reflexivity |].
  assert (Hwindow : (Router.timedelta_days 10 - Router.timedelta_days 30 <= 0)%Z)
    by (vm_compute; discriminate).
  split; [exact Hwindow |].
  exact (proj1 (@logged_trip_reaches_features Demo.decoder Demo.format2 Sample.offline
                  Demo.silent_api 0 1 (Router.timedelta_days 10) "car" 60 _ _
                  eq_refl Hwindow)).
Defined.

(* ===================================================================== *)
(** ** The emission summary *)
(* ===================================================================== *)

Lemma breakdown_lookup (acts : list Emissions.activity) :
  forall (m : gmap string Q) (c : string),
    fold_left Emissions.add_category acts m !! c
    = match List.filter (Emissions.in_category c) acts with
      | [] => m !! c
      | l => Some (fold_left (fun total act => total + Emissions.co2e_of act) l
                     (default 0 (m !! c)))
      end.
Proof.
  induction acts as [| a acts IH]; intros m c; [reflexivity |].
  cbn [fold_left List.filter]. rewrite IH. unfold Emissions.add_category.
  destruct (Emissions.in_category c a) eqn:Hc; unfold Emissions.in_category in Hc.
  - apply String.eqb_eq in Hc. rewrite Hc, lookup_insert_eq.
    cbn [default fold_left id].
    by destruct (List.filter _ acts).
  - apply String.eqb_neq in Hc. by rewrite lookup_insert_ne.
Qed.

Lemma filter_nil_existsb {A} (p : A -> bool) (l : list A) :
  existsb p l = match List.filter p l with [] => false | _ => true end.
Proof.
  induction l as [| a l IH]; [reflexivity |]. cbn [existsb List.filter].
  destruct (p a); [reflexivity | exact IH].
Qed.

Lemma breakdown_of_category (all_activities : list Emissions.activity) (c : string) :
  Emissions.category_breakdown_of all_activities !! c
  = if existsb (Emissions.in_category c) all_activities
    then Some (Emissions.sum_co2e
                 (List.filter (Emissions.in_category c) all_activities))
    else None.
Proof.
  unfold Emissions.category_breakdown_of.
  rewrite breakdown_lookup, filter_nil_existsb. unfold Emissions.sum_co2e.
  by destruct (List.filter _ all_activities).
Qed.

(** The running minimum: it is returned when every later date is of the
    kind of the first, and is then a date of the list that none is below;
    otherwise the comparison of a naive with an aware date raises. *)
Lemma min_from_cases (rest : list Emissions.datetime) :
  forall best : Emissions.datetime,
    match Emissions.min_from best rest with
    | Exn.Returned m =>
        Forall (fun d => Emissions.aware d = Emissions.aware best) rest
        /\ m ∈ best :: rest
        /\ forall d, d ∈ best :: rest -> (Emissions.instant m <= Emissions.instant d)%Z
    | Exn.Raised e =>
        e = Emissions.mixed
        /\ Exists (fun d => Emissions.aware d <> Emissions.aware best) rest
    end.
Proof.
  induction rest as [| d rest IH]; intros best.
  - cbn [Emissions.min_from]. split; [constructor |]. split; [apply list_elem_of_here |].
    intros d Hd. apply list_elem_of_singleton in Hd as ->. lia.
  - cbn [Emissions.min_from].
    destruct d as [x | x ox], best as [y | y oy]; cbn [Emissions.lt];
      try (split; [reflexivity | by left]).
    + specialize (IH (if (x <? y)%Z then Emissions.Naive x else Emissions.Naive y)).
      destruct (Emissions.min_from _ rest) as [m | e].
      * destruct IH as (Hall & Hin & Hlow). split; [| split].
        -- constructor; [reflexivity |]. by destruct (x <? y)%Z.
        -- apply elem_of_cons in Hin as [-> | Hin].
           ++ destruct (x <? y)%Z; set_solver.
           ++ set_solver.
        -- assert (Hbest : (Emissions.instant m <= x)%Z /\ (Emissions.instant m <= y)%Z).
           { specialize (Hlow _ (list_elem_of_here _ _)).
             destruct (Z.ltb_spec x y); cbn [Emissions.instant] in Hlow; lia. }
           intros d Hd. apply elem_of_cons in Hd as [-> | Hd]; [by destruct Hbest |].
           apply elem_of_cons in Hd as [-> | Hd]; [by destruct Hbest |].
           apply Hlow. by right.
      * destruct IH as [-> Hex]. split; [reflexivity |]. right.
        by destruct (x <? y)%Z.
    + specialize (IH (if (x <? y)%Z then Emissions.Aware x ox else Emissions.Aware y oy)).
      destruct (Emissions.min_from _ rest) as [m | e].
      * destruct IH as (Hall & Hin & Hlow). split; [| split].
        -- constructor; [reflexivity |]. by destruct (x <? y)%Z.
        -- apply elem_of_cons in Hin as [-> | Hin].
           ++ destruct (x <? y)%Z; set_solver.
           ++ set_solver.
        -- assert (Hbest : (Emissions.instant m <= x)%Z /\ (Emissions.instant m <= y)%Z).
           { specialize (Hlow _ (list_elem_of_here _ _)).
             destruct (Z.ltb_spec x y); cbn [Emissions.instant] in Hlow; lia. }
           intros d Hd. apply elem_of_cons in Hd as [-> | Hd]; [by destruct Hbest |].
           apply elem_of_cons in Hd as [-> | Hd]; [by destruct Hbest |].
           apply Hlow. by right.
      * destruct IH as [-> Hex]. split; [reflexivity |]. right.
        by destruct (x <? y)%Z.
Qed.

Lemma max_from_cases (rest : list Emissions.datetime) :
  forall best : Emissions.datetime,
    match Emissions.max_from best rest with
    | Exn.Returned m =>
        Forall (fun d => Emissions.aware d = Emissions.aware best) rest
        /\ m ∈ best :: rest
        /\ forall d, d ∈ best :: rest -> (Emissions.instant d <= Emissions.instant m)%Z
    | Exn.Raised e =>
        e = Emissions.mixed
        /\ Exists (fun d => Emissions.aware d <> Emissions.aware best) rest
    end.
Proof.
  induction rest as [| d rest IH]; intros best.
  - cbn [Emissions.max_from]. split; [constructor |]. split; [apply list_elem_of_here |].
    intros d Hd. apply list_elem_of_singleton in Hd as ->. lia.
  - cbn [Emissions.max_from].
    destruct d as [x | x ox], best as [y | y oy]; cbn [Emissions.lt];
      try (split; [reflexivity | by left]).
    + specialize (IH (if (y <? x)%Z then Emissions.Naive x else Emissions.Naive y)).
      destruct (Emissions.max_from _ rest) as [m | e].
      * destruct IH as (Hall & Hin & Hhigh). split; [| split].
        -- constructor; [reflexivity |]. by destruct (y <? x)%Z.
        -- apply elem_of_cons in Hin as [-> | Hin].
           ++ destruct (y <? x)%Z; set_solver.
           ++ set_solver.
        -- assert (Hbest : (x <= Emissions.instant m)%Z /\ (y <= Emissions.instant m)%Z).
           { specialize (Hhigh _ (list_elem_of_here _ _)).
             destruct (Z.ltb_spec y x); cbn [Emissions.instant] in Hhigh; lia. }
           intros d Hd. apply elem_of_cons in Hd as [-> | Hd]; [by destruct Hbest |].
           apply elem_of_cons in Hd as [-> | Hd]; [by destruct Hbest |].
           apply Hhigh. by right.
      * destruct IH as [-> Hex]. split; [reflexivity |]. right.
        by destruct (y <? x)%Z.
    + specialize (IH (if (y <? x)%Z then Emissions.Aware x ox else Emissions.Aware y oy)).
      destruct (Emissions.max_from _ rest) as [m | e].
      * destruct IH as (Hall & Hin & Hhigh). split; [| split].
        -- constructor; [reflexivity |]. by destruct (y <? x)%Z.
        -- apply elem_of_cons in Hin as [-> | Hin].
           ++ destruct (y <? x)%Z; set_solver.
           ++ set_solver.
        -- assert (Hbest : (x <= Emissions.instant m)%Z /\ (y <= Emissions.instant m)%Z).
           { specialize (Hhigh _ (list_elem_of_here _ _)).
             destruct (Z.ltb_spec y x); cbn [Emissions.instant] in Hhigh; lia. }
           intros d Hd. apply elem_of_cons in Hd as [-> | Hd]; [by destruct Hbest |].
           apply elem_of_cons in Hd as [-> | Hd]; [by destruct Hbest |].
           apply Hhigh. by right.
      * destruct IH as [-> Hex]. split; [reflexivity |]. right.
        by destruct (y <? x)%Z.
Qed.

(** The summary as a whole: it raises exactly when its dates are of two
    kinds. *)
Lemma summary_cases (all_activities : list Emissions.activity) :
  let dates := Emissions.dates_of all_activities in
  match Emissions.get_emissions_summary all_activities with
  | Exn.Raised e =>
      e = Emissions.mixed
      /\ (exists d, d ∈ dates /\ Emissions.aware d = false)
      /\ (exists d, d ∈ dates /\ Emissions.aware d = true)
  | Exn.Returned s =>
      Emissions.category_breakdown s = Emissions.category_breakdown_of all_activities
      /\ Emissions.total_emissions_kg s = Emissions.sum_co2e all_activities
      /\ Emissions.total_activities s = length all_activities
      /\ (exists kind, Forall (fun d => Emissions.aware d = kind) dates)
      /\ match Emissions.date_range s with
         | None => dates = []
         | Some (earliest, latest) =>
             earliest ∈ dates /\ latest ∈ dates
             /\ forall d, d ∈ dates ->
                  (Emissions.instant earliest <= Emissions.instant d
                   <= Emissions.instant latest)%Z
         end
  end.
Proof.
  intros dates. unfold Emissions.get_emissions_summary.
  destruct all_activities as [| a acts].
  - cbn. repeat split. exists true. constructor.
  - set (all := a :: acts) in *. cbv zeta. fold dates.
    destruct dates as [| d ds] eqn:Hdates.
    + cbn. repeat split. exists true. constructor.
    + pose proof (min_from_cases ds d) as Hmin.
      pose proof (max_from_cases ds d) as Hmax.
      destruct (Emissions.min_from d ds) as [earliest | e].
      * destruct Hmin as (Hkind & Hein & Hlow).
        destruct (Emissions.max_from d ds) as [latest | e].
        -- destruct Hmax as (_ & Hlin & Hhigh).
           cbn [Emissions.category_breakdown Emissions.total_emissions_kg
                Emissions.total_activities Emissions.date_range].
           do 3 (split; [reflexivity |]). split.
           ++ exists (Emissions.aware d). by constructor.
           ++ split; [exact Hein |]. split; [exact Hlin |].
              intros x Hx. split; [by apply Hlow | by apply Hhigh].
        -- destruct Hmax as [_ Hex]. apply Exists_exists in Hex as (x & Hx & Hne).
           rewrite Forall_forall in Hkind. by specialize (Hkind x Hx).
      * destruct Hmin as [-> Hex]. split; [reflexivity |].
        apply Exists_exists in Hex as (x & Hx & Hne).
        destruct (Emissions.aware d) eqn:Ed, (Emissions.aware x) eqn:Ex; try done.
        -- split; [exists x | exists d]; set_solver.
        -- split; [exists d | exists x]; set_solver.
Qed.

(** X29.  When the emission summary is returned, a category's entry of the
    breakdown is the sum, in the order of the activities, of the CO2e of
    the activities of that category (an activity without a category counts
    as "unknown"), and a category that no activity has is absent; the
    summary is not returned only when the comparison of a naive with an
    aware date raises [TypeError]. *)
Theorem breakdown_sums_by_category (all_activities : list Emissions.activity)
    (c : string) :
  match Emissions.get_emissions_summary all_activities with
  | Exn.Returned s =>
      Emissions.category_breakdown s !! c
      = if existsb (Emissions.in_category c) all_activities
        then Some (Emissions.sum_co2e
                     (List.filter (Emissions.in_category c) all_activities))
        else None
  | Exn.Raised e => e = Emissions.mixed
  end.
Proof.
  pose proof (summary_cases all_activities) as Hcases. cbv zeta in Hcases.
  destruct (Emissions.get_emissions_summary all_activities) as [s | e].
  - destruct Hcases as (-> & _). apply breakdown_of_category.
  - by destruct Hcases.
Qed.

(** X30.  The emission summary raises [TypeError] exactly when its
    activities carry both a naive and an aware date.  Otherwise it is
    returned, and its date range is absent exactly when no activity
    carries a date; when present, its two ends are dates of activities and
    every dated activity lies between them. *)
Theorem date_range_bounds (all_activities : list Emissions.activity) :
  let dates := Emissions.dates_of all_activities in
  match Emissions.get_emissions_summary all_activities with
  | Exn.Raised e =>
      e = Emissions.mixed
      /\ (exists d, d ∈ dates /\ Emissions.aware d = false)
      /\ (exists d, d ∈ dates /\ Emissions.aware d = true)
  | Exn.Returned s =>
      (exists kind, Forall (fun d => Emissions.aware d = kind) dates)
      /\ match Emissions.date_range s with
         | None => Forall (fun act => Emissions.date act = None) all_activities
         | Some (earliest, latest) =>
             (exists act, act ∈ all_activities /\ Emissions.date act = Some earliest)
             /\ (exists act, act ∈ all_activities /\ Emissions.date act = Some latest)
             /\ forall act d,
                  act ∈ all_activities -> Emissions.date act = Some d ->
                  (Emissions.instant earliest <= Emissions.instant d
                   <= Emissions.instant latest)%Z
         end
  end.
Proof.
  intros dates.
  pose proof (summary_cases all_activities) as Hcases. cbv zeta in Hcases. fold dates in Hcases.
  assert (Helem : forall d, d ∈ dates
                            <-> exists act, act ∈ all_activities /\ Emissions.date act = Some d).
  { intros d. unfold dates, Emissions.dates_of. apply list_elem_of_omap. }
  destruct (Emissions.get_emissions_summary all_activities) as [s | e]; [| exact Hcases].
  destruct Hcases as (_ & _ & _ & Hkind & Hrange). split; [exact Hkind |].
  destruct (Emissions.date_range s) as [[earliest latest] |].
  - destruct Hrange as (He & Hl & Hall).
    split; [by apply Helem |]. split; [by apply Helem |].
    intros act d Hact Hd. apply Hall, Helem. eauto.
  - apply Forall_forall. intros act Hact.
    destruct (Emissions.date act) as [d |] eqn:Hd; [| reflexivity].
    assert (Hin : d ∈ dates) by (apply Helem; eauto).
    rewrite Hrange in Hin. by apply elem_of_nil in Hin.
Qed.
